(** * IoT smart-home backend: hardware abstraction and telemetry subsystem

    A shallow embedding of the Python backend (domain entities, the wire
    codec, the serial and the simulated hardware controllers and the
    controller factory) together with the properties stated for it.

    Conventions of the embedding:
    - a Python [int] is a [Z]; a Python [float] is the rational number it
      denotes ([Q]), every float operation rounding its exact result with
      the interpreter's rounding function [fl]; the floats of the
      embedding are numbers: it has neither the infinities nor NaN;
    - the [bytes] read from the serial link are a [list Byte.byte];
    - a Python [str] that is scanned character by character is a
      [list ascii] (code points below 256), a short wire string is a
      [string];
    - [datetime.utcnow()] is an explicit argument [now];
    - a call that may raise returns a [result]: [Ok v] or [Raise e];
    - [random.uniform] and [random.random] draws are explicit arguments. *)

From Stdlib Require Import ZArith QArith Qround List Ascii String Bool Lia Lqa Permutation.
Import ListNotations.

Set Implicit Arguments.

(** ** Exceptions and results *)

Inductive exn : Type :=
| ValueError
| AttributeError
| RuntimeError
| SerialException
| RetryError.

Inductive result (A : Type) : Type :=
| Ok (a : A)
| Raise (e : exn).

Arguments Ok {A} a.
Arguments Raise {A} e.

Definition bind {A B : Type} (r : result A) (k : A -> result B) : result B :=
  match r with
  | Ok a => k a
  | Raise e => Raise e
  end.

Notation "x <- r ;; k" := (bind r (fun x => k))
  (at level 61, r at next level, right associativity).

Definition exn_eqb (a b : exn) : bool :=
  match a, b with
  | ValueError, ValueError
  | AttributeError, AttributeError
  | RuntimeError, RuntimeError
  | SerialException, SerialException
  | RetryError, RetryError => true
  | _, _ => false
  end.

Definition Qlt_bool (x y : Q) : bool := negb (Qle_bool y x).

(** ** Domain entities (backend/domain/entities.py) *)

Module Entities.

Inductive DeviceType : Type :=
| NIGHT_LED
| GARAGE_DOOR
| MOTION_SENSOR
| RAIN_SENSOR
| CLOTHES_SERVO
| WATER_PUMP
| FLAME_SENSOR
| SMOKE_SENSOR
| DHT_SENSOR.

Inductive DeviceState : Type :=
| ON
| OFF
| OPEN
| CLOSED
| DETECTED
| NOT_DETECTED.

Inductive RuntimeMode : Type :=
| AUTO
| ARDUINO
| SIMULATION.

Definition DeviceType_eqb (a b : DeviceType) : bool :=
  match a, b with
  | NIGHT_LED, NIGHT_LED
  | GARAGE_DOOR, GARAGE_DOOR
  | MOTION_SENSOR, MOTION_SENSOR
  | RAIN_SENSOR, RAIN_SENSOR
  | CLOTHES_SERVO, CLOTHES_SERVO
  | WATER_PUMP, WATER_PUMP
  | FLAME_SENSOR, FLAME_SENSOR
  | SMOKE_SENSOR, SMOKE_SENSOR
  | DHT_SENSOR, DHT_SENSOR => true
  | _, _ => false
  end.

Definition DeviceState_eqb (a b : DeviceState) : bool :=
  match a, b with
  | ON, ON
  | OFF, OFF
  | OPEN, OPEN
  | CLOSED, CLOSED
  | DETECTED, DETECTED
  | NOT_DETECTED, NOT_DETECTED => true
  | _, _ => false
  end.

(** The identifiers that name a sensor: they have no entry in
    [command_map] and no branch in the simulated [send_command]. *)
Definition sensor_only (d : DeviceType) : bool :=
  match d with
  | MOTION_SENSOR | RAIN_SENSOR | FLAME_SENSOR | SMOKE_SENSOR | DHT_SENSOR => true
  | _ => false
  end.

Record DeviceCommand : Type := mkDeviceCommand {
  device_type : DeviceType;
  state : DeviceState;
  cmd_timestamp : Z;
  manual_override : bool
}.

(** The dictionary built inside [DeviceCommand.to_arduino_format]: the
    letter of the actuator and whether the command's state is the state
    the actuator is compared with. *)
Definition command_map (st : DeviceState) (d : DeviceType) : option (ascii * bool) :=
  match d with
  | NIGHT_LED => Some ("L"%char, DeviceState_eqb st ON)
  | GARAGE_DOOR => Some ("G"%char, DeviceState_eqb st OPEN)
  | WATER_PUMP => Some ("P"%char, DeviceState_eqb st ON)
  | CLOTHES_SERVO => Some ("C"%char, DeviceState_eqb st OPEN)
  | _ => None
  end.

Definition to_arduino_format (c : DeviceCommand) : result string :=
  match command_map (state c) (device_type c) with
  | None => Raise ValueError
  | Some (letter, is_active) =>
      Ok (String letter (String (if is_active then "1" else "0")%char EmptyString))
  end.

Record TelemetrySnapshot : Type := mkTelemetrySnapshot {
  timestamp : Z;
  ldr_value : Z;
  garage_distance : Z;
  motion_detected : bool;
  rain_detected : bool;
  water_level : Z;
  soil_moisture : Z;
  pump_active : bool;
  flame_detected : bool;
  smoke_level : Z;
  temperature : Q;
  humidity : Q;
  auto_mode : bool;
  runtime_mode : RuntimeMode
}.

(** [TelemetrySnapshot.__post_init__]: the three range checks, in the
    order of the source and with its comparisons, [not 0 <= v <= hi] for
    the light level and the humidity, [t < -40 or t > 80] for the
    temperature. *)
Definition post_init (s : TelemetrySnapshot) : result unit :=
  if negb ((0 <=? ldr_value s)%Z && (ldr_value s <=? 1023)%Z) then Raise ValueError
  else if negb (Qle_bool 0 (humidity s) && Qle_bool (humidity s) 100) then Raise ValueError
  else if Qlt_bool (temperature s) (-40) || Qlt_bool 80 (temperature s)
       then Raise ValueError
  else Ok tt.

(** Calling the dataclass constructor: the fields are stored and
    [__post_init__] runs. *)
Definition new_TelemetrySnapshot (s : TelemetrySnapshot) : result TelemetrySnapshot :=
  _ <- post_init s ;; Ok s.

Definition evaluate_auto_mode_logic (now : Z) (s : TelemetrySnapshot) : list DeviceCommand :=
  if negb (auto_mode s) then []
  else
    let led_state := if (500 <? ldr_value s)%Z then ON else OFF in
    let garage_state :=
      if (5 <=? garage_distance s)%Z && (garage_distance s <=? 15)%Z then OPEN else CLOSED in
    let clothes_state := if rain_detected s then CLOSED else OPEN in
    let pump_state :=
      if ((1 <=? water_level s)%Z && (water_level s <=? 5)%Z) && (900 <? soil_moisture s)%Z
      then ON else OFF in
    [ mkDeviceCommand NIGHT_LED led_state now false;
      mkDeviceCommand GARAGE_DOOR garage_state now false;
      mkDeviceCommand CLOTHES_SERVO clothes_state now false;
      mkDeviceCommand WATER_PUMP pump_state now false ].

Definition has_emergency (s : TelemetrySnapshot) : bool :=
  flame_detected s || (150 <? smoke_level s)%Z.

Record AutoModeCommand : Type := mkAutoModeCommand {
  enabled : bool;
  auto_timestamp : Z
}.

Definition auto_to_arduino_format (c : AutoModeCommand) : string :=
  String "A"%char (String (if enabled c then "1" else "0")%char EmptyString).

End Entities.

(** ** The interpreter's number conversions

    Two facts about the Python interpreter that the embedding takes as
    parameters: the limit on the number of digits [int()] converts
    ([sys.get_int_max_str_digits()], 0 meaning no limit), and the rounding
    [fl] of an exact rational result to a float. Round-to-nearest is
    monotone and leaves the integers of the ranges used here unchanged. *)

Class Interpreter : Type := {
  int_max_str_digits : nat;
  fl : Q -> Q;
  fl_mono : forall x y : Q, x <= y -> fl x <= fl y;
  fl_int : forall z : Z, (Z.abs z <= 2 ^ 53)%Z -> fl (inject_Z z) == inject_Z z
}.

(** ** Regular expressions (the fragment of [re] used by the decoder) *)

Module Regex.

Definition str (s : string) : list ascii := list_ascii_of_string s.

Definition code (c : ascii) : nat := nat_of_ascii c.

(** [\d] on code points below 256. *)
Definition is_digit (c : ascii) : bool :=
  (48 <=? code c)%nat && (code c <=? 57)%nat.

(** [\s] on code points below 256: tab to carriage return, the four
    information separators, the space, NEL and the no-break space. *)
Definition is_space (c : ascii) : bool :=
  ((9 <=? code c)%nat && (code c <=? 13)%nat)
  || ((28 <=? code c)%nat && (code c <=? 32)%nat)
  || (code c =? 133)%nat || (code c =? 160)%nat.

(** [[\d.]] *)
Definition is_digit_or_dot (c : ascii) : bool :=
  is_digit c || Ascii.eqb c "."%char.

(** One element of a pattern. Every pattern of the decoder is a sequence
    of literals, greedy [\s*], and one capturing group that is either a
    greedy class repetition [(c+)] or an alternation of literals. *)
Inductive item : Type :=
| Lit (l : list ascii)
| Star (cls : ascii -> bool)
| GroupPlus (cls : ascii -> bool)
| GroupAlt (alts : list (list ascii)).

(** [lit l s]: the rest of [s] after the literal [l], if [s] starts with it. *)
Fixpoint lit (l s : list ascii) : option (list ascii) :=
  match l, s with
  | [], _ => Some s
  | a :: l', b :: s' => if Ascii.eqb a b then lit l' s' else None
  | _ :: _, [] => None
  end.

Section Backtracking.
Variable R : Type.

(** One or more characters of the class, the longest run first, giving
    back one character at a time when the continuation fails. *)
Fixpoint plus (cls : ascii -> bool) (k : list ascii -> list ascii -> option R)
         (acc s : list ascii) : option R :=
  match s with
  | c :: s' =>
      if cls c then
        match plus cls k (acc ++ [c]) s' with
        | Some r => Some r
        | None => k (acc ++ [c]) s'
        end
      else None
  | [] => None
  end.

Definition star (cls : ascii -> bool) (k : list ascii -> option R)
           (s : list ascii) : option R :=
  match plus cls (fun _ rest => k rest) [] s with
  | Some r => Some r
  | None => k s
  end.

(** The alternatives in the order written. *)
Fixpoint alt (alts : list (list ascii)) (k : list ascii -> list ascii -> option R)
         (s : list ascii) : option R :=
  match alts with
  | [] => None
  | a :: alts' =>
      match match lit a s with Some rest => k a rest | None => None end with
      | Some r => Some r
      | None => alt alts' k s
      end
  end.
End Backtracking.

(** [match_here its g s]: match the pattern at the start of [s]; the
    result is the text of group 1 ([g] until the group is met). *)
Fixpoint match_here (its : list item) (g s : list ascii) : option (list ascii) :=
  match its with
  | [] => Some g
  | Lit l :: its' =>
      match lit l s with
      | Some rest => match_here its' g rest
      | None => None
      end
  | Star cls :: its' => star cls (match_here its' g) s
  | GroupPlus cls :: its' => plus cls (fun cap rest => match_here its' cap rest) [] s
  | GroupAlt alts :: its' => alt alts (fun cap rest => match_here its' cap rest) s
  end.

(** [re.search]: the first position, from the left, where the pattern
    matches; [None] when there is none. The match object is represented
    by its [group(1)]. *)
Fixpoint search (its : list item) (s : list ascii) : option (list ascii) :=
  match match_here its [] s with
  | Some g => Some g
  | None =>
      match s with
      | [] => None
      | _ :: s' => search its s'
      end
  end.

(** The eleven patterns of [_parse_telemetry]. *)
Definition re_ldr : list item := [Lit (str "LDR:"); Star is_space; GroupPlus is_digit].
Definition re_garage : list item :=
  [Lit (str "Garage Dist:"); Star is_space; GroupPlus is_digit; Star is_space; Lit (str "cm")].
Definition re_motion : list item := [GroupAlt [str "Motion!"; str "No Motion"]].
Definition re_rain : list item := [GroupAlt [str "Rain!"; str "No Rain"]].
Definition re_water : list item :=
  [Lit (str "Water Lvl:"); Star is_space; GroupPlus is_digit; Star is_space; Lit (str "cm")].
Definition re_soil : list item := [Lit (str "Soil:"); Star is_space; GroupPlus is_digit].
Definition re_pump : list item := [Lit (str "Pump "); GroupAlt [str "ON"; str "OFF"]].
Definition re_flame : list item :=
  [Lit (str "Flame:"); Star is_space; GroupAlt [str "YES"; str "NO"]].
Definition re_smoke : list item := [Lit (str "Smoke:"); Star is_space; GroupPlus is_digit].
Definition re_temp : list item :=
  [Lit (str "Temp:"); Star is_space; GroupPlus is_digit_or_dot; Star is_space; Lit (str "C")].
Definition re_hum : list item :=
  [Lit (str "Hum:"); Star is_space; GroupPlus is_digit_or_dot; Lit (str "%")].

End Regex.

(** ** Conversions of text to numbers *)

Module Convert.
Import Regex.

Definition digit_value (c : ascii) : Z := Z.of_nat (code c - 48).

Definition digits_value (ds : list ascii) : Z :=
  fold_left (fun acc c => (10 * acc + digit_value c)%Z) ds 0%Z.

Section WithInterpreter.
Context {I : Interpreter}.

(** [int(text)] on the texts the decoder gives it, the runs of decimal
    digits that the groups [(\d+)] capture: the number they write, or a
    [ValueError] when there are more digits than the interpreter
    converts. The signs, blanks and underscores that [int] also reads
    never reach it from the decoder; a text with any is refused here. *)
Definition py_int (text : list ascii) : result Z :=
  match text with
  | [] => Raise ValueError
  | _ :: _ =>
      if negb (forallb is_digit text) then Raise ValueError
      else if negb (int_max_str_digits =? 0)%nat && (int_max_str_digits <? List.length text)%nat
           then Raise ValueError
      else Ok (digits_value text)
  end.

(** The digits before the first character that is not one, and the rest. *)
Fixpoint span_digits (text : list ascii) : list ascii * list ascii :=
  match text with
  | c :: text' =>
      if is_digit c then let (ds, rest) := span_digits text' in (c :: ds, rest)
      else ([], text)
  | [] => ([], [])
  end.

Definition decimal (ip fp : list ascii) : Q :=
  fl (inject_Z (digits_value (ip ++ fp)) / inject_Z (10 ^ Z.of_nat (List.length fp))).

(** [float(text)] on the texts the decoder gives it, the runs of digits
    and dots that the groups [([\d.]+)] capture: digits with at most one
    dot and at least one digit are the decimal they write, rounded;
    anything else is a [ValueError]. *)
Definition py_float (text : list ascii) : result Q :=
  match span_digits text with
  | ([], []) => Raise ValueError
  | (ip, []) => Ok (decimal ip [])
  | (ip, c :: fp) =>
      if Ascii.eqb c "."%char && forallb is_digit fp
         && negb ((List.length ip =? 0)%nat && (List.length fp =? 0)%nat)
      then Ok (decimal ip fp)
      else Raise ValueError
  end.

(** [int(x)] for a float: truncation towards zero. *)
Definition py_trunc (x : Q) : Z :=
  if Qle_bool 0 x then Qfloor x else Qceiling x.

(** The integer nearest to [x], a tie going to the even one. *)
Definition round_half_even (x : Q) : Z :=
  let f := Qfloor x in
  let d := x - inject_Z f in
  if Qlt_bool d (1 # 2) then f
  else if Qlt_bool (1 # 2) d then (f + 1)%Z
  else if Z.even f then f else (f + 1)%Z.

(** [round(x, 1)] for a float. *)
Definition py_round1 (x : Q) : Q :=
  fl (inject_Z (round_half_even (x * 10)) / 10).

(** Float arithmetic: the exact result, rounded. *)
Definition fadd (x y : Q) : Q := fl (x + y).
Definition fsub (x y : Q) : Q := fl (x - y).
Definition fmul (x y : Q) : Q := fl (x * y).

(** [max(a, b)] and [min(a, b)] of two numbers: the first one unless
    the second is strictly better. *)
Definition py_max (a b : Q) : Q := if Qlt_bool a b then b else a.
Definition py_min (a b : Q) : Q := if Qlt_bool b a then b else a.
End WithInterpreter.

End Convert.

(** ** The retry decorator (the third-party library tenacity)

    What [@retry(stop=..., wait=..., retry=...)] of tenacity does to the
    function it decorates, as the library documents it: attempts are
    numbered from 1; a value returned by an attempt is returned; an
    exception the [retry] predicate does not select propagates; after an
    exception it selects, the call either stops, raising [RetryError], when
    [stop] holds of the attempt number, or sleeps [wait] of the attempt
    number and makes the next attempt. *)

Module Tenacity.

Definition stop_after_attempt (max_attempt_number attempt_number : nat) : bool :=
  (max_attempt_number <=? attempt_number)%nat.

(** [wait_exponential(multiplier, min, max)], in seconds, as tenacity 8
    computes it: [multiplier * 2 ** (attempt_number - 1)], kept between
    [min] and [max]. *)
Definition wait_exponential (multiplier min max : Z) (attempt_number : nat) : Z :=
  Z.max (Z.max 0 min) (Z.min (multiplier * 2 ^ (Z.of_nat attempt_number - 1)) max).

Definition retry_if_exception_type (t e : exn) : bool := exn_eqb e t.

(** The result of a decorated call: what it returned or raised, the
    state it left, and the sleeps it made between attempts, in order. *)
Record outcome (S A : Type) : Type := mkOutcome {
  returned : result A;
  final : S;
  sleeps : list Z
}.

Section Retrying.
Variables S A : Type.
Variable stop : nat -> bool.
Variable wait : nat -> Z.
Variable retry : exn -> bool.
Variable f : S -> result A * S.

(** The loop of the decorator, from attempt [attempt_number] on; the
    fuel bounds the number of attempts, [None] when it runs out. *)
Fixpoint retrying (fuel attempt_number : nat) (st : S) (slept : list Z)
  : option (outcome S A) :=
  match fuel with
  | O => None
  | Datatypes.S fuel' =>
      match f st with
      | (Ok v, st') => Some (mkOutcome (Ok v) st' slept)
      | (Raise e, st') =>
          if retry e then
            if stop attempt_number then Some (mkOutcome (Raise RetryError) st' slept)
            else retrying fuel' (Datatypes.S attempt_number) st'
                          (slept ++ [wait attempt_number])
          else Some (mkOutcome (Raise e) st' slept)
      end
  end.

Definition call (fuel : nat) (st : S) : option (outcome S A) :=
  retrying fuel 1 st [].
End Retrying.

End Tenacity.

(** ** The serial controller (backend/infrastructure/serial_controller.py) *)

Module SerialController.
Import Entities Regex Convert.

(** The serial link as the controller sees it: whether it is open, the
    outcomes it will give to the coming writes ([true]: the bytes are
    accepted, [false]: [SerialException]; writes beyond the list are
    accepted), and the writes attempted so far with their outcome, the
    latest first. *)
Record Serial : Type := mkSerial {
  is_open : bool;
  pending : list bool;
  log : list (string * bool)
}.

Record SerialHardwareController : Type := mkSerialHardwareController {
  _port : option (list ascii);
  _baud_rate : Z;
  _timeout : Q;
  _serial : option Serial;
  _latest_telemetry : option TelemetrySnapshot;
  _running : bool
}.

Definition new_SerialHardwareController (port : option (list ascii)) (baud_rate : Z)
  : SerialHardwareController :=
  mkSerialHardwareController port baud_rate 2 None None false.

Definition runtime_mode (self : SerialHardwareController) : RuntimeMode := ARDUINO.

Definition set_serial (self : SerialHardwareController) (ser : Serial)
  : SerialHardwareController :=
  mkSerialHardwareController (_port self) (_baud_rate self) (_timeout self) (Some ser)
                             (_latest_telemetry self) (_running self).

(** [_send_raw]: one write of the command and its newline, then a flush. *)
Definition _send_raw (self : SerialHardwareController) (command : string)
  : result unit * SerialHardwareController :=
  match _serial self with
  | None => (Ok tt, self)
  | Some ser =>
      let data := (command ++ String "010"%char EmptyString)%string in
      match pending ser with
      | false :: rest =>
          (Raise SerialException,
           set_serial self (mkSerial (is_open ser) rest ((data, false) :: log ser)))
      | true :: rest =>
          (Ok tt, set_serial self (mkSerial (is_open ser) rest ((data, true) :: log ser)))
      | [] =>
          (Ok tt, set_serial self (mkSerial (is_open ser) [] ((data, true) :: log ser)))
      end
  end.

(** The number of writes attempted on the link so far. *)
Definition writes_attempted (self : SerialHardwareController) : nat :=
  match _serial self with
  | None => 0
  | Some ser => List.length (log ser)
  end.

Definition connected (self : SerialHardwareController) : bool :=
  match _serial self with
  | None => false
  | Some ser => is_open ser
  end.

(** The body of [send_command], that is one attempt: the decorator
    [@retry] is applied below. *)
Definition send_command_body (self : SerialHardwareController) (command : DeviceCommand)
  : result bool * SerialHardwareController :=
  if negb (connected self) then (Ok false, self)
  else
    match to_arduino_format command with
    | Raise e => (Raise e, self)
    | Ok arduino_cmd =>
        match _send_raw self arduino_cmd with
        | (Ok _, self') => (Ok true, self')
        | (Raise e, self') => (Raise e, self')
        end
    end.

Definition set_auto_mode (self : SerialHardwareController) (command : AutoModeCommand)
  : result bool * SerialHardwareController :=
  if negb (connected self) then (Ok false, self)
  else
    let arduino_cmd := auto_to_arduino_format command in
    match _send_raw self arduino_cmd with
    | (Ok _, self') => (Ok true, self')
    | (Raise SerialException, self') => (Ok false, self')
    | (Raise e, self') => (Raise e, self')
    end.

(** [send_command] as decorated:
    [@retry(stop=stop_after_attempt(3),
            wait=wait_exponential(multiplier=1, min=1, max=10),
            retry=retry_if_exception_type(SerialException))]. *)
Definition send_command (fuel : nat) (self : SerialHardwareController)
           (command : DeviceCommand)
  : option (Tenacity.outcome SerialHardwareController bool) :=
  Tenacity.call (Tenacity.stop_after_attempt 3)
                (Tenacity.wait_exponential 1 1 10)
                (Tenacity.retry_if_exception_type SerialException)
                (fun st => send_command_body st command)
                fuel self.

(** The serial ports of the host as [list_ports.comports()] lists them,
    and what opening a port on it gives, together with the two buffer
    resets that follow: the link, or the exception raised, which is
    [SerialException] when the device cannot be opened or configured. *)
Record ListPortInfo : Type := mkListPortInfo {
  device : list ascii;
  description : list ascii
}.

Record Host : Type := mkHost {
  comports : list ListPortInfo;
  open_serial : list ascii -> Z -> Q -> result Serial
}.

(** The constructor [Serial(port=..., baudrate=..., timeout=...)] of the
    third-party library pyserial, as the library documents it: the
    arguments are stored first, a negative baud rate and then a negative
    timeout being refused with [ValueError]; the port, which is given,
    is opened after that. *)
Definition new_Serial (host : Host) (port : list ascii) (baudrate : Z) (timeout : Q)
  : result Serial :=
  if (baudrate <? 0)%Z then Raise ValueError
  else if Qlt_bool timeout 0 then Raise ValueError
  else open_serial host port baudrate timeout.

(** [str.lower()] on code points below 256. *)
Definition lower (c : ascii) : ascii :=
  let n := code c in
  if ((65 <=? n)%nat && (n <=? 90)%nat)
     || ((192 <=? n)%nat && (n <=? 222)%nat && negb (n =? 215)%nat)
  then ascii_of_nat (n + 32) else c.

Definition is_prefix (p s : list ascii) : bool :=
  match lit p s with Some _ => true | None => false end.

(** [keyword in text] *)
Fixpoint contains (keyword text : list ascii) : bool :=
  is_prefix keyword text
  || match text with
     | [] => false
     | _ :: text' => contains keyword text'
     end.

Definition arduino_keywords : list (list ascii) :=
  [str "arduino"; str "ch340"; str "ch341"].

Definition _detect_arduino_port (host : Host) : option (list ascii) :=
  match find (fun port =>
                existsb (fun keyword => contains keyword (map lower (description port)))
                        arduino_keywords)
             (comports host) with
  | Some port => Some (device port)
  | None => None
  end.

(** Python's truth value of an optional string: [None] and the empty
    string are false. *)
Definition truthy (p : option (list ascii)) : bool :=
  match p with
  | Some (_ :: _) => true
  | _ => false
  end.

(** [initialize]: the port is detected when none is configured; the
    body of the [try] is under [except SerialException], which raises
    [RuntimeError] in its place; any other exception passes through. *)
Definition initialize (host : Host) (self : SerialHardwareController)
  : result SerialHardwareController :=
  let port := if negb (truthy (_port self)) then _detect_arduino_port host else _port self in
  match port with
  | Some (c :: p) =>
      match new_Serial host (c :: p) (_baud_rate self) (_timeout self) with
      | Ok ser =>
          Ok (mkSerialHardwareController port (_baud_rate self) (_timeout self)
                                         (Some ser) (_latest_telemetry self) true)
      | Raise SerialException => Raise RuntimeError
      | Raise e => Raise e
      end
  | _ => Raise RuntimeError
  end.

Section Decoder.
Context {I : Interpreter}.

(** [m.group(1)]: on [None] the attribute lookup raises. *)
Definition group1 (m : option (list ascii)) : result (list ascii) :=
  match m with
  | Some g => Ok g
  | None => Raise AttributeError
  end.

Fixpoint text_eqb (a b : list ascii) : bool :=
  match a, b with
  | [], [] => true
  | x :: a', y :: b' => Ascii.eqb x y && text_eqb a' b'
  | _, _ => false
  end.

Definition is_some {A : Type} (o : option A) : bool :=
  match o with Some _ => true | None => false end.

(** The body of the [try] of [_parse_telemetry]. *)
Definition parse_body (now : Z) (line : list ascii) : result (option TelemetrySnapshot) :=
  let ldr_match := search re_ldr line in
  let garage_match := search re_garage line in
  let motion_match := search re_motion line in
  let rain_match := search re_rain line in
  let water_match := search re_water line in
  let soil_match := search re_soil line in
  let pump_match := search re_pump line in
  let flame_match := search re_flame line in
  let smoke_match := search re_smoke line in
  let temp_match := search re_temp line in
  let hum_match := search re_hum line in
  if negb (forallb is_some
             [ldr_match; garage_match; motion_match; rain_match;
              water_match; soil_match; pump_match; flame_match;
              smoke_match; temp_match; hum_match])
  then Ok None
  else
    v_ldr <- (g <- group1 ldr_match ;; py_int g) ;;
    v_garage <- (g <- group1 garage_match ;; py_int g) ;;
    v_motion <- (g <- group1 motion_match ;; Ok (text_eqb g (str "Motion!"))) ;;
    v_rain <- (g <- group1 rain_match ;; Ok (text_eqb g (str "Rain!"))) ;;
    v_water <- (g <- group1 water_match ;; py_int g) ;;
    v_soil <- (g <- group1 soil_match ;; py_int g) ;;
    v_pump <- (g <- group1 pump_match ;; Ok (text_eqb g (str "ON"))) ;;
    v_flame <- (g <- group1 flame_match ;; Ok (text_eqb g (str "YES"))) ;;
    v_smoke <- (g <- group1 smoke_match ;; py_int g) ;;
    v_temp <- (g <- group1 temp_match ;; py_float g) ;;
    v_hum <- (g <- group1 hum_match ;; py_float g) ;;
    snapshot <- new_TelemetrySnapshot
                  (mkTelemetrySnapshot now v_ldr v_garage v_motion v_rain v_water
                                       v_soil v_pump v_flame v_smoke v_temp v_hum
                                       true ARDUINO) ;;
    Ok (Some snapshot).

(** [_parse_telemetry]: the body under
    [except (ValueError, AttributeError): return None]. *)
Definition _parse_telemetry (self : SerialHardwareController) (now : Z) (line : list ascii)
  : result (option TelemetrySnapshot) :=
  match parse_body now line with
  | Raise ValueError => Ok None
  | Raise AttributeError => Ok None
  | r => r
  end.

(** [line.decode('ascii', errors='ignore')]: the bytes below 128 are
    the characters of the text, the others are dropped. *)
Definition decode_ascii_ignore (line : list Byte.byte) : list ascii :=
  map ascii_of_byte (filter (fun b => (code (ascii_of_byte b) <? 128)%nat) line).

(** [str.strip()]: the white space of [str.isspace], which is the class
    [\s], is removed at both ends. *)
Fixpoint lstrip (text : list ascii) : list ascii :=
  match text with
  | c :: text' => if is_space c then lstrip text' else text
  | [] => []
  end.

Definition strip (text : list ascii) : list ascii :=
  rev (lstrip (rev (lstrip text))).

(** One iteration of [_telemetry_reader_loop] from the point where
    [readline] has returned the bytes [line]: nothing is done with no
    byte; otherwise the bytes are decoded and stripped, and a snapshot
    parsed from them replaces the cached one. An exception is logged by
    the loop and changes nothing. *)
Definition reader_step (self : SerialHardwareController) (now : Z) (line : list Byte.byte)
  : SerialHardwareController :=
  match line with
  | [] => self
  | _ :: _ =>
      let decoded := strip (decode_ascii_ignore line) in
      match _parse_telemetry self now decoded with
      | Ok (Some telemetry) =>
          mkSerialHardwareController (_port self) (_baud_rate self) (_timeout self)
                                     (_serial self) (Some telemetry) (_running self)
      | _ => self
      end
  end.
End Decoder.

End SerialController.

(** ** The simulated controller
    (backend/infrastructure/simulation_controller.py) *)

Module Simulation.
Import Entities Convert.

Record SimulatedEnvironment : Type := mkSimulatedEnvironment {
  ambient_light : Q;
  garage_distance : Q;
  has_motion : bool;
  is_raining : bool;
  water_level : Q;
  soil_moisture : Q;
  flame_present : bool;
  smoke_level : Q;
  temperature : Q;
  humidity : Q;
  night_led_on : bool;
  garage_open : bool;
  clothes_servo_open : bool;
  pump_on : bool;
  auto_mode : bool
}.

(** [SimulatedEnvironment.__init__] *)
Definition new_SimulatedEnvironment : SimulatedEnvironment :=
  mkSimulatedEnvironment 300 50 false false 3 600 false 50 24 45
                         false false true false true.

(** The random numbers one call of [update] draws, in the order it draws
    them: [uniform(-20, 20)], [uniform(-2, 2)], three times [random()],
    [uniform(-0.5, 0.5)], [uniform(-1, 1)]. *)
Record Draws : Type := mkDraws {
  d_light : Q;
  d_garage : Q;
  d_motion : Q;
  d_rain : Q;
  d_fire : Q;
  d_temperature : Q;
  d_humidity : Q
}.

Section WithInterpreter.
Context {I : Interpreter}.

Definition update (e : SimulatedEnvironment) (delta_time : Q) (r : Draws)
  : SimulatedEnvironment :=
  let ambient_light' := py_max 0 (py_min 1023 (fadd (ambient_light e) (d_light r))) in
  let garage_distance' := py_max 1 (py_min 100 (fadd (garage_distance e) (d_garage r))) in
  let has_motion' := Qlt_bool (d_motion r) (fl (5 # 100)) in
  let is_raining' :=
    if Qlt_bool (d_rain r) (fl (2 # 100)) then negb (is_raining e) else is_raining e in
  let water_level' :=
    py_max 0 (py_min 20
      (if pump_on e then fsub (water_level e) (fmul (fl (1 # 10)) delta_time)
       else fadd (water_level e) (fmul (fl (5 # 100)) delta_time))) in
  let soil_moisture' :=
    py_max 0 (py_min 1023
      (if pump_on e then fsub (soil_moisture e) (fmul 10 delta_time)
       else fadd (soil_moisture e) (fmul 5 delta_time))) in
  let fire := Qlt_bool (d_fire r) (fl (1 # 1000)) in
  let flame_present' := fire in
  let smoke_level' :=
    if fire then 200 else py_max 20 (fsub (smoke_level e) (fmul 5 delta_time)) in
  let temperature' := py_max (-10) (py_min 40 (fadd (temperature e) (d_temperature r))) in
  let humidity' := py_max 0 (py_min 100 (fadd (humidity e) (d_humidity r))) in
  mkSimulatedEnvironment ambient_light' garage_distance' has_motion' is_raining'
                         water_level' soil_moisture' flame_present' smoke_level'
                         temperature' humidity'
                         (night_led_on e) (garage_open e) (clothes_servo_open e)
                         (pump_on e) (auto_mode e).
End WithInterpreter.

Definition apply_auto_mode_logic (e : SimulatedEnvironment) : SimulatedEnvironment :=
  if negb (auto_mode e) then e
  else
    mkSimulatedEnvironment
      (ambient_light e) (garage_distance e) (has_motion e) (is_raining e)
      (water_level e) (soil_moisture e) (flame_present e) (smoke_level e)
      (temperature e) (humidity e)
      (Qlt_bool 500 (ambient_light e))
      (Qle_bool 5 (garage_distance e) && Qle_bool (garage_distance e) 15)
      (negb (is_raining e))
      (Qle_bool 1 (water_level e) && Qle_bool (water_level e) 5
       && Qlt_bool 900 (soil_moisture e))
      (auto_mode e).

(** Times are microseconds since the epoch, the resolution of [datetime]. *)
Record SimulatedHardwareController : Type := mkSimulatedHardwareController {
  _env : SimulatedEnvironment;
  _update_interval : Q;
  _running : bool;
  _last_update_time : Z
}.

Definition new_SimulatedHardwareController (now : Z) : SimulatedHardwareController :=
  mkSimulatedHardwareController new_SimulatedEnvironment 1 false now.

Definition runtime_mode (self : SimulatedHardwareController) : RuntimeMode := SIMULATION.

Definition set_env (self : SimulatedHardwareController) (e : SimulatedEnvironment)
  : SimulatedHardwareController :=
  mkSimulatedHardwareController e (_update_interval self) (_running self)
                                (_last_update_time self).

Definition initialize (self : SimulatedHardwareController) (now : Z)
  : SimulatedHardwareController :=
  mkSimulatedHardwareController (_env self) (_update_interval self) true now.

Definition shutdown (self : SimulatedHardwareController) : SimulatedHardwareController :=
  mkSimulatedHardwareController (_env self) (_update_interval self) false
                                (_last_update_time self).

Definition set_night_led_on (e : SimulatedEnvironment) (b : bool) : SimulatedEnvironment :=
  mkSimulatedEnvironment
    (ambient_light e) (garage_distance e) (has_motion e) (is_raining e)
    (water_level e) (soil_moisture e) (flame_present e) (smoke_level e)
    (temperature e) (humidity e)
    b (garage_open e) (clothes_servo_open e) (pump_on e) (auto_mode e).

Definition set_garage_open (e : SimulatedEnvironment) (b : bool) : SimulatedEnvironment :=
  mkSimulatedEnvironment
    (ambient_light e) (garage_distance e) (has_motion e) (is_raining e)
    (water_level e) (soil_moisture e) (flame_present e) (smoke_level e)
    (temperature e) (humidity e)
    (night_led_on e) b (clothes_servo_open e) (pump_on e) (auto_mode e).

Definition set_clothes_servo_open (e : SimulatedEnvironment) (b : bool)
  : SimulatedEnvironment :=
  mkSimulatedEnvironment
    (ambient_light e) (garage_distance e) (has_motion e) (is_raining e)
    (water_level e) (soil_moisture e) (flame_present e) (smoke_level e)
    (temperature e) (humidity e)
    (night_led_on e) (garage_open e) b (pump_on e) (auto_mode e).

Definition set_pump_on (e : SimulatedEnvironment) (b : bool) : SimulatedEnvironment :=
  mkSimulatedEnvironment
    (ambient_light e) (garage_distance e) (has_motion e) (is_raining e)
    (water_level e) (soil_moisture e) (flame_present e) (smoke_level e)
    (temperature e) (humidity e)
    (night_led_on e) (garage_open e) (clothes_servo_open e) b (auto_mode e).

Definition set_auto (e : SimulatedEnvironment) (b : bool) : SimulatedEnvironment :=
  mkSimulatedEnvironment
    (ambient_light e) (garage_distance e) (has_motion e) (is_raining e)
    (water_level e) (soil_moisture e) (flame_present e) (smoke_level e)
    (temperature e) (humidity e)
    (night_led_on e) (garage_open e) (clothes_servo_open e) (pump_on e) b.

Definition send_command (self : SimulatedHardwareController) (command : DeviceCommand)
  : bool * SimulatedHardwareController :=
  if auto_mode (_env self) && negb (manual_override command) then (false, self)
  else
    let e := _env self in
    let e' :=
      if DeviceType_eqb (device_type command) NIGHT_LED
      then set_night_led_on e (DeviceState_eqb (state command) ON)
      else if DeviceType_eqb (device_type command) GARAGE_DOOR
      then set_garage_open e (DeviceState_eqb (state command) OPEN)
      else if DeviceType_eqb (device_type command) CLOTHES_SERVO
      then set_clothes_servo_open e (DeviceState_eqb (state command) OPEN)
      else if DeviceType_eqb (device_type command) WATER_PUMP
      then set_pump_on e (DeviceState_eqb (state command) ON)
      else e in
    (true, set_env self e').

Definition set_auto_mode (self : SimulatedHardwareController) (command : AutoModeCommand)
  : bool * SimulatedHardwareController :=
  (true, set_env self (set_auto (_env self) (enabled command))).

Section WithInterpreter.
Context {I : Interpreter}.

(** [get_telemetry]: the constructor under [except ValueError: return
    None]. The arguments are converted first: [int()] truncates a float
    and [round(x, 1)] rounds it, neither failing on a number. *)
Definition get_telemetry (self : SimulatedHardwareController) (now : Z)
  : result (option TelemetrySnapshot) :=
  let e := _env self in
  match new_TelemetrySnapshot
          (mkTelemetrySnapshot now
             (py_trunc (ambient_light e))
             (py_trunc (garage_distance e))
             (has_motion e)
             (is_raining e)
             (py_trunc (water_level e))
             (py_trunc (soil_moisture e))
             (pump_on e)
             (flame_present e)
             (py_trunc (smoke_level e))
             (py_round1 (temperature e))
             (py_round1 (humidity e))
             (auto_mode e)
             SIMULATION) with
  | Ok snapshot => Ok (Some snapshot)
  | Raise ValueError => Ok None
  | Raise e => Raise e
  end.

(** One iteration of [_simulation_loop] at time [current_time]. *)
Definition tick (self : SimulatedHardwareController) (current_time : Z) (r : Draws)
  : SimulatedHardwareController :=
  let delta := fl (inject_Z (current_time - _last_update_time self) / 1000000) in
  mkSimulatedHardwareController
    (apply_auto_mode_logic (update (_env self) delta r))
    (_update_interval self) (_running self) current_time.

(** What can happen to a controller: the moves of its loop and the
    calls of its interface. *)
Inductive step : SimulatedHardwareController -> SimulatedHardwareController -> Prop :=
| step_update self delta_time r :
    step self (set_env self (update (_env self) delta_time r))
| step_apply_auto_mode_logic self :
    step self (set_env self (apply_auto_mode_logic (_env self)))
| step_tick self current_time r :
    step self (tick self current_time r)
| step_send_command self command :
    step self (snd (send_command self command))
| step_set_auto_mode self command :
    step self (snd (set_auto_mode self command))
| step_initialize self now :
    step self (initialize self now)
| step_shutdown self :
    step self (shutdown self).

Inductive reachable : SimulatedHardwareController -> Prop :=
| reachable_new now : reachable (new_SimulatedHardwareController now)
| reachable_step self self' : reachable self -> step self self' -> reachable self'.
End WithInterpreter.

End Simulation.

(** ** The factory (backend/infrastructure/hardware_factory.py) *)

Module Factory.
Import Entities.

(** A value of the protocol [HardwareController]: one of its two
    implementations. *)
Inductive HardwareController : Type :=
| Serial (c : SerialController.SerialHardwareController)
| Simulated (c : Simulation.SimulatedHardwareController).

Definition runtime_mode (c : HardwareController) : RuntimeMode :=
  match c with
  | Serial c => SerialController.runtime_mode c
  | Simulated c => Simulation.runtime_mode c
  end.

Definition create (host : SerialController.Host) (now : Z) (mode : RuntimeMode)
           (serial_port : option (list ascii)) (baud_rate : Z)
  : result HardwareController :=
  match mode with
  | ARDUINO =>
      controller <- SerialController.initialize host
                      (SerialController.new_SerialHardwareController serial_port baud_rate) ;;
      Ok (Serial controller)
  | SIMULATION =>
      Ok (Simulated (Simulation.initialize (Simulation.new_SimulatedHardwareController now) now))
  | AUTO =>
      match SerialController.initialize host
              (SerialController.new_SerialHardwareController serial_port baud_rate) with
      | Ok controller => Ok (Serial controller)
      | Raise RuntimeError =>
          Ok (Simulated
                (Simulation.initialize (Simulation.new_SimulatedHardwareController now) now))
      | Raise e => Raise e
      end
  end.

End Factory.

(** An interpreter whose floats are exact: it shows that the laws of
    [Interpreter] can be met, and it evaluates the examples. *)
Definition exact_interpreter : Interpreter.
Proof.
  refine {| int_max_str_digits := 4300; fl := fun q => q |}.
  - intros x y Hxy. exact Hxy.
  - intros z _. reflexivity.
Defined.

(** * Properties *)

(** ** The control law *)

Module ControlLaw.
Import Entities.

Definition between (lo x hi : Z) : Prop := (lo <= x <= hi)%Z.

Lemma between_spec lo x hi :
  (lo <=? x)%Z && (x <=? hi)%Z = true <-> between lo x hi.
Proof.
  unfold between. rewrite andb_true_iff, !Z.leb_le. tauto.
Qed.

(** The snapshot of the repository's own test of the control law. *)
Definition test_snapshot : TelemetrySnapshot :=
  mkTelemetrySnapshot 0 600 10 false true 3 950 false false 45 (245 # 10) 55 true SIMULATION.

Definition with_auto_mode (s : TelemetrySnapshot) (b : bool) : TelemetrySnapshot :=
  mkTelemetrySnapshot (timestamp s) (ldr_value s) (Entities.garage_distance s)
    (motion_detected s) (rain_detected s) (water_level s) (soil_moisture s)
    (pump_active s) (flame_detected s) (smoke_level s) (temperature s) (humidity s)
    b (Entities.runtime_mode s).

(** C1. With auto mode off the control law gives no command. With auto
    mode on it gives exactly four commands, for the night LED, the garage
    door, the clothes servo and the pump in this order, all stamped [now]
    and without manual override; the LED is ON exactly when the light
    level exceeds 500, the garage OPEN exactly when the distance is
    between 5 and 15 inclusive, the clothes cover CLOSED exactly when rain
    is detected, and the pump ON exactly when the water level is between 1
    and 5 inclusive and the soil moisture exceeds 900. *)
Theorem evaluate_auto_mode_logic_thresholds (now : Z) (s : TelemetrySnapshot) :
  (auto_mode s = false -> evaluate_auto_mode_logic now s = [])
  /\ (auto_mode s = true ->
      exists led garage clothes pump : DeviceState,
        evaluate_auto_mode_logic now s =
          [ mkDeviceCommand NIGHT_LED led now false;
            mkDeviceCommand GARAGE_DOOR garage now false;
            mkDeviceCommand CLOTHES_SERVO clothes now false;
            mkDeviceCommand WATER_PUMP pump now false ]
        /\ (led = ON <-> (500 < ldr_value s)%Z)
        /\ (led = OFF <-> (ldr_value s <= 500)%Z)
        /\ (garage = OPEN <-> between 5 (garage_distance s) 15)
        /\ (garage = CLOSED <-> ~ between 5 (garage_distance s) 15)
        /\ (clothes = CLOSED <-> rain_detected s = true)
        /\ (clothes = OPEN <-> rain_detected s = false)
        /\ (pump = ON <-> between 1 (water_level s) 5 /\ (900 < soil_moisture s)%Z)
        /\ (pump = OFF <-> ~ (between 1 (water_level s) 5 /\ (900 < soil_moisture s)%Z))).
Proof.
  unfold evaluate_auto_mode_logic. split; intros Hauto; rewrite Hauto; simpl.
  - reflexivity.
  - do 4 eexists. split; [reflexivity|].
    pose proof (between_spec 5 (garage_distance s) 15) as Hg.
    pose proof (between_spec 1 (water_level s) 5) as Hw.
    destruct (Z.ltb_spec 500 (ldr_value s)) as [Hl | Hl];
    destruct ((5 <=? garage_distance s)%Z && (garage_distance s <=? 15)%Z);
    destruct (rain_detected s);
    destruct ((1 <=? water_level s)%Z && (water_level s <=? 5)%Z);
    destruct (Z.ltb_spec 900 (soil_moisture s)) as [Hs | Hs]; simpl;
    repeat split; intros; try discriminate; try congruence; try lia;
    try (apply Hg; reflexivity); try (apply Hw; reflexivity);
    try (intros Hb; apply Hg in Hb; discriminate);
    try (intros [Hb _]; apply Hw in Hb; discriminate);
    try (intros [_ Hb]; lia);
    try (exfalso; intuition (try discriminate; try lia; fail)).
Qed.

Lemma evaluate_auto_mode_logic_thresholds_witness :
  evaluate_auto_mode_logic 0 (with_auto_mode test_snapshot false) = [].
Proof.
  apply (proj1 (evaluate_auto_mode_logic_thresholds 0 (with_auto_mode test_snapshot false))).
  reflexivity.
Defined.

(** The boundary values: 500 and 501 for the light, 4, 5, 15 and 16 for
    the distance, rain whatever the rest, 950 and 850 for the soil at
    water level 3. *)
Definition snapshot_of (ldr garage : Z) (rain : bool) (water soil : Z) : TelemetrySnapshot :=
  mkTelemetrySnapshot 0 ldr garage false rain water soil false false 45 (245 # 10) 55
                      true SIMULATION.

Example control_law_boundaries :
  map state (evaluate_auto_mode_logic 0 (snapshot_of 500 4 true 3 950)) = [OFF; CLOSED; CLOSED; ON]
  /\ map state (evaluate_auto_mode_logic 0 (snapshot_of 501 5 false 3 850)) = [ON; OPEN; OPEN; OFF]
  /\ map state (evaluate_auto_mode_logic 0 (snapshot_of 0 15 false 0 950)) = [OFF; OPEN; OPEN; OFF]
  /\ map state (evaluate_auto_mode_logic 0 (snapshot_of 1023 16 true 6 950)) = [ON; CLOSED; CLOSED; OFF].
Proof. repeat split. Qed.

Example control_law_test :
  map state (evaluate_auto_mode_logic 0 test_snapshot) = [ON; OPEN; CLOSED; ON].
Proof. reflexivity. Qed.

End ControlLaw.

(** ** The wire encoding of commands *)

Module Codec.
Import Entities.

(** The letter of an actuator on the wire. *)
Definition actuator_letter (d : DeviceType) : option ascii :=
  match d with
  | NIGHT_LED => Some "L"%char
  | GARAGE_DOOR => Some "G"%char
  | WATER_PUMP => Some "P"%char
  | CLOTHES_SERVO => Some "C"%char
  | _ => None
  end.

(** The state that switches an actuator: the light and the pump are
    switched on, the barrier and the cover are opened. *)
Definition active_state (d : DeviceType) : DeviceState :=
  match d with
  | GARAGE_DOOR | CLOTHES_SERVO => OPEN
  | _ => ON
  end.

(** The digit the specification gives to a state, whatever the actuator:
    on and open are 1, off and closed are 0. *)
Definition spec_digit (st : DeviceState) : option ascii :=
  match st with
  | ON | OPEN => Some "1"%char
  | OFF | CLOSED => Some "0"%char
  | _ => None
  end.

Definition wire (letter digit : ascii) : string :=
  String letter (String digit EmptyString).

(** The specification's reading of the encoding: every actuator with
    every state that has a digit encodes to its letter and that digit. *)
Definition encodes_state_alone : Prop :=
  forall (c : DeviceCommand) (letter digit : ascii),
    actuator_letter (device_type c) = Some letter ->
    spec_digit (state c) = Some digit ->
    to_arduino_format c = Ok (wire letter digit).

(** C2, as stated, fails: the night LED commanded OPEN (a command the
    manual-control route builds from device "night_led" and action
    "open") encodes to L0, not to L1. *)
Lemma open_light_encodes_to_L0 : ~ encodes_state_alone.
Proof.
  intros Hspec.
  specialize (Hspec (mkDeviceCommand NIGHT_LED OPEN 0 true) "L"%char "1"%char
                    eq_refl eq_refl).
  discriminate Hspec.
Qed.

(** C2, amended. An actuator's command encodes to the actuator's letter
    followed by 1 when the state is the one that switches this actuator
    (ON for the light and the pump, OPEN for the barrier and the cover)
    and by 0 for every other state; so ON and OPEN give 1, OFF and CLOSED
    give 0 on the actuators they belong to. An auto-mode command encodes
    to A1 when enabled and A0 when not. A command for a sensor-only
    identifier raises an error. *)
Theorem to_arduino_format_codec (c : DeviceCommand) (a : AutoModeCommand) :
  (forall letter, actuator_letter (device_type c) = Some letter ->
     to_arduino_format c =
       Ok (wire letter
             (if DeviceState_eqb (state c) (active_state (device_type c))
              then "1" else "0")%char))
  /\ (sensor_only (device_type c) = true <-> actuator_letter (device_type c) = None)
  /\ (sensor_only (device_type c) = true -> to_arduino_format c = Raise ValueError)
  /\ auto_to_arduino_format a = wire "A" (if enabled a then "1" else "0")%char.
Proof.
  unfold to_arduino_format, auto_to_arduino_format, wire.
  destruct c as [d st ts mo]; simpl.
  repeat split; destruct d; simpl; intros; try discriminate; try congruence.
Qed.

Lemma to_arduino_format_codec_witness :
  to_arduino_format (mkDeviceCommand GARAGE_DOOR CLOSED 0 false) = Ok "G0"%string.
Proof.
  apply (proj1 (to_arduino_format_codec (mkDeviceCommand GARAGE_DOOR CLOSED 0 false)
                                        (mkAutoModeCommand true 0))).
  reflexivity.
Defined.

(** The sixteen combinations of an actuator with ON, OFF, OPEN, CLOSED. *)
Example encoding_table :
  map (fun d => map (fun st => to_arduino_format (mkDeviceCommand d st 0 false))
                    [ON; OFF; OPEN; CLOSED])
      [NIGHT_LED; GARAGE_DOOR; WATER_PUMP; CLOTHES_SERVO]
  = [ [Ok "L1"; Ok "L0"; Ok "L0"; Ok "L0"];
      [Ok "G0"; Ok "G0"; Ok "G1"; Ok "G0"];
      [Ok "P1"; Ok "P0"; Ok "P0"; Ok "P0"];
      [Ok "C0"; Ok "C0"; Ok "C1"; Ok "C0"] ]%string.
Proof. reflexivity. Qed.

End Codec.

(** ** The simulated backend *)

Module SimulatedBackend.
Import Entities Simulation.

(** The flag of the environment an actuator identifier addresses. *)
Definition actuator_flag (e : SimulatedEnvironment) (d : DeviceType) : option bool :=
  match d with
  | NIGHT_LED => Some (night_led_on e)
  | GARAGE_DOOR => Some (garage_open e)
  | CLOTHES_SERVO => Some (clothes_servo_open e)
  | WATER_PUMP => Some (pump_on e)
  | _ => None
  end.

(** Everything of the environment that is not an actuator flag. *)
Definition surroundings (e : SimulatedEnvironment)
  : Q * Q * bool * bool * Q * Q * bool * Q * Q * Q * bool :=
  (ambient_light e, garage_distance e, has_motion e, is_raining e, water_level e,
   soil_moisture e, flame_present e, smoke_level e, temperature e, humidity e,
   auto_mode e).

Lemma set_env_same (self : SimulatedHardwareController) : set_env self (_env self) = self.
Proof. destruct self; reflexivity. Qed.

Definition idle_controller : SimulatedHardwareController := new_SimulatedHardwareController 0.

(** C6. While auto mode is enabled a command without manual override is
    refused: [send_command] returns false and the controller, so every
    actuator state, is unchanged. A command for an actuator that carries
    manual override, or that arrives while auto mode is disabled, is
    accepted: [send_command] returns true and the flag of the addressed
    actuator becomes true when the commanded state is the one that
    switches it (ON for the LED and the pump, OPEN for the garage and the
    clothes servo) and false otherwise (OFF, CLOSED); the other actuator
    flags and the rest of the environment stay as they were. *)
Theorem send_command_gate (self : SimulatedHardwareController) (command : DeviceCommand) :
  (auto_mode (_env self) = true -> manual_override command = false ->
   send_command self command = (false, self))
  /\ (manual_override command = true \/ auto_mode (_env self) = false ->
      sensor_only (device_type command) = false ->
      let after := snd (send_command self command) in
      fst (send_command self command) = true
      /\ actuator_flag (_env after) (device_type command)
         = Some (DeviceState_eqb (state command) (Codec.active_state (device_type command)))
      /\ (forall d, d <> device_type command ->
            actuator_flag (_env after) d = actuator_flag (_env self) d)
      /\ surroundings (_env after) = surroundings (_env self)).
Proof.
  unfold send_command. split.
  - intros Hauto Hman. rewrite Hauto, Hman. reflexivity.
  - intros Hgate Hact.
    assert (Hopen : auto_mode (_env self) && negb (manual_override command) = false).
    { destruct Hgate as [H | H]; rewrite H; [apply andb_false_r | reflexivity]. }
    rewrite Hopen. cbv zeta.
    destruct command as [d st ts mo]; simpl in *.
    destruct d; try discriminate Hact; simpl;
      repeat split; try reflexivity;
      intros d' Hd'; destruct d'; try reflexivity; congruence.
Qed.

Lemma send_command_gate_witness :
  send_command idle_controller (mkDeviceCommand NIGHT_LED ON 0 false) = (false, idle_controller).
Proof.
  apply (proj1 (send_command_gate idle_controller (mkDeviceCommand NIGHT_LED ON 0 false)));
    reflexivity.
Defined.

Example send_command_override :
  let r := send_command idle_controller (mkDeviceCommand GARAGE_DOOR OPEN 0 true) in
  fst r = true /\ garage_open (_env (snd r)) = true
  /\ garage_open (_env idle_controller) = false.
Proof. repeat split. Qed.

(** C10. A command addressed to a sensor-only identifier (motion, rain,
    flame, smoke or temperature/humidity sensor) that passes the auto-mode
    gate (auto mode disabled, or manual override set) is reported as a
    success, [send_command] returning true, and changes nothing: the
    controller after the call is the controller before it. *)
Theorem send_command_sensor_accepted
        (self : SimulatedHardwareController) (command : DeviceCommand) :
  sensor_only (device_type command) = true ->
  auto_mode (_env self) = false \/ manual_override command = true ->
  send_command self command = (true, self).
Proof.
  intros Hsensor Hgate. unfold send_command.
  assert (Hopen : auto_mode (_env self) && negb (manual_override command) = false).
  { destruct Hgate as [H | H]; rewrite H; [reflexivity | apply andb_false_r]. }
  rewrite Hopen.
  destruct command as [d st ts mo]; simpl in *.
  destruct d; try discriminate Hsensor; simpl; now rewrite set_env_same.
Qed.

Lemma send_command_sensor_accepted_witness :
  send_command idle_controller (mkDeviceCommand DHT_SENSOR ON 0 true)
  = (true, idle_controller).
Proof.
  apply (send_command_sensor_accepted idle_controller (mkDeviceCommand DHT_SENSOR ON 0 true)).
  - reflexivity.
  - right. reflexivity.
Defined.

End SimulatedBackend.

(** ** The ranges of the simulated environment *)

Module EnvironmentRanges.
Import Entities Convert Simulation.

Lemma Qlt_bool_true (x y : Q) : Qlt_bool x y = true <-> x < y.
Proof.
  unfold Qlt_bool. rewrite negb_true_iff. split.
  - intros H. apply Qnot_le_lt. intros Hle. apply Qle_bool_iff in Hle. congruence.
  - intros H. destruct (Qle_bool y x) eqn:E; [|reflexivity].
    apply Qle_bool_iff in E. exfalso. apply (Qlt_not_le _ _ H E).
Qed.

Lemma Qlt_bool_false (x y : Q) : Qlt_bool x y = false <-> y <= x.
Proof.
  unfold Qlt_bool. rewrite negb_false_iff. apply Qle_bool_iff.
Qed.

(** [max(lo, min(hi, x))] lies between [lo] and [hi]. *)
Lemma clamp_range (lo hi x : Q) :
  lo <= hi -> lo <= py_max lo (py_min hi x) /\ py_max lo (py_min hi x) <= hi.
Proof.
  intros Hlh. unfold py_max, py_min.
  destruct (Qlt_bool x hi) eqn:E1.
  - apply Qlt_bool_true in E1.
    destruct (Qlt_bool lo x) eqn:E2.
    + apply Qlt_bool_true in E2. split; lra.
    + split; lra.
  - apply Qlt_bool_false in E1.
    destruct (Qlt_bool lo hi) eqn:E2.
    + split; lra.
    + split; lra.
Qed.

Lemma py_trunc_range (lo hi : Z) (x : Q) :
  (lo <= 0)%Z -> (0 <= hi)%Z ->
  inject_Z lo <= x -> x <= inject_Z hi -> (lo <= py_trunc x <= hi)%Z.
Proof.
  intros Hlo Hhi Hl Hh. unfold py_trunc.
  destruct (Qle_bool 0 x) eqn:E.
  - apply Qle_bool_iff in E. split.
    + apply Z.le_trans with 0%Z; [exact Hlo|].
      change 0%Z with (Qfloor 0). apply Qfloor_resp_le. exact E.
    + rewrite <- (Qfloor_Z hi). apply Qfloor_resp_le. exact Hh.
  - assert (Hneg : x <= 0).
    { apply Qlt_le_weak. apply Qnot_le_lt. intros H. apply Qle_bool_iff in H. congruence. }
    split.
    + rewrite <- (Qceiling_Z lo). apply Qceiling_resp_le. exact Hl.
    + apply Z.le_trans with 0%Z; [|exact Hhi].
      change 0%Z with (Qceiling 0). apply Qceiling_resp_le. exact Hneg.
Qed.

Lemma round_half_even_range (lo hi : Z) (x : Q) :
  inject_Z lo <= x -> x <= inject_Z hi -> (lo <= round_half_even x <= hi)%Z.
Proof.
  intros Hl Hh.
  assert (Hf1 : (lo <= Qfloor x)%Z).
  { rewrite <- (Qfloor_Z lo). apply Qfloor_resp_le. exact Hl. }
  assert (Hf2 : (Qfloor x <= hi)%Z).
  { rewrite <- (Qfloor_Z hi). apply Qfloor_resp_le. exact Hh. }
  assert (Hup : 0 < x - inject_Z (Qfloor x) -> (Qfloor x + 1 <= hi)%Z).
  { intros Hpos.
    assert (Hlt : inject_Z (Qfloor x) < inject_Z hi) by lra.
    rewrite <- Zlt_Qlt in Hlt. lia. }
  unfold round_half_even.
  destruct (Qlt_bool (x - inject_Z (Qfloor x)) (1 # 2)) eqn:E1; [lia|].
  apply Qlt_bool_false in E1.
  assert (Hpos : 0 < x - inject_Z (Qfloor x)) by lra.
  specialize (Hup Hpos).
  destruct (Qlt_bool (1 # 2) (x - inject_Z (Qfloor x))); [lia|].
  destruct (Z.even (Qfloor x)); lia.
Qed.

Section WithInterpreter.
Context {I : Interpreter}.

Lemma fl_between (lo hi : Z) (x : Q) :
  (Z.abs lo <= 2 ^ 53)%Z -> (Z.abs hi <= 2 ^ 53)%Z ->
  inject_Z lo <= x -> x <= inject_Z hi ->
  inject_Z lo <= fl x /\ fl x <= inject_Z hi.
Proof.
  intros Hlo Hhi Hl Hh. split.
  - rewrite <- (fl_int lo Hlo). apply fl_mono. exact Hl.
  - rewrite <- (fl_int hi Hhi). apply fl_mono. exact Hh.
Qed.

(** [round(x, 1)] stays between two integers that [x] lies between. *)
Lemma py_round1_range (lo hi : Z) (x : Q) :
  (Z.abs lo <= 2 ^ 53)%Z -> (Z.abs hi <= 2 ^ 53)%Z ->
  inject_Z lo <= x -> x <= inject_Z hi ->
  inject_Z lo <= py_round1 x /\ py_round1 x <= inject_Z hi.
Proof.
  intros Hlo Hhi Hl Hh. unfold py_round1.
  assert (Hr : (10 * lo <= round_half_even (x * 10) <= 10 * hi)%Z).
  { apply round_half_even_range; rewrite inject_Z_mult; change (inject_Z 10) with 10; lra. }
  destruct Hr as [Hr1 Hr2].
  rewrite Zle_Qle in Hr1, Hr2. rewrite inject_Z_mult in Hr1, Hr2.
  change (inject_Z 10) with 10 in Hr1, Hr2.
  apply fl_between; try assumption.
  - apply Qle_shift_div_l; lra.
  - apply Qle_shift_div_r; lra.
Qed.

(** The ranges [TelemetrySnapshot] validates, on the environment. *)
Definition in_range (e : SimulatedEnvironment) : Prop :=
  (0 <= ambient_light e /\ ambient_light e <= 1023)
  /\ (0 <= humidity e /\ humidity e <= 100)
  /\ (-40 <= temperature e /\ temperature e <= 80).

Lemma in_range_new : in_range new_SimulatedEnvironment.
Proof. unfold in_range; simpl. repeat split; lra. Qed.

(** [update] clamps, whatever the state before, the time delta and the
    random draws. *)
Lemma in_range_update (e : SimulatedEnvironment) (delta_time : Q) (r : Draws) :
  in_range (update e delta_time r).
Proof.
  unfold in_range, update; simpl.
  pose proof (@clamp_range 0 1023 (fadd (ambient_light e) (d_light r))) as H1.
  pose proof (@clamp_range 0 100 (fadd (humidity e) (d_humidity r))) as H2.
  pose proof (@clamp_range (-10) 40 (fadd (temperature e) (d_temperature r))) as H3.
  repeat split; try (apply H1; lra); try (apply H2; lra).
  - apply Qle_trans with (-10); [lra | apply H3; lra].
  - apply Qle_trans with 40; [apply H3; lra | lra].
Qed.

Lemma in_range_apply_auto_mode_logic (e : SimulatedEnvironment) :
  in_range e -> in_range (apply_auto_mode_logic e).
Proof.
  unfold apply_auto_mode_logic. destruct (auto_mode e); simpl; intros H; exact H.
Qed.

Lemma in_range_send_command (self : SimulatedHardwareController) (command : DeviceCommand) :
  in_range (_env self) -> in_range (_env (snd (send_command self command))).
Proof.
  unfold send_command.
  destruct (auto_mode (_env self) && negb (manual_override command)); simpl;
    [intros H; exact H|].
  destruct (device_type command); simpl; intros H; exact H.
Qed.

Lemma in_range_step (self self' : SimulatedHardwareController) :
  step self self' -> in_range (_env self) -> in_range (_env self').
Proof.
  intros Hstep Hin. destruct Hstep; simpl.
  - apply in_range_update.
  - apply in_range_apply_auto_mode_logic. exact Hin.
  - apply in_range_apply_auto_mode_logic. apply in_range_update.
  - apply in_range_send_command. exact Hin.
  - exact Hin.
  - exact Hin.
  - exact Hin.
Qed.

Lemma in_range_reachable (self : SimulatedHardwareController) :
  reachable self -> in_range (_env self).
Proof.
  induction 1 as [now | self self' _ IH Hstep].
  - apply in_range_new.
  - exact (in_range_step Hstep IH).
Qed.

(** In range, the snapshot passes the validation of its constructor. *)
Lemma get_telemetry_in_range (self : SimulatedHardwareController) (now : Z) :
  in_range (_env self) ->
  exists snapshot, get_telemetry self now = Ok (Some snapshot).
Proof.
  intros [[Ha1 Ha2] [[Hh1 Hh2] [Ht1 Ht2]]].
  unfold get_telemetry, new_TelemetrySnapshot, post_init; simpl.
  assert (Hldr : (0 <= py_trunc (ambient_light (_env self)) <= 1023)%Z).
  { apply py_trunc_range; try lia; assumption. }
  assert (Hhum : inject_Z 0 <= py_round1 (humidity (_env self))
                 /\ py_round1 (humidity (_env self)) <= inject_Z 100).
  { apply py_round1_range; try (simpl; lia); assumption. }
  assert (Htmp : inject_Z (-40) <= py_round1 (temperature (_env self))
                 /\ py_round1 (temperature (_env self)) <= inject_Z 80).
  { apply py_round1_range; try (simpl; lia); assumption. }
  destruct Hldr as [Hl1 Hl2]. destruct Hhum as [Hu1 Hu2]. destruct Htmp as [Hp1 Hp2].
  apply Z.leb_le in Hl1, Hl2. rewrite Hl1, Hl2.
  apply Qle_bool_iff in Hu1, Hu2.
  change (inject_Z 0) with 0 in Hu1. change (inject_Z 100) with 100 in Hu2.
  rewrite Hu1, Hu2.
  change (inject_Z (-40)) with (-40) in Hp1. change (inject_Z 80) with 80 in Hp2.
  apply Qlt_bool_false in Hp1, Hp2. rewrite Hp1, Hp2. simpl.
  eexists. reflexivity.
Qed.

(** C8. In every state of the simulated controller reachable from a
    new one by updates of the environment (any time delta, any random
    draws), applications of the auto-mode logic, loop iterations,
    [send_command], [set_auto_mode], [initialize] and [shutdown], the
    ambient light is within 0 and 1023, the humidity within 0 and 100
    and the temperature within -40 and 80; and there [get_telemetry]
    returns a snapshot: the range validation of its constructor does not
    fail, and no error is raised. *)
Theorem reachable_in_range (self : SimulatedHardwareController) :
  reachable self ->
  in_range (_env self)
  /\ forall now : Z, exists snapshot, get_telemetry self now = Ok (Some snapshot).
Proof.
  intros Hreach. pose proof (in_range_reachable Hreach) as Hin.
  split; [exact Hin|]. intros now. apply get_telemetry_in_range. exact Hin.
Qed.
End WithInterpreter.

(** A controller after one loop iteration three seconds late, with
    draws that push the light, the temperature and the humidity out of
    their ranges before clamping, and a command. *)
Definition wild_draws : Draws := mkDraws 2000 (-300) (1 # 100) (1 # 100) 0 (-90) 170.

Definition shaken_controller : SimulatedHardwareController :=
  snd (send_command
         (@tick exact_interpreter (new_SimulatedHardwareController 0) 3000000 wild_draws)
         (mkDeviceCommand WATER_PUMP ON 0 true)).

Lemma shaken_controller_reachable : @reachable exact_interpreter shaken_controller.
Proof.
  unfold shaken_controller.
  eapply reachable_step; [eapply reachable_step; [apply reachable_new|]|].
  - apply step_tick.
  - apply step_send_command.
Qed.

Lemma reachable_in_range_witness :
  @in_range shaken_controller.(_env)
  /\ forall now : Z,
       exists snapshot, @get_telemetry exact_interpreter shaken_controller now
                        = Ok (Some snapshot).
Proof.
  exact (@reachable_in_range exact_interpreter shaken_controller shaken_controller_reachable).
Defined.

Example shaken_controller_telemetry :
  exists snapshot,
    @get_telemetry exact_interpreter shaken_controller 7 = Ok (Some snapshot)
    /\ ldr_value snapshot = 1023%Z
    /\ Entities.soil_moisture snapshot = 615%Z
    /\ Entities.temperature snapshot == -10
    /\ Entities.humidity snapshot == 100
    /\ pump_active snapshot = true.
Proof. eexists. split; [vm_compute; reflexivity|]. repeat split. Qed.

End EnvironmentRanges.

(** ** The factory's fallback *)

Module FactoryFallback.
Import Entities.
Import SerialController(Host, mkHost, mkListPortInfo, new_SerialHardwareController,
                        truthy, _detect_arduino_port, new_Serial).

(** The port [initialize] opens: the configured one, the detected one
    when none is configured. *)
Definition chosen_port (host : Host) (serial_port : option (list ascii))
  : option (list ascii) :=
  if negb (truthy serial_port) then _detect_arduino_port host else serial_port.

Lemma initialize_no_device host baud_rate port :
  truthy port = false -> _detect_arduino_port host = None ->
  SerialController.initialize host (new_SerialHardwareController port baud_rate)
  = Raise RuntimeError.
Proof.
  intros Hport Hnone. unfold SerialController.initialize; simpl.
  rewrite Hport; simpl. rewrite Hnone. reflexivity.
Qed.

(** With a port to open, [initialize] fails as the constructor of the
    link fails, [SerialException] turned into [RuntimeError]. *)
Lemma initialize_raises host serial_port baud_rate c p e :
  chosen_port host serial_port = Some (c :: p) ->
  new_Serial host (c :: p) baud_rate 2 = Raise e ->
  SerialController.initialize host (new_SerialHardwareController serial_port baud_rate)
  = Raise (if exn_eqb e SerialException then RuntimeError else e).
Proof.
  unfold chosen_port, SerialController.initialize; simpl.
  intros -> ->. destruct e; reflexivity.
Qed.

Lemma new_Serial_negative_baud_rate host port baud_rate timeout :
  (baud_rate < 0)%Z -> new_Serial host port baud_rate timeout = Raise ValueError.
Proof.
  intros H. unfold new_Serial. apply Z.ltb_lt in H. rewrite H. reflexivity.
Qed.

(** A host with one serial port that is not an Arduino, a host whose
    Arduino port refuses to open, and a host whose Arduino port opens. *)
Definition host_without_arduino : Host :=
  mkHost [mkListPortInfo (Regex.str "/dev/ttyS0") (Regex.str "Standard Serial Port")]
         (fun _ _ _ => Ok (SerialController.mkSerial true [] [])).

Definition host_with_busy_arduino : Host :=
  mkHost [mkListPortInfo (Regex.str "/dev/ttyUSB0") (Regex.str "USB2.0-Serial CH340")]
         (fun _ _ _ => Raise SerialException).

Definition host_with_arduino : Host :=
  mkHost [mkListPortInfo (Regex.str "/dev/ttyUSB0") (Regex.str "USB2.0-Serial CH340")]
         (fun _ _ _ => Ok (SerialController.mkSerial true [] [])).

(** The specification's reading: in auto-select mode every failure of
    the physical initialization ends in the simulated controller, and
    [create] raises nothing. *)
Definition auto_falls_back_on_any_failure : Prop :=
  forall (host : Host) (now : Z) (serial_port : option (list ascii)) (baud_rate : Z) (e : exn),
    SerialController.initialize host (new_SerialHardwareController serial_port baud_rate)
    = Raise e ->
    exists controller,
      Factory.create host now AUTO serial_port baud_rate = Ok controller
      /\ Factory.runtime_mode controller = SIMULATION.

(** C5, as stated, fails: with a baud rate of -1 the constructor of the
    link raises [ValueError], which is neither the [SerialException]
    that [initialize] catches nor the [RuntimeError] that [create]
    catches; in auto-select mode it escapes [create], on a host whose
    Arduino would open at a valid rate. *)
Lemma negative_baud_rate_escapes_auto :
  ~ auto_falls_back_on_any_failure
  /\ SerialController.initialize host_with_arduino
       (new_SerialHardwareController (Some (Regex.str "/dev/ttyUSB0")) (-1))
     = Raise ValueError
  /\ Factory.create host_with_arduino 0 AUTO (Some (Regex.str "/dev/ttyUSB0")) (-1)
     = Raise ValueError
  /\ (exists c,
        Factory.create host_with_arduino 0 AUTO (Some (Regex.str "/dev/ttyUSB0")) 9600
        = Ok (Factory.Serial c)).
Proof.
  split; [|split; [reflexivity | split; [reflexivity | eexists; reflexivity]]].
  intros H.
  destruct (H host_with_arduino 0%Z (Some (Regex.str "/dev/ttyUSB0")) (-1)%Z ValueError
              eq_refl) as (controller & Hc & _).
  discriminate Hc.
Qed.

(** C5, amended. In auto-select mode [create] returns the serial
    controller when its initialization succeeds and, when that
    initialization raises [RuntimeError], a controller whose runtime mode
    is SIMULATION, raising nothing. [initialize] raises [RuntimeError]
    when no port is configured and none is detected, and when opening the
    port raises [SerialException]. An exception of another type raised
    while the port is opened is not caught: it is the exception of
    [initialize] and of [create], in auto-select mode too; such is the
    [ValueError] of a negative baud rate. In the explicit ARDUINO mode
    there is no fallback: the error of the initialization is the error of
    [create], unchanged. In the explicit SIMULATION mode the simulated
    controller is returned. *)
Theorem create_falls_back_only_in_auto
        (host : Host) (now : Z) (serial_port : option (list ascii)) (baud_rate : Z) :
  let attempt :=
    SerialController.initialize host (new_SerialHardwareController serial_port baud_rate) in
  let auto := Factory.create host now AUTO serial_port baud_rate in
  let falls_back :=
    exists controller, auto = Ok controller /\ Factory.runtime_mode controller = SIMULATION in
  (forall c, attempt = Ok c -> auto = Ok (Factory.Serial c))
  /\ (attempt = Raise RuntimeError -> falls_back)
  /\ (forall e, attempt = Raise e -> e <> RuntimeError -> auto = Raise e)
  /\ (truthy serial_port = false -> _detect_arduino_port host = None -> falls_back)
  /\ (forall c p,
        chosen_port host serial_port = Some (c :: p) ->
        new_Serial host (c :: p) baud_rate 2 = Raise SerialException -> falls_back)
  /\ (forall c p e,
        chosen_port host serial_port = Some (c :: p) ->
        new_Serial host (c :: p) baud_rate 2 = Raise e ->
        e <> SerialException -> e <> RuntimeError ->
        attempt = Raise e /\ auto = Raise e)
  /\ (forall c p,
        chosen_port host serial_port = Some (c :: p) -> (baud_rate < 0)%Z ->
        attempt = Raise ValueError /\ auto = Raise ValueError)
  /\ (forall e, attempt = Raise e ->
        Factory.create host now ARDUINO serial_port baud_rate = Raise e)
  /\ (forall c, attempt = Ok c ->
        Factory.create host now ARDUINO serial_port baud_rate = Ok (Factory.Serial c))
  /\ (exists controller,
        Factory.create host now SIMULATION serial_port baud_rate = Ok controller
        /\ Factory.runtime_mode controller = SIMULATION).
Proof.
  cbv zeta. unfold Factory.create.
  assert (Hother : forall c p e,
             chosen_port host serial_port = Some (c :: p) ->
             new_Serial host (c :: p) baud_rate 2 = Raise e ->
             e <> SerialException -> e <> RuntimeError ->
             SerialController.initialize host
               (new_SerialHardwareController serial_port baud_rate) = Raise e
             /\ match SerialController.initialize host
                        (new_SerialHardwareController serial_port baud_rate) with
                | Ok controller => Ok (Factory.Serial controller)
                | Raise RuntimeError =>
                    Ok (Factory.Simulated
                          (Simulation.initialize
                             (Simulation.new_SimulatedHardwareController now) now))
                | Raise e' => Raise e'
                end = Raise e).
  { intros c p e Hport Hnew Hs Hr.
    rewrite (initialize_raises host serial_port baud_rate Hport Hnew).
    destruct e; try congruence; split; reflexivity. }
  repeat match goal with |- _ /\ _ => split end.
  - intros c Hc. rewrite Hc. reflexivity.
  - intros He. rewrite He. eexists. split; reflexivity.
  - intros e He Hne. rewrite He. destruct e; try reflexivity. congruence.
  - intros Hport Hnone. rewrite (initialize_no_device host baud_rate _ Hport Hnone).
    eexists. split; reflexivity.
  - intros c p Hport Hnew.
    rewrite (initialize_raises host serial_port baud_rate Hport Hnew); simpl.
    eexists. split; reflexivity.
  - exact Hother.
  - intros c p Hport Hneg.
    apply (Hother c p ValueError Hport); try discriminate.
    apply new_Serial_negative_baud_rate. exact Hneg.
  - intros e He. rewrite He. reflexivity.
  - intros c Hc. rewrite Hc. reflexivity.
  - eexists. split; reflexivity.
Qed.

Lemma create_falls_back_only_in_auto_witness :
  (exists controller,
      Factory.create host_without_arduino 0 AUTO None 9600 = Ok controller
      /\ Factory.runtime_mode controller = SIMULATION)
  /\ (exists controller,
        Factory.create host_with_busy_arduino 0 AUTO None 9600 = Ok controller
        /\ Factory.runtime_mode controller = SIMULATION).
Proof.
  split.
  - apply (proj1 (proj2 (proj2 (proj2
             (create_falls_back_only_in_auto host_without_arduino 0 None 9600)))));
      reflexivity.
  - apply (proj1 (proj2 (proj2 (proj2 (proj2
             (create_falls_back_only_in_auto host_with_busy_arduino 0 None 9600)))))
             "/"%char (Regex.str "dev/ttyUSB0"));
      reflexivity.
Defined.

Example create_with_busy_arduino :
  Factory.create host_with_busy_arduino 0 ARDUINO None 9600 = Raise RuntimeError
  /\ (exists controller,
        Factory.create host_with_busy_arduino 0 AUTO None 9600 = Ok (Factory.Simulated controller))
  /\ Factory.create host_with_arduino 0 ARDUINO None (-9600) = Raise ValueError.
Proof. split; [reflexivity | split; [eexists; reflexivity | reflexivity]]. Qed.

End FactoryFallback.

(** ** Bounded retry on the serial link *)

Module Retry.
Import Entities SerialController.

(** *** The decorator stops *)

Section StopAfterAttempt.
Variables S A : Type.
Variable max_attempt_number : nat.
Variable wait : nat -> Z.
Variable retry : exn -> bool.
Variable f : S -> result A * S.
(** A count the decorated function raises by at most one a call. *)
Variable cost : S -> nat.
Hypothesis cost_step : forall st, (cost (snd (f st)) <= Datatypes.S (cost st))%nat.

Let run := Tenacity.retrying (Tenacity.stop_after_attempt max_attempt_number) wait retry f.

(** With [n] attempts left before the ceiling, the loop ends after
    [k + 1 <= n] attempts, whatever fuel of at least [n] it is given; it
    slept [wait a], ..., [wait (a + k - 1)]. *)
Lemma retrying_stops (n : nat) :
  forall (a : nat) (st : S) (slept : list Z),
    (1 <= n)%nat -> (a + n = max_attempt_number + 1)%nat ->
    exists (out : Tenacity.outcome S A) (k : nat),
      (forall fuel, (n <= fuel)%nat -> run fuel a st slept = Some out)
      /\ (k < n)%nat
      /\ Tenacity.sleeps out = slept ++ map wait (seq a k)
      /\ (cost (Tenacity.final out) <= cost st + Datatypes.S k)%nat.
Proof.
  induction n as [|n IH]; intros a st slept Hn Ha; [lia|].
  pose proof (cost_step st) as Hcost.
  destruct (f st) as [[v | e] st'] eqn:Ef; simpl in Hcost.
  - exists (Tenacity.mkOutcome (Ok v) st' slept), 0%nat. repeat split.
    + intros [|fuel] Hfuel; [lia|]. unfold run; simpl. rewrite Ef. reflexivity.
    + lia.
    + simpl. now rewrite app_nil_r.
    + simpl. lia.
  - destruct (retry e) eqn:Er.
    + destruct (Tenacity.stop_after_attempt max_attempt_number a) eqn:Es.
      * exists (Tenacity.mkOutcome (Raise RetryError) st' slept), 0%nat. repeat split.
        -- intros [|fuel] Hfuel; [lia|]. unfold run; simpl. rewrite Ef, Er, Es. reflexivity.
        -- lia.
        -- simpl. now rewrite app_nil_r.
        -- simpl. lia.
      * unfold Tenacity.stop_after_attempt in Es. apply Nat.leb_gt in Es.
        destruct (IH (Datatypes.S a) st' (slept ++ [wait a])) as (out & k & Hrun & Hk & Hs & Hc);
          [lia | lia |].
        exists out, (Datatypes.S k). repeat split.
        -- intros [|fuel] Hfuel; [lia|]. unfold run; simpl. rewrite Ef, Er.
           unfold Tenacity.stop_after_attempt.
           destruct (Nat.leb_spec max_attempt_number a); [lia|].
           apply Hrun. lia.
        -- lia.
        -- rewrite Hs. simpl. rewrite <- app_assoc. reflexivity.
        -- lia.
    + exists (Tenacity.mkOutcome (Raise e) st' slept), 0%nat. repeat split.
      * intros [|fuel] Hfuel; [lia|]. unfold run; simpl. rewrite Ef, Er. reflexivity.
      * lia.
      * simpl. now rewrite app_nil_r.
      * simpl. lia.
Qed.
End StopAfterAttempt.

(** *** The backoff *)

(** [wait_exponential(multiplier=1, min=1, max=10)]: after attempt [n] the
    wait is 2^(n-1) seconds, capped at 10; it is never below 1 nor above
    10, and until the cap each wait is the double of the one before. *)
Lemma wait_exponential_backoff (n : nat) :
  (1 <= n)%nat ->
  Tenacity.wait_exponential 1 1 10 n = Z.min (2 ^ (Z.of_nat n - 1)) 10
  /\ (1 <= Tenacity.wait_exponential 1 1 10 n <= 10)%Z
  /\ Tenacity.wait_exponential 1 1 10 (Datatypes.S n)
     = Z.min (2 * 2 ^ (Z.of_nat n - 1)) 10.
Proof.
  intros Hn. unfold Tenacity.wait_exponential.
  assert (Hpow : (1 <= 2 ^ (Z.of_nat n - 1))%Z).
  { apply (Z.pow_le_mono_r 2 0); lia. }
  assert (Hnext : (2 ^ (Z.of_nat (Datatypes.S n) - 1) = 2 * 2 ^ (Z.of_nat n - 1))%Z).
  { replace (Z.of_nat (Datatypes.S n) - 1)%Z with (Z.succ (Z.of_nat n - 1)) by lia.
    rewrite Z.pow_succ_r by lia. reflexivity. }
  rewrite Hnext, !Z.mul_1_l. repeat split; lia.
Qed.

(** *** The two commands of the serial controller *)

Lemma send_command_body_cost (command : DeviceCommand) (self : SerialHardwareController) :
  (writes_attempted (snd (send_command_body self command))
   <= Datatypes.S (writes_attempted self))%nat.
Proof.
  destruct self as [port baud tmo [ser|] latest running];
    unfold send_command_body, connected, _send_raw, writes_attempted; simpl; [|lia].
  destruct (is_open ser); simpl; [|lia].
  destruct (to_arduino_format command); simpl; [|lia].
  destruct (pending ser) as [|[|] rest]; simpl; lia.
Qed.

Lemma set_auto_mode_single_attempt (command : AutoModeCommand) (self : SerialHardwareController) :
  exists b : bool,
    fst (set_auto_mode self command) = Ok b
    /\ (writes_attempted (snd (set_auto_mode self command))
        <= Datatypes.S (writes_attempted self))%nat.
Proof.
  destruct self as [port baud tmo [ser|] latest running];
    unfold set_auto_mode, connected, _send_raw, writes_attempted; simpl;
    [|exists false; split; [reflexivity | lia]].
  destruct (is_open ser); simpl; [|exists false; split; [reflexivity | lia]].
  destruct (pending ser) as [|[|] rest]; simpl;
    eexists; (split; [reflexivity | lia]).
Qed.

(** A controller on an open link whose coming writes have the given
    outcomes. *)
Definition on_link (outcomes : list bool) : SerialHardwareController :=
  set_serial (new_SerialHardwareController (Some (Regex.str "/dev/ttyUSB0")) 9600)
             (mkSerial true outcomes []).

(** An operation overcomes a transient error when, on an open link whose
    next write fails and whose write after that is accepted, it reports
    success. *)
Definition overcomes_transient_error
           (op : SerialHardwareController -> option (result bool)) : Prop :=
  forall rest : list bool, op (on_link (false :: true :: rest)) = Some (Ok true).

Definition send_command_result (fuel : nat) (command : DeviceCommand)
           (self : SerialHardwareController) : option (result bool) :=
  option_map (@Tenacity.returned _ _) (send_command fuel self command).

Definition set_auto_mode_result (command : AutoModeCommand)
           (self : SerialHardwareController) : option (result bool) :=
  Some (fst (set_auto_mode self command)).

(** The specification's reading: both commands retry. *)
Definition both_commands_retry : Prop :=
  overcomes_transient_error
    (send_command_result 3 (mkDeviceCommand NIGHT_LED ON 0 false))
  /\ overcomes_transient_error (set_auto_mode_result (mkAutoModeCommand true 0)).

(** C3, as stated, fails: [set_auto_mode] is not decorated. On a link
    whose first write fails and whose second would be accepted it makes
    the one write, returns false and leaves the second outcome unused. *)
Lemma set_auto_mode_does_not_retry :
  ~ both_commands_retry
  /\ (let r := set_auto_mode (on_link [false; true]) (mkAutoModeCommand true 0) in
      fst r = Ok false
      /\ writes_attempted (snd r) = 1%nat
      /\ option_map pending (_serial (snd r)) = Some [true]).
Proof.
  split.
  - intros [_ Hset]. specialize (Hset []). discriminate Hset.
  - repeat split.
Qed.

(** C3, amended. [send_command] retries on serial exceptions and only
    up to the ceiling of three attempts: given fuel for three attempts it
    returns a result, the same for any more fuel, after at most three
    writes, having slept between attempts the exponential backoff, 1
    second then 2 seconds (2^(n-1) after attempt n, never less than 1 nor
    more than 10 seconds). One failed write followed by an accepted one
    gives success; three failed writes in a row end the call with
    [RetryError] raised to the caller, not with a returned false.
    [set_auto_mode] does not retry: it makes at most one write, raises
    nothing, and returns false when that write fails. So neither
    operation retries unboundedly. *)
Theorem send_command_bounded_retry
        (self : SerialHardwareController) (command : DeviceCommand)
        (auto : AutoModeCommand) :
  (exists (out : Tenacity.outcome SerialHardwareController bool) (k : nat),
      (forall fuel, (3 <= fuel)%nat -> send_command fuel self command = Some out)
      /\ (k < 3)%nat
      /\ Tenacity.sleeps out = map (Tenacity.wait_exponential 1 1 10) (seq 1 k)
      /\ Tenacity.sleeps out = firstn k [1; 2]%Z
      /\ (writes_attempted (Tenacity.final out) <= writes_attempted self + Datatypes.S k)%nat)
  /\ (forall rest, sensor_only (device_type command) = false ->
        overcomes_transient_error (send_command_result 3 command)
        /\ option_map (fun out => (Tenacity.returned out, Tenacity.sleeps out,
                                   writes_attempted (Tenacity.final out)))
                      (send_command 3 (on_link (false :: false :: false :: rest)) command)
           = Some (Raise RetryError, [1; 2]%Z, 3%nat))
  /\ (exists b : bool,
        fst (set_auto_mode self auto) = Ok b
        /\ (writes_attempted (snd (set_auto_mode self auto))
            <= Datatypes.S (writes_attempted self))%nat)
  /\ (forall rest,
        fst (set_auto_mode (on_link (false :: rest)) auto) = Ok false
        /\ writes_attempted (snd (set_auto_mode (on_link (false :: rest)) auto)) = 1%nat).
Proof.
  split; [|split; [|split]].
  - destruct (@retrying_stops SerialHardwareController bool 3
                (Tenacity.wait_exponential 1 1 10)
                (Tenacity.retry_if_exception_type SerialException)
                (fun st => send_command_body st command)
                writes_attempted (send_command_body_cost command) 3 1 self [])
      as (out & k & Hrun & Hk & Hs & Hc); [lia | lia |].
    exists out, k. repeat split; try assumption.
    rewrite Hs. destruct k as [|[|[|k]]]; try lia; reflexivity.
  - intros rest Hact. split.
    + intros rest'. destruct command as [d st ts mo]; simpl in Hact.
      destruct d; try discriminate Hact; reflexivity.
    + destruct command as [d st ts mo]; simpl in Hact.
      destruct d; try discriminate Hact; reflexivity.
  - apply set_auto_mode_single_attempt.
  - intros rest. split; reflexivity.
Qed.

Lemma send_command_bounded_retry_witness :
  overcomes_transient_error (send_command_result 3 (mkDeviceCommand WATER_PUMP ON 0 true)).
Proof.
  apply (proj1 (proj2 (send_command_bounded_retry (on_link [])
                         (mkDeviceCommand WATER_PUMP ON 0 true)
                         (mkAutoModeCommand true 0))) [] eq_refl).
Defined.

Example send_command_after_one_fault :
  option_map (fun out => (Tenacity.returned out, Tenacity.sleeps out,
                          option_map log (_serial (Tenacity.final out))))
             (send_command 3 (on_link [false; true]) (mkDeviceCommand GARAGE_DOOR OPEN 0 true))
  = Some (Ok true, [1%Z],
          Some [(String "G" (String "1" (String "010" EmptyString)), true);
                (String "G" (String "1" (String "010" EmptyString)), false)]).
Proof. reflexivity. Qed.

Example send_command_to_sensor :
  option_map (@Tenacity.returned _ _)
             (send_command 3 (on_link []) (mkDeviceCommand RAIN_SENSOR ON 0 true))
  = Some (Raise ValueError).
Proof. reflexivity. Qed.

End Retry.

(** ** The telemetry decoder *)

Module Decoder.
Import Entities Regex Convert SerialController.

Definition field_patterns : list (list item) :=
  [re_ldr; re_garage; re_motion; re_rain; re_water; re_soil; re_pump; re_flame;
   re_smoke; re_temp; re_hum].

Definition int_patterns : list (list item) :=
  [re_ldr; re_garage; re_water; re_soil; re_smoke].

Definition float_patterns : list (list item) := [re_temp; re_hum].

(** A required field is absent from the line. *)
Definition field_absent (line : list ascii) : Prop :=
  exists re, In re field_patterns /\ search re line = None.

Section WithInterpreter.
Context {I : Interpreter}.

(** A field is found but its text does not convert to its type. *)
Definition field_unparsable (line : list ascii) : Prop :=
  (exists re g e, In re int_patterns /\ search re line = Some g /\ py_int g = Raise e)
  \/ (exists re g e, In re float_patterns /\ search re line = Some g /\ py_float g = Raise e).

Definition int_field (re : list item) (line : list ascii) (v : Z) : Prop :=
  exists g, search re line = Some g /\ py_int g = Ok v.

Definition float_field (re : list item) (line : list ascii) (v : Q) : Prop :=
  exists g, search re line = Some g /\ py_float g = Ok v.

Definition token_field (re : list item) (line : list ascii) (token : string) (v : bool)
  : Prop :=
  exists g, search re line = Some g /\ v = text_eqb g (str token).

(** The snapshot holds the values of all eleven fields of the line, the
    time of decoding, and the two constants of the decoder. *)
Definition decoded (now : Z) (line : list ascii) (s : TelemetrySnapshot) : Prop :=
  int_field re_ldr line (ldr_value s)
  /\ int_field re_garage line (garage_distance s)
  /\ token_field re_motion line "Motion!" (motion_detected s)
  /\ token_field re_rain line "Rain!" (rain_detected s)
  /\ int_field re_water line (water_level s)
  /\ int_field re_soil line (soil_moisture s)
  /\ token_field re_pump line "ON" (pump_active s)
  /\ token_field re_flame line "YES" (flame_detected s)
  /\ int_field re_smoke line (smoke_level s)
  /\ float_field re_temp line (temperature s)
  /\ float_field re_hum line (humidity s)
  /\ timestamp s = now
  /\ auto_mode s = true
  /\ Entities.runtime_mode s = ARDUINO
  /\ post_init s = Ok tt.

Lemma py_int_raises (g : list ascii) (e : exn) : py_int g = Raise e -> e = ValueError.
Proof.
  unfold py_int. destruct g as [|c g]; [congruence|].
  destruct (negb (forallb is_digit (c :: g))); [congruence|].
  destruct (negb (int_max_str_digits =? 0)%nat && (int_max_str_digits <? List.length (c :: g))%nat);
    congruence.
Qed.

Lemma py_float_raises (g : list ascii) (e : exn) : py_float g = Raise e -> e = ValueError.
Proof.
  unfold py_float. destruct (span_digits g) as [[|d ip] [|c fp]]; try congruence;
    match goal with |- context [if ?b then _ else _] => destruct b end; congruence.
Qed.

Lemma new_TelemetrySnapshot_cases (s : TelemetrySnapshot) :
  (new_TelemetrySnapshot s = Ok s /\ post_init s = Ok tt)
  \/ (new_TelemetrySnapshot s = Raise ValueError).
Proof.
  unfold new_TelemetrySnapshot, post_init.
  repeat match goal with
         | |- context [if ?b then _ else _] => destruct b; simpl; auto
         end.
Qed.

Ltac absent_field re E :=
  simpl; exists re; split; [unfold field_patterns; simpl; tauto | exact E].

(** What each result of the body of the decoder means for the line. *)
Lemma parse_body_spec (now : Z) (line : list ascii) :
  match parse_body now line with
  | Ok None => field_absent line
  | Ok (Some s) => decoded now line s
  | Raise e => e = ValueError /\ ~ field_absent line
  end.
Proof.
  unfold parse_body; cbv zeta.
  destruct (search re_ldr line) as [g1|] eqn:E1; [|absent_field re_ldr E1].
  destruct (search re_garage line) as [g2|] eqn:E2; [|absent_field re_garage E2].
  destruct (search re_motion line) as [g3|] eqn:E3; [|absent_field re_motion E3].
  destruct (search re_rain line) as [g4|] eqn:E4; [|absent_field re_rain E4].
  destruct (search re_water line) as [g5|] eqn:E5; [|absent_field re_water E5].
  destruct (search re_soil line) as [g6|] eqn:E6; [|absent_field re_soil E6].
  destruct (search re_pump line) as [g7|] eqn:E7; [|absent_field re_pump E7].
  destruct (search re_flame line) as [g8|] eqn:E8; [|absent_field re_flame E8].
  destruct (search re_smoke line) as [g9|] eqn:E9; [|absent_field re_smoke E9].
  destruct (search re_temp line) as [g10|] eqn:E10; [|absent_field re_temp E10].
  destruct (search re_hum line) as [g11|] eqn:E11; [|absent_field re_hum E11].
  assert (Hall : ~ field_absent line).
  { intros (re & Hin & Hnone). unfold field_patterns in Hin; simpl in Hin.
    repeat (destruct Hin as [<- | Hin]; [congruence|]). exact Hin. }
  simpl.
  destruct (py_int g1) as [v1|e1] eqn:P1; simpl;
    [|split; [exact (py_int_raises _ P1) | exact Hall]].
  destruct (py_int g2) as [v2|e2] eqn:P2; simpl;
    [|split; [exact (py_int_raises _ P2) | exact Hall]].
  destruct (py_int g5) as [v5|e5] eqn:P5; simpl;
    [|split; [exact (py_int_raises _ P5) | exact Hall]].
  destruct (py_int g6) as [v6|e6] eqn:P6; simpl;
    [|split; [exact (py_int_raises _ P6) | exact Hall]].
  destruct (py_int g9) as [v9|e9] eqn:P9; simpl;
    [|split; [exact (py_int_raises _ P9) | exact Hall]].
  destruct (py_float g10) as [v10|e10] eqn:P10; simpl;
    [|split; [exact (py_float_raises _ P10) | exact Hall]].
  destruct (py_float g11) as [v11|e11] eqn:P11; simpl;
    [|split; [exact (py_float_raises _ P11) | exact Hall]].
  match goal with
  | |- context [new_TelemetrySnapshot ?s] =>
      destruct (new_TelemetrySnapshot_cases s) as [[-> Hpost] | ->]; simpl
  end.
  - unfold decoded, int_field, float_field, token_field; simpl.
    repeat split; try (eexists; split; [eassumption | first [eassumption | reflexivity]]).
    exact Hpost.
  - split; [reflexivity | exact Hall].
Qed.

(** [search] is a function of the pattern and the line. *)
Lemma decoded_not_unparsable (now : Z) (line : list ascii) (s : TelemetrySnapshot) :
  decoded now line s -> ~ field_unparsable line.
Proof.
  intros (H1 & H2 & _ & _ & H5 & H6 & _ & _ & H9 & H10 & H11 & _) [Hbad | Hbad].
  - destruct Hbad as (re & g & e & Hin & Hs & Hp).
    unfold int_patterns in Hin; simpl in Hin.
    destruct H1 as (g1 & S1 & P1). destruct H2 as (g2 & S2 & P2).
    destruct H5 as (g5 & S5 & P5). destruct H6 as (g6 & S6 & P6).
    destruct H9 as (g9 & S9 & P9).
    repeat (destruct Hin as [<- | Hin]; [congruence|]). exact Hin.
  - destruct Hbad as (re & g & e & Hin & Hs & Hp).
    unfold float_patterns in Hin; simpl in Hin.
    destruct H10 as (g10 & S10 & P10). destruct H11 as (g11 & S11 & P11).
    repeat (destruct Hin as [<- | Hin]; [congruence|]). exact Hin.
Qed.

Lemma decoded_not_absent (now : Z) (line : list ascii) (s : TelemetrySnapshot) :
  decoded now line s -> ~ field_absent line.
Proof.
  intros (H1 & H2 & H3 & H4 & H5 & H6 & H7 & H8 & H9 & H10 & H11 & _)
         (re & Hin & Hnone).
  destruct H1 as (? & ? & _). destruct H2 as (? & ? & _). destruct H3 as (? & ? & _).
  destruct H4 as (? & ? & _). destruct H5 as (? & ? & _). destruct H6 as (? & ? & _).
  destruct H7 as (? & ? & _). destruct H8 as (? & ? & _). destruct H9 as (? & ? & _).
  destruct H10 as (? & ? & _). destruct H11 as (? & ? & _).
  unfold field_patterns in Hin; simpl in Hin.
  repeat (destruct Hin as [<- | Hin]; [congruence|]). exact Hin.
Qed.

(** C4. Decoding a line never raises. When one of the eleven required
    fields is absent from the line, or is found with a text that does
    not convert to its type, the decoder returns no result. A snapshot
    is returned only when all eleven fields are found and convert, and
    it then holds the value of every one of them: no field of it is
    left unset. *)
Theorem parse_telemetry_defensive
        (self : SerialHardwareController) (now : Z) (line : list ascii) :
  (exists r, _parse_telemetry self now line = Ok r)
  /\ (field_absent line \/ field_unparsable line ->
      _parse_telemetry self now line = Ok None)
  /\ (forall s, _parse_telemetry self now line = Ok (Some s) ->
        decoded now line s /\ ~ field_absent line /\ ~ field_unparsable line).
Proof.
  unfold _parse_telemetry.
  pose proof (parse_body_spec now line) as Hspec.
  destruct (parse_body now line) as [[s|] | e].
  - split; [eexists; reflexivity|]. split.
    + intros [Habs | Hbad].
      * exfalso. exact (decoded_not_absent Hspec Habs).
      * exfalso. exact (decoded_not_unparsable Hspec Hbad).
    + intros s' Hs'. injection Hs' as <-.
      split; [exact Hspec|].
      split; [exact (decoded_not_absent Hspec) | exact (decoded_not_unparsable Hspec)].
  - split; [eexists; reflexivity|]. split; [reflexivity | discriminate].
  - destruct Hspec as [-> _].
    split; [eexists; reflexivity|]. split; [reflexivity | discriminate].
Qed.

(** C7. Every snapshot the decoder returns has its auto-mode flag set
    to true, whatever the controller that decodes, and so whatever
    auto-mode command was sent through it last: [set_auto_mode] leaves
    the decoder's result as it was. *)
Theorem parse_telemetry_auto_mode_true
        (self : SerialHardwareController) (command : AutoModeCommand)
        (now : Z) (line : list ascii) (snapshot : TelemetrySnapshot) :
  _parse_telemetry self now line = Ok (Some snapshot) ->
  auto_mode snapshot = true
  /\ _parse_telemetry (snd (set_auto_mode self command)) now line = Ok (Some snapshot).
Proof.
  unfold _parse_telemetry.
  pose proof (parse_body_spec now line) as Hspec.
  destruct (parse_body now line) as [[s|] | e].
  - intros Hs. injection Hs as <-. split; [|reflexivity].
    destruct Hspec as (_ & _ & _ & _ & _ & _ & _ & _ & _ & _ & _ & _ & Hauto & _).
    exact Hauto.
  - discriminate.
  - destruct Hspec as [-> _]. discriminate.
Qed.
End WithInterpreter.

(** The line of the firmware's format, a line without its humidity, and
    a line whose temperature has two dots. *)
Definition sample_line : list ascii :=
  str "LDR: 300 | Garage Dist: 10 cm | No Motion | Rain! | Water Lvl: 3 cm | Soil: 600 | Pump OFF | Flame: NO | Smoke: 50 | Temp: 24.5 C | Hum: 45.0%".

Definition sample_snapshot : TelemetrySnapshot :=
  mkTelemetrySnapshot 7 300 10 false true 3 600 false false 50 (245 # 10) (450 # 10)
                      true ARDUINO.

Definition line_without_humidity : list ascii :=
  str "LDR: 300 | Garage Dist: 10 cm | No Motion | Rain! | Water Lvl: 3 cm | Soil: 600 | Pump OFF | Flame: NO | Smoke: 50 | Temp: 24.5 C".

Definition line_with_bad_temperature : list ascii :=
  str "LDR: 300 | Garage Dist: 10 cm | No Motion | Rain! | Water Lvl: 3 cm | Soil: 600 | Pump OFF | Flame: NO | Smoke: 50 | Temp: 24.5.1 C | Hum: 45.0%".

Definition disabled_controller : SerialHardwareController :=
  snd (set_auto_mode (Retry.on_link []) (mkAutoModeCommand false 0)).

Lemma parse_telemetry_defensive_witness :
  @_parse_telemetry exact_interpreter disabled_controller 7 line_without_humidity = Ok None.
Proof.
  apply (proj1 (proj2 (@parse_telemetry_defensive exact_interpreter disabled_controller 7
                         line_without_humidity))).
  left. exists re_hum. split; [unfold field_patterns; simpl; tauto | reflexivity].
Defined.

Lemma parse_telemetry_auto_mode_true_witness :
  auto_mode sample_snapshot = true
  /\ @_parse_telemetry exact_interpreter
        (snd (set_auto_mode disabled_controller (mkAutoModeCommand false 1))) 7 sample_line
     = Ok (Some sample_snapshot).
Proof.
  apply (@parse_telemetry_auto_mode_true exact_interpreter disabled_controller
           (mkAutoModeCommand false 1) 7 sample_line sample_snapshot).
  vm_compute. reflexivity.
Defined.

Example parse_sample_line :
  @_parse_telemetry exact_interpreter disabled_controller 7 sample_line
  = Ok (Some sample_snapshot).
Proof. vm_compute. reflexivity. Qed.

Example parse_bad_temperature :
  search re_temp line_with_bad_temperature = Some (str "24.5.1")
  /\ @py_float exact_interpreter (str "24.5.1") = Raise ValueError
  /\ @_parse_telemetry exact_interpreter disabled_controller 7 line_with_bad_temperature
     = Ok None.
Proof. repeat split; vm_compute; reflexivity. Qed.

(** A light level beyond 1023 is found and converts, and the snapshot's
    constructor refuses it: no result either. *)
Example parse_light_out_of_range :
  @_parse_telemetry exact_interpreter disabled_controller 7
    (str "LDR: 2000 | Garage Dist: 10 cm | No Motion | Rain! | Water Lvl: 3 cm | Soil: 600 | Pump OFF | Flame: NO | Smoke: 50 | Temp: 24.5 C | Hum: 45.0%")
  = Ok None.
Proof. vm_compute. reflexivity. Qed.

End Decoder.

(** ** Order independence of the decoder *)

Module FieldOrder.
Import Entities Regex Convert SerialController.

(** *** Facts about the matcher *)

Lemma lit_app (l s : list ascii) : lit l (l ++ s) = Some s.
Proof.
  induction l as [|a l IH]; simpl; [reflexivity|].
  rewrite Ascii.eqb_refl. exact IH.
Qed.

(** The text does not go on with a character of the class. *)
Definition stops (cls : ascii -> bool) (rest : list ascii) : bool :=
  match rest with
  | [] => true
  | c :: _ => negb (cls c)
  end.

Section Greedy.
Variable R : Type.
Variable cls : ascii -> bool.

Lemma plus_stops (k : list ascii -> list ascii -> option R) (acc rest : list ascii) :
  stops cls rest = true -> plus cls k acc rest = None.
Proof.
  destruct rest as [|c rest]; simpl; [reflexivity|].
  destruct (cls c); [discriminate | reflexivity].
Qed.

(** A run of the class that the continuation accepts whole is taken
    whole. *)
Lemma plus_greedy (k : list ascii -> list ascii -> option R) (run : list ascii) :
  forall (acc rest : list ascii) (x : R),
    forallb cls run = true -> run <> [] -> stops cls rest = true ->
    k (acc ++ run) rest = Some x ->
    plus cls k acc (run ++ rest) = Some x.
Proof.
  induction run as [|c run IH]; intros acc rest x Hrun Hne Hstop Hk; [congruence|].
  simpl in Hrun. apply andb_true_iff in Hrun as [Hc Hrun].
  simpl. rewrite Hc.
  destruct run as [|c' run].
  - simpl. rewrite (plus_stops k (acc ++ [c]) rest Hstop). exact Hk.
  - rewrite (IH (acc ++ [c]) rest x Hrun); [reflexivity | discriminate | exact Hstop |].
    rewrite <- app_assoc. exact Hk.
Qed.

Lemma star_greedy (k : list ascii -> option R) (run rest : list ascii) (x : R) :
  forallb cls run = true -> stops cls rest = true -> k rest = Some x ->
  star cls k (run ++ rest) = Some x.
Proof.
  intros Hrun Hstop Hk. unfold star.
  destruct run as [|c run].
  - simpl. rewrite (plus_stops _ [] rest Hstop). exact Hk.
  - rewrite (@plus_greedy (fun _ r => k r) (c :: run) [] rest x); auto. discriminate.
Qed.
End Greedy.

(** *** Searching past text where the pattern matches nowhere *)

(** The pattern matches at no position of [txt] when [post] follows. *)
Fixpoint quiet (re : list item) (txt post : list ascii) : Prop :=
  match txt with
  | [] => True
  | c :: txt' => match_here re [] (c :: txt' ++ post) = None /\ quiet re txt' post
  end.

Lemma search_quiet (re : list item) (txt post : list ascii) :
  quiet re txt post -> search re (txt ++ post) = search re post.
Proof.
  induction txt as [|c txt IH]; simpl; [reflexivity|].
  intros [Hnone Hq]. rewrite Hnone. apply IH. exact Hq.
Qed.

Lemma quiet_app (re : list item) (a b post : list ascii) :
  quiet re a (b ++ post) -> quiet re b post -> quiet re (a ++ b) post.
Proof.
  induction a as [|c a IH]; simpl; [auto|].
  intros [Hnone Hq] Hb. split.
  - rewrite <- app_assoc. exact Hnone.
  - apply IH; assumption.
Qed.

(** *** Character classes *)

Definition is_upper (c : ascii) : bool := (65 <=? code c)%nat && (code c <=? 90)%nat.

Definition is_alnum (c : ascii) : bool :=
  is_digit c || is_upper c || ((97 <=? code c)%nat && (code c <=? 122)%nat).

Ltac by_cases_on_char c :=
  destruct c as [[] [] [] [] [] [] [] []]; vm_compute; intros; congruence.

Lemma space_not_upper (c : ascii) : is_space c = true -> is_upper c = false.
Proof. by_cases_on_char c. Qed.

Lemma digit_not_upper (c : ascii) : is_digit c = true -> is_upper c = false.
Proof. by_cases_on_char c. Qed.

Lemma digit_or_dot_not_upper (c : ascii) : is_digit_or_dot c = true -> is_upper c = false.
Proof. by_cases_on_char c. Qed.

Lemma not_alnum_not_upper (c : ascii) : negb (is_alnum c) = true -> is_upper c = false.
Proof. by_cases_on_char c. Qed.

Lemma digit_not_space (c : ascii) : is_digit c = true -> is_space c = false.
Proof. by_cases_on_char c. Qed.

Lemma digit_or_dot_not_space (c : ascii) : is_digit_or_dot c = true -> is_space c = false.
Proof. by_cases_on_char c. Qed.

Lemma space_not_digit (c : ascii) : is_space c = true -> is_digit c = false.
Proof. by_cases_on_char c. Qed.

Lemma space_not_digit_or_dot (c : ascii) : is_space c = true -> is_digit_or_dot c = false.
Proof. by_cases_on_char c. Qed.

Lemma digit_alnum (c : ascii) : is_digit c = true -> is_alnum c = true.
Proof. by_cases_on_char c. Qed.

(** What may follow a field: the end of the line, or a character that
    is neither a letter nor a digit. *)
Definition boundary (post : list ascii) : Prop :=
  match post with
  | [] => True
  | c :: _ => is_alnum c = false
  end.

Lemma stops_run (cls cls' : ascii -> bool) (run rest : list ascii) :
  (forall c, cls' c = true -> cls c = false) ->
  forallb cls' run = true -> run <> [] -> stops cls (run ++ rest) = true.
Proof.
  intros Hdisj Hrun Hne. destruct run as [|c run]; [congruence|].
  simpl in *. apply andb_true_iff in Hrun as [Hc _]. now rewrite (Hdisj c Hc).
Qed.

Lemma stops_opt (cls cls' : ascii -> bool) (run rest : list ascii) :
  (forall c, cls' c = true -> cls c = false) ->
  forallb cls' run = true -> stops cls rest = true -> stops cls (run ++ rest) = true.
Proof.
  intros Hdisj Hrun Hrest. destruct run as [|c run]; [exact Hrest|].
  apply stops_run with cls'; [exact Hdisj | exact Hrun | discriminate].
Qed.

Lemma stops_boundary (cls : ascii -> bool) (post : list ascii) :
  (forall c, cls c = true -> is_alnum c = true) -> boundary post -> stops cls post = true.
Proof.
  intros Hcls Hpost. destruct post as [|c post]; simpl; [reflexivity|].
  simpl in Hpost. destruct (cls c) eqn:E; [|reflexivity].
  apply Hcls in E. congruence.
Qed.

(** *** The fields of a line *)

Inductive kind : Type :=
| KLdr | KGarage | KMotion | KRain | KWater | KSoil | KPump | KFlame | KSmoke | KTemp | KHum.

Definition all_kinds : list kind :=
  [KLdr; KGarage; KMotion; KRain; KWater; KSoil; KPump; KFlame; KSmoke; KTemp; KHum].

Definition pattern (k : kind) : list item :=
  match k with
  | KLdr => re_ldr
  | KGarage => re_garage
  | KMotion => re_motion
  | KRain => re_rain
  | KWater => re_water
  | KSoil => re_soil
  | KPump => re_pump
  | KFlame => re_flame
  | KSmoke => re_smoke
  | KTemp => re_temp
  | KHum => re_hum
  end.

(** A field substring: a text that one of the eleven patterns matches
    from its first to its last character. [ws] and [ws'] are runs of
    white space, [digits] is a run of digits and [number] a run of digits
    and dots. *)
Inductive field : Type :=
| FLdr (ws digits : list ascii)
| FGarage (ws digits ws' : list ascii)
| FMotion (detected : bool)
| FRain (detected : bool)
| FWater (ws digits ws' : list ascii)
| FSoil (ws digits : list ascii)
| FPump (active : bool)
| FFlame (ws : list ascii) (detected : bool)
| FSmoke (ws digits : list ascii)
| FTemp (ws number ws' : list ascii)
| FHum (ws number : list ascii).

Definition kind_of (f : field) : kind :=
  match f with
  | FLdr _ _ => KLdr
  | FGarage _ _ _ => KGarage
  | FMotion _ => KMotion
  | FRain _ => KRain
  | FWater _ _ _ => KWater
  | FSoil _ _ => KSoil
  | FPump _ => KPump
  | FFlame _ _ => KFlame
  | FSmoke _ _ => KSmoke
  | FTemp _ _ _ => KTemp
  | FHum _ _ => KHum
  end.

Definition render (f : field) : list ascii :=
  match f with
  | FLdr ws digits => str "LDR:" ++ ws ++ digits
  | FGarage ws digits ws' => str "Garage Dist:" ++ ws ++ digits ++ ws' ++ str "cm"
  | FMotion detected => if detected then str "Motion!" else str "No Motion"
  | FRain detected => if detected then str "Rain!" else str "No Rain"
  | FWater ws digits ws' => str "Water Lvl:" ++ ws ++ digits ++ ws' ++ str "cm"
  | FSoil ws digits => str "Soil:" ++ ws ++ digits
  | FPump active => if active then str "Pump ON" else str "Pump OFF"
  | FFlame ws detected => str "Flame:" ++ ws ++ (if detected then str "YES" else str "NO")
  | FSmoke ws digits => str "Smoke:" ++ ws ++ digits
  | FTemp ws number ws' => str "Temp:" ++ ws ++ number ++ ws' ++ str "C"
  | FHum ws number => str "Hum:" ++ ws ++ number ++ str "%"
  end.

(** The text of group 1 when the field's pattern matches the field. *)
Definition group_of (f : field) : list ascii :=
  match f with
  | FLdr _ digits | FGarage _ digits _ | FWater _ digits _ | FSoil _ digits
  | FSmoke _ digits => digits
  | FMotion detected => if detected then str "Motion!" else str "No Motion"
  | FRain detected => if detected then str "Rain!" else str "No Rain"
  | FPump active => if active then str "ON" else str "OFF"
  | FFlame _ detected => if detected then str "YES" else str "NO"
  | FTemp _ number _ | FHum _ number => number
  end.

Definition spaces (ws : list ascii) : Prop := forallb is_space ws = true.
Definition some_digits (ds : list ascii) : Prop := forallb is_digit ds = true /\ ds <> [].
Definition some_digits_or_dots (ds : list ascii) : Prop :=
  forallb is_digit_or_dot ds = true /\ ds <> [].

Definition wf_field (f : field) : Prop :=
  match f with
  | FLdr ws digits | FSoil ws digits | FSmoke ws digits => spaces ws /\ some_digits digits
  | FGarage ws digits ws' | FWater ws digits ws' =>
      spaces ws /\ some_digits digits /\ spaces ws'
  | FMotion _ | FRain _ | FPump _ => True
  | FFlame ws _ => spaces ws
  | FTemp ws number ws' => spaces ws /\ some_digits_or_dots number /\ spaces ws'
  | FHum ws number => spaces ws /\ some_digits_or_dots number
  end.

(** [sep.join(texts)] *)
Fixpoint join (sep : list ascii) (texts : list (list ascii)) : list ascii :=
  match texts with
  | [] => []
  | [t] => t
  | t :: texts' => t ++ sep ++ join sep texts'
  end.

(** *** Where a pattern cannot match *)

Local Arguments Ascii.eqb : simpl nomatch.

(** Every pattern starts with a literal whose first character is an
    upper-case letter: it matches at no other character. *)
Lemma match_here_upper (k : kind) (g : list ascii) (c : ascii) (s : list ascii) :
  is_upper c = false -> match_here (pattern k) g (c :: s) = None.
Proof.
  intros Hc.
  destruct k; simpl;
    repeat match goal with
           | |- context [Ascii.eqb ?a c] =>
               destruct (Ascii.eqb_spec a c) as [<- | _]; [discriminate Hc|]
           end; reflexivity.
Qed.

Lemma quiet_class (cls : ascii -> bool) (k : kind) (txt post : list ascii) :
  (forall c, cls c = true -> is_upper c = false) ->
  forallb cls txt = true -> quiet (pattern k) txt post.
Proof.
  intros Hcls. induction txt as [|c txt IH]; simpl; [auto|].
  intros Htxt. apply andb_true_iff in Htxt as [Hc Htxt]. split.
  - apply match_here_upper. exact (Hcls c Hc).
  - exact (IH Htxt).
Qed.

Ltac quiet_piece :=
  first
    [ apply quiet_class with is_space; [exact space_not_upper | assumption]
    | apply quiet_class with is_digit; [exact digit_not_upper | assumption]
    | apply quiet_class with is_digit_or_dot; [exact digit_or_dot_not_upper | assumption]
    | simpl; repeat split; reflexivity
    | match goal with
      | H : boundary ?post |- _ =>
          destruct post as [|c0 post0]; simpl in H |- *; repeat split;
          repeat match goal with
                 | |- context [Ascii.eqb ?a c0] =>
                     destruct (Ascii.eqb_spec a c0) as [<- | _]; [discriminate H|]
                 end; reflexivity
      end ].

Ltac quiet_pieces :=
  repeat (apply quiet_app); quiet_piece.

(** A field is quiet for the patterns of the other kinds, when the end
    of the line or a separator follows it. *)
Lemma quiet_field (k : kind) (f : field) (post : list ascii) :
  kind_of f <> k -> wf_field f -> boundary post -> quiet (pattern k) (render f) post.
Proof.
  intros Hk Hwf Hpost.
  destruct f as [ws ds | ws ds ws' | b | b | ws ds ws' | ws ds | b | ws b | ws ds
                | ws ds ws' | ws ds]; simpl in Hwf;
    unfold spaces, some_digits, some_digits_or_dots in Hwf;
    repeat match goal with
           | H : _ /\ _ |- _ => destruct H
           end;
    try destruct b;
    destruct k; try (exfalso; apply Hk; reflexivity);
    unfold render; quiet_pieces.
Qed.

(** *** Where a pattern matches *)

(** A label, white space and a run of digits that ends the pattern. *)
Lemma match_label_digits (l ws ds post : list ascii) :
  spaces ws -> some_digits ds -> boundary post ->
  match_here [Lit l; Star is_space; GroupPlus is_digit] [] (l ++ ws ++ ds ++ post) = Some ds.
Proof.
  intros Hws [Hds Hne] Hpost. cbn [match_here]. rewrite lit_app.
  apply star_greedy; [exact Hws | |].
  - apply stops_run with is_digit; [exact digit_not_space | exact Hds | exact Hne].
  - apply plus_greedy; [exact Hds | exact Hne | | reflexivity].
    apply stops_boundary; [exact digit_alnum | exact Hpost].
Qed.

(** A label, white space, a value, white space and a unit. *)
Lemma match_label_value_unit (cls : ascii -> bool) (l ws v ws' : list ascii)
      (a : ascii) (u post : list ascii) :
  (forall c, cls c = true -> is_space c = false) ->
  (forall c, is_space c = true -> cls c = false) ->
  cls a = false -> is_space a = false ->
  spaces ws -> forallb cls v = true -> v <> [] -> spaces ws' ->
  match_here [Lit l; Star is_space; GroupPlus cls; Star is_space; Lit (a :: u)] []
             (l ++ ws ++ v ++ ws' ++ (a :: u) ++ post)
  = Some v.
Proof.
  intros Hcs Hsc Ha Hsa Hws Hv Hne Hws'. cbn [match_here]. rewrite lit_app.
  apply star_greedy; [exact Hws | |].
  - apply stops_run with cls; [exact Hcs | exact Hv | exact Hne].
  - apply plus_greedy; [exact Hv | exact Hne | |].
    + apply stops_opt with is_space; [exact Hsc | exact Hws' |].
      simpl. now rewrite Ha.
    + apply star_greedy; [exact Hws' | simpl; now rewrite Hsa |].
      cbv beta. rewrite lit_app. reflexivity.
Qed.

(** A label, white space and a value closed by a character outside its
    class. *)
Lemma match_label_value_mark (cls : ascii -> bool) (l ws v : list ascii)
      (a : ascii) (post : list ascii) :
  (forall c, cls c = true -> is_space c = false) ->
  cls a = false ->
  spaces ws -> forallb cls v = true -> v <> [] ->
  match_here [Lit l; Star is_space; GroupPlus cls; Lit [a]] [] (l ++ ws ++ v ++ [a] ++ post)
  = Some v.
Proof.
  intros Hcs Ha Hws Hv Hne. cbn [match_here]. rewrite lit_app.
  apply star_greedy; [exact Hws | |].
  - apply stops_run with cls; [exact Hcs | exact Hv | exact Hne].
  - apply plus_greedy; [exact Hv | exact Hne | simpl; now rewrite Ha |].
    simpl. now rewrite Ascii.eqb_refl.
Qed.

(** A field's own pattern matches at its first character and captures
    the field's value, when the end of the line or a separator follows. *)
Lemma match_field (f : field) (post : list ascii) :
  wf_field f -> boundary post ->
  match_here (pattern (kind_of f)) [] (render f ++ post) = Some (group_of f).
Proof.
  intros Hwf Hpost.
  destruct f as [ws ds | ws ds ws' | b | b | ws ds ws' | ws ds | b | ws b | ws ds
                | ws ds ws' | ws ds]; simpl in Hwf; simpl kind_of; simpl group_of;
    unfold render; rewrite <- ?app_assoc.
  - destruct Hwf as [Hws Hds]. now apply match_label_digits.
  - destruct Hwf as (Hws & [Hds Hne] & Hws').
    apply (@match_label_value_unit is_digit); auto using digit_not_space, space_not_digit.
  - destruct b; reflexivity.
  - destruct b; reflexivity.
  - destruct Hwf as (Hws & [Hds Hne] & Hws').
    apply (@match_label_value_unit is_digit); auto using digit_not_space, space_not_digit.
  - destruct Hwf as [Hws Hds]. now apply match_label_digits.
  - destruct b; reflexivity.
  - unfold pattern, re_flame. cbn [match_here]. rewrite lit_app.
    apply star_greedy; [exact Hwf | destruct b; reflexivity | destruct b; reflexivity].
  - destruct Hwf as [Hws Hds]. now apply match_label_digits.
  - destruct Hwf as (Hws & [Hds Hne] & Hws').
    apply (@match_label_value_unit is_digit_or_dot);
      auto using digit_or_dot_not_space, space_not_digit_or_dot.
  - destruct Hwf as (Hws & [Hds Hne]).
    apply (@match_label_value_mark is_digit_or_dot);
      auto using digit_or_dot_not_space.
Qed.

(** *** Lines *)

Lemma search_here (re : list item) (s g : list ascii) :
  match_here re [] s = Some g -> search re s = Some g.
Proof.
  intros H. destruct s; simpl; rewrite H; reflexivity.
Qed.

Lemma NoDup_all_kinds : NoDup all_kinds.
Proof.
  unfold all_kinds.
  repeat (constructor; [simpl; intuition discriminate|]). constructor.
Qed.

Section Line.
Variable sep : list ascii.
Hypothesis sep_not_empty : sep <> [].
Hypothesis sep_chars : forallb (fun c => negb (is_alnum c)) sep = true.

(** The line made of the fields in the order given. *)
Definition line (fs : list field) : list ascii := join sep (map render fs).

(** What follows the first field of a line. *)
Definition after (fs : list field) : list ascii :=
  match fs with
  | [] => []
  | _ :: _ => sep ++ line fs
  end.

Lemma line_cons (f : field) (fs : list field) : line (f :: fs) = render f ++ after fs.
Proof.
  destruct fs; unfold line; simpl; [now rewrite app_nil_r | reflexivity].
Qed.

Lemma boundary_after (fs : list field) : boundary (after fs).
Proof.
  destruct fs as [|f fs]; simpl; [exact I|].
  destruct sep as [|c sep'] eqn:E; [congruence|].
  simpl in *. apply andb_true_iff in sep_chars as [Hc _].
  now apply negb_true_iff in Hc.
Qed.

Lemma quiet_sep (k : kind) (post : list ascii) : quiet (pattern k) sep post.
Proof.
  apply quiet_class with (fun c => negb (is_alnum c));
    [exact not_alnum_not_upper | exact sep_chars].
Qed.

(** In a line with one field of a kind, the pattern of that kind finds
    the value of that field, wherever the field stands. *)
Lemma search_field (fs : list field) :
  forall f : field,
    Forall wf_field fs -> NoDup (map kind_of fs) -> In f fs ->
    search (pattern (kind_of f)) (line fs) = Some (group_of f).
Proof.
  induction fs as [|f0 fs IH]; intros f Hwf Hnd Hin; [contradiction|].
  rewrite line_cons. inversion Hwf as [|? ? Hwf0 Hwfs]; subst.
  inversion Hnd as [|? ? Hnotin Hnds]; subst.
  destruct Hin as [-> | Hin].
  - apply search_here. apply match_field; [exact Hwf0 | apply boundary_after].
  - assert (Hk : kind_of f0 <> kind_of f).
    { intros Heq. apply Hnotin. rewrite Heq. apply in_map. exact Hin. }
    rewrite search_quiet by (apply quiet_field; [exact Hk | exact Hwf0 | apply boundary_after]).
    destruct fs as [|f1 fs]; [contradiction|].
    unfold after. rewrite search_quiet by apply quiet_sep.
    apply IH; assumption.
Qed.

Lemma search_permuted (fs fs' : list field) (k : kind) :
  Forall wf_field fs -> Permutation (map kind_of fs) all_kinds -> Permutation fs fs' ->
  search (pattern k) (line fs') = search (pattern k) (line fs).
Proof.
  intros Hwf Hkinds Hperm.
  assert (Hnd : NoDup (map kind_of fs)).
  { apply Permutation_NoDup with all_kinds; [now apply Permutation_sym | apply NoDup_all_kinds]. }
  assert (Hnd' : NoDup (map kind_of fs')).
  { apply Permutation_NoDup with (map kind_of fs); [now apply Permutation_map | exact Hnd]. }
  assert (Hwf' : Forall wf_field fs').
  { apply Permutation_Forall with fs; assumption. }
  assert (Hin : In k (map kind_of fs)).
  { apply Permutation_in with all_kinds; [now apply Permutation_sym|].
    unfold all_kinds; destruct k; simpl; tauto. }
  apply in_map_iff in Hin as (f & <- & Hf).
  rewrite (search_field f Hwf Hnd Hf).
  apply search_field; [exact Hwf' | exact Hnd' |].
  apply Permutation_in with fs; assumption.
Qed.

Section WithInterpreter.
Context {I : Interpreter}.

(** C9. A well-formed line is made of eleven field substrings, one of
    each kind, each a text its pattern matches, joined by a separator that
    is not empty and holds no letter and no digit. Joining the same field
    substrings in any other order gives a line that decodes to the same
    result: the same snapshot, with the same value in each of the eleven
    fields, or no result when the values do not convert or validate. *)
Theorem decoding_order_independent
        (self : SerialHardwareController) (now : Z) (fs fs' : list field) :
  Forall wf_field fs -> Permutation (map kind_of fs) all_kinds -> Permutation fs fs' ->
  _parse_telemetry self now (line fs') = _parse_telemetry self now (line fs).
Proof.
  intros Hwf Hkinds Hperm.
  pose proof (fun k => @search_permuted fs fs' k Hwf Hkinds Hperm) as Hs.
  unfold _parse_telemetry, parse_body.
  rewrite (Hs KLdr : search re_ldr _ = _), (Hs KGarage : search re_garage _ = _),
    (Hs KMotion : search re_motion _ = _), (Hs KRain : search re_rain _ = _),
    (Hs KWater : search re_water _ = _), (Hs KSoil : search re_soil _ = _),
    (Hs KPump : search re_pump _ = _), (Hs KFlame : search re_flame _ = _),
    (Hs KSmoke : search re_smoke _ = _), (Hs KTemp : search re_temp _ = _),
    (Hs KHum : search re_hum _ = _).
  reflexivity.
Qed.
End WithInterpreter.
End Line.

(** The fields of the firmware's line, in its order. *)
Definition sample_fields : list field :=
  [ FLdr (str " ") (str "300");
    FGarage (str " ") (str "10") (str " ");
    FMotion false;
    FRain true;
    FWater (str " ") (str "3") (str " ");
    FSoil (str " ") (str "600");
    FPump false;
    FFlame (str " ") false;
    FSmoke (str " ") (str "50");
    FTemp (str " ") (str "24.5") (str " ");
    FHum (str " ") (str "45.0") ].

Lemma sample_fields_wf : Forall wf_field sample_fields.
Proof.
  unfold sample_fields, wf_field, spaces, some_digits, some_digits_or_dots.
  repeat constructor; discriminate.
Qed.

Example sample_fields_line : line (str " | ") sample_fields = Decoder.sample_line.
Proof. reflexivity. Qed.

Definition reversed_line : list ascii :=
  str "Hum: 45.0% | Temp: 24.5 C | Smoke: 50 | Flame: NO | Pump OFF | Soil: 600 | Water Lvl: 3 cm | Rain! | No Motion | Garage Dist: 10 cm | LDR: 300".

Lemma decoding_order_independent_witness :
  @_parse_telemetry exact_interpreter Decoder.disabled_controller 7 reversed_line
  = @_parse_telemetry exact_interpreter Decoder.disabled_controller 7 Decoder.sample_line.
Proof.
  refine (@decoding_order_independent (str " | ") _ _ exact_interpreter
            Decoder.disabled_controller 7 sample_fields (rev sample_fields) _ _ _).
  - discriminate.
  - reflexivity.
  - exact sample_fields_wf.
  - apply Permutation_refl.
  - apply Permutation_rev.
Defined.

Example reversed_line_decodes :
  @_parse_telemetry exact_interpreter Decoder.disabled_controller 7 reversed_line
  = Ok (Some Decoder.sample_snapshot).
Proof. vm_compute. reflexivity. Qed.

(** With commas, no blanks inside the fields, and another order. *)
Example compact_line_decodes :
  @_parse_telemetry exact_interpreter Decoder.disabled_controller 7
    (str "Pump OFF,Temp:24.5C,Rain!,LDR:300,Hum:45.0%,Flame:NO,Garage Dist:10cm,Soil:600,No Motion,Smoke:50,Water Lvl:3cm")
  = Ok (Some Decoder.sample_snapshot).
Proof. vm_compute. reflexivity. Qed.

End FieldOrder.

(** * Further properties of the simulated controller *)

Module SimulationFacts.
Import Entities Convert Simulation EnvironmentRanges.

Definition on_off (b : bool) : DeviceState := if b then ON else OFF.
Definition open_closed (b : bool) : DeviceState := if b then OPEN else CLOSED.

(** The four actuator flags, in the order of the control law's commands. *)
Definition actuators (e : SimulatedEnvironment) : list DeviceState :=
  [on_off (night_led_on e); open_closed (garage_open e);
   open_closed (clothes_servo_open e); on_off (pump_on e)].

(** The sensor readings are whole numbers. *)
Definition whole_readings (e : SimulatedEnvironment) : Prop :=
  exists light distance water soil : Z,
    ambient_light e == inject_Z light
    /\ garage_distance e == inject_Z distance
    /\ water_level e == inject_Z water
    /\ soil_moisture e == inject_Z soil.

Lemma py_trunc_whole (x : Q) (z : Z) : x == inject_Z z -> py_trunc x = z.
Proof.
  intros Hx. unfold py_trunc.
  destruct (Qle_bool 0 x).
  - rewrite (Qfloor_comp _ _ Hx). apply Qfloor_Z.
  - rewrite (Qceiling_comp _ _ Hx). apply Qceiling_Z.
Qed.

Lemma Qle_bool_whole_r (a : Z) (x : Q) (z : Z) :
  x == inject_Z z -> Qle_bool (inject_Z a) x = (a <=? z)%Z.
Proof.
  intros Hx. destruct (Z.leb_spec a z) as [H | H].
  - apply Qle_bool_iff. rewrite Hx. rewrite <- Zle_Qle. exact H.
  - destruct (Qle_bool (inject_Z a) x) eqn:E; [|reflexivity].
    apply Qle_bool_iff in E. rewrite Hx in E. rewrite <- Zle_Qle in E. lia.
Qed.

Lemma Qle_bool_whole_l (a : Z) (x : Q) (z : Z) :
  x == inject_Z z -> Qle_bool x (inject_Z a) = (z <=? a)%Z.
Proof.
  intros Hx. destruct (Z.leb_spec z a) as [H | H].
  - apply Qle_bool_iff. rewrite Hx. rewrite <- Zle_Qle. exact H.
  - destruct (Qle_bool x (inject_Z a)) eqn:E; [|reflexivity].
    apply Qle_bool_iff in E. rewrite Hx in E. rewrite <- Zle_Qle in E. lia.
Qed.

Lemma Qlt_bool_whole_r (a : Z) (x : Q) (z : Z) :
  x == inject_Z z -> Qlt_bool (inject_Z a) x = (a <? z)%Z.
Proof.
  intros Hx. unfold Qlt_bool. rewrite (Qle_bool_whole_l a Hx).
  rewrite Z.ltb_antisym. reflexivity.
Qed.

Section WithInterpreter.
Context {I : Interpreter}.

(** The snapshot [get_telemetry] builds, before validation. *)
Lemma get_telemetry_fields (self : SimulatedHardwareController) (now : Z)
      (s : TelemetrySnapshot) :
  get_telemetry self now = Ok (Some s) ->
  s = mkTelemetrySnapshot now
        (py_trunc (ambient_light (_env self))) (py_trunc (garage_distance (_env self)))
        (has_motion (_env self)) (is_raining (_env self))
        (py_trunc (water_level (_env self))) (py_trunc (soil_moisture (_env self)))
        (pump_on (_env self)) (flame_present (_env self))
        (py_trunc (smoke_level (_env self)))
        (py_round1 (temperature (_env self))) (py_round1 (humidity (_env self)))
        (auto_mode (_env self)) SIMULATION.
Proof.
  unfold get_telemetry, new_TelemetrySnapshot.
  destruct (post_init _) as [[] | e]; simpl.
  - intros H. injection H as <-. reflexivity.
  - destruct e; discriminate.
Qed.

(** The simulated firmware and the control law of the domain agree on
    whole-number readings: with auto mode on, the states the control law
    commands for the snapshot of an environment are the actuator states
    [apply_auto_mode_logic] gives that environment. *)
Theorem control_law_parity (self : SimulatedHardwareController) (now : Z) :
  in_range (_env self) -> whole_readings (_env self) -> auto_mode (_env self) = true ->
  exists s,
    get_telemetry self now = Ok (Some s)
    /\ map state (evaluate_auto_mode_logic now s)
       = actuators (apply_auto_mode_logic (_env self)).
Proof.
  intros Hin (zl & zg & zw & zs & Hl & Hg & Hw & Hs) Hauto.
  destruct (get_telemetry_in_range self now Hin) as [s Hs'].
  exists s. split; [exact Hs'|].
  apply get_telemetry_fields in Hs'. subst s.
  unfold evaluate_auto_mode_logic, apply_auto_mode_logic, actuators; simpl.
  rewrite Hauto; simpl.
  rewrite (py_trunc_whole Hl), (py_trunc_whole Hg), (py_trunc_whole Hw), (py_trunc_whole Hs).
  change 500 with (inject_Z 500). change 900 with (inject_Z 900).
  change 5 with (inject_Z 5). change 15 with (inject_Z 15). change 1 with (inject_Z 1).
  rewrite (Qlt_bool_whole_r 500 Hl), (Qlt_bool_whole_r 900 Hs),
    (Qle_bool_whole_r 5 Hg), (Qle_bool_whole_l 15 Hg),
    (Qle_bool_whole_r 1 Hw), (Qle_bool_whole_l 5 Hw).
  destruct (500 <? zl)%Z, ((5 <=? zg)%Z && (zg <=? 15)%Z), (is_raining (_env self)),
    ((1 <=? zw)%Z && (zw <=? 5)%Z && (900 <? zs)%Z); reflexivity.
Qed.
End WithInterpreter.

Lemma new_environment_whole : whole_readings new_SimulatedEnvironment.
Proof. exists 300%Z, 50%Z, 3%Z, 600%Z. repeat split; reflexivity. Qed.

Lemma control_law_parity_witness :
  exists s,
    @get_telemetry exact_interpreter (new_SimulatedHardwareController 0) 5 = Ok (Some s)
    /\ map state (evaluate_auto_mode_logic 5 s)
       = actuators (apply_auto_mode_logic new_SimulatedEnvironment).
Proof.
  apply (@control_law_parity exact_interpreter (new_SimulatedHardwareController 0) 5).
  - exact in_range_new.
  - exact new_environment_whole.
  - reflexivity.
Defined.

(** Between whole numbers they differ: at a light level of 500.5 the
    simulated firmware lights the LED, the control law on the snapshot
    (light level 500) does not. *)
Example control_law_differs_on_fractions :
  let e := mkSimulatedEnvironment (1001 # 2) 50 false false 3 600 false 50 24 45
                                  false false true false true in
  let self := set_env (new_SimulatedHardwareController 0) e in
  night_led_on (apply_auto_mode_logic e) = true
  /\ exists s, @get_telemetry exact_interpreter self 5 = Ok (Some s)
               /\ map state (evaluate_auto_mode_logic 5 s) = [OFF; CLOSED; OPEN; OFF].
Proof. cbv zeta. split; [reflexivity|]. eexists. split; [vm_compute; reflexivity | reflexivity]. Qed.

(** *** Manual commands and the loop *)

Definition overriding (d : DeviceType) (st : DeviceState) : DeviceCommand :=
  mkDeviceCommand d st 0 true.

Section WithInterpreter.
Context {I : Interpreter}.

(** While auto mode is on, a manual override of the LED, the garage or
    the clothes servo lasts until the next iteration of the loop: after
    it the environment is the one the iteration gives without the
    command. A command to the pump changes how water and soil evolve, and
    still leaves the other three actuators to the sensors. While auto
    mode is off, an iteration changes no actuator. *)
Theorem override_lasts_until_tick
        (self : SimulatedHardwareController) (command : DeviceCommand)
        (current_time : Z) (r : Draws) :
  (auto_mode (_env self) = true ->
   let a := _env (tick (snd (send_command self command)) current_time r) in
   let b := _env (tick self current_time r) in
   night_led_on a = night_led_on b
   /\ garage_open a = garage_open b
   /\ clothes_servo_open a = clothes_servo_open b
   /\ (device_type command <> WATER_PUMP -> a = b))
  /\ (auto_mode (_env self) = false ->
      actuators (_env (tick self current_time r)) = actuators (_env self)).
Proof.
  destruct self as [e u run last]; destruct e; simpl.
  split; intros Hauto; subst.
  - destruct command as [d st ts mo]. cbv zeta.
    unfold tick, send_command, update, apply_auto_mode_logic; simpl.
    destruct mo, d; simpl; repeat split; try reflexivity; intros; congruence.
  - unfold tick, update, apply_auto_mode_logic, actuators; simpl. reflexivity.
Qed.
End WithInterpreter.

Lemma override_lasts_until_tick_witness :
  let self := new_SimulatedHardwareController 0 in
  night_led_on (_env (snd (send_command self (overriding NIGHT_LED ON)))) = true
  /\ night_led_on
       (_env (@tick exact_interpreter (snd (send_command self (overriding NIGHT_LED ON)))
                    1000000 (mkDraws 0 0 1 1 1 0 0)))
     = night_led_on (_env (@tick exact_interpreter self 1000000 (mkDraws 0 0 1 1 1 0 0))).
Proof.
  cbv zeta. split; [reflexivity|].
  apply (proj1 (@override_lasts_until_tick exact_interpreter
                  (new_SimulatedHardwareController 0) (overriding NIGHT_LED ON)
                  1000000 (mkDraws 0 0 1 1 1 0 0))).
  reflexivity.
Defined.

(** *** The other sensors *)

Definition in_bounds (e : SimulatedEnvironment) : Prop :=
  (1 <= garage_distance e /\ garage_distance e <= 100)
  /\ (0 <= water_level e /\ water_level e <= 20)
  /\ (0 <= soil_moisture e /\ soil_moisture e <= 1023)
  /\ 20 <= smoke_level e.

Lemma py_max_lower (a b : Q) : a <= py_max a b.
Proof.
  unfold py_max. destruct (Qlt_bool a b) eqn:E; [|apply Qle_refl].
  apply Qlt_bool_true in E. now apply Qlt_le_weak.
Qed.

Lemma py_trunc_floor (x : Q) : 0 <= x -> py_trunc x = Qfloor x.
Proof.
  intros H. unfold py_trunc. apply Qle_bool_iff in H. now rewrite H.
Qed.

Section WithInterpreter.
Context {I : Interpreter}.

Lemma in_bounds_update (e : SimulatedEnvironment) (delta_time : Q) (r : Draws) :
  in_bounds (update e delta_time r).
Proof.
  unfold in_bounds, update; simpl.
  repeat split;
    try (apply (@clamp_range 1 100); lra);
    try (apply (@clamp_range 0 20); lra);
    try (apply (@clamp_range 0 1023); lra).
  destruct (Qlt_bool (d_fire r) (fl (1 # 1000))); [lra | apply py_max_lower].
Qed.

Lemma in_bounds_step (self self' : SimulatedHardwareController) :
  step self self' -> in_bounds (_env self) -> in_bounds (_env self').
Proof.
  intros Hstep Hin. destruct Hstep; simpl; try exact Hin.
  - apply in_bounds_update.
  - unfold apply_auto_mode_logic. destruct (auto_mode (_env self)); exact Hin.
  - unfold apply_auto_mode_logic.
    pose proof (in_bounds_update (_env self)
                  (fl (inject_Z (current_time - _last_update_time self) / 1000000)) r) as H.
    destruct (auto_mode (update (_env self) _ r)); exact H.
  - unfold send_command.
    destruct (auto_mode (_env self) && negb (manual_override command)); simpl; [exact Hin|].
    destruct (device_type command); exact Hin.
Qed.

Lemma in_bounds_reachable (self : SimulatedHardwareController) :
  reachable self -> in_bounds (_env self).
Proof.
  induction 1 as [now | self self' _ IH Hstep].
  - unfold in_bounds; simpl. repeat split; lra.
  - exact (in_bounds_step Hstep IH).
Qed.

(** In every reachable state of the simulated controller the snapshot
    of [get_telemetry] reports a garage distance from 1 to 100, a water
    level from 0 to 20, a soil moisture from 0 to 1023 and a smoke level
    of at least 20. *)
Theorem reachable_snapshot_bounds (self : SimulatedHardwareController) (now : Z) :
  reachable self ->
  exists s,
    get_telemetry self now = Ok (Some s)
    /\ (1 <= Entities.garage_distance s <= 100)%Z
    /\ (0 <= Entities.water_level s <= 20)%Z
    /\ (0 <= Entities.soil_moisture s <= 1023)%Z
    /\ (20 <= Entities.smoke_level s)%Z.
Proof.
  intros Hreach.
  destruct (get_telemetry_in_range self now (in_range_reachable Hreach)) as [s Hs].
  destruct (in_bounds_reachable Hreach) as ((Hg1 & Hg2) & (Hw1 & Hw2) & (Hs1 & Hs2) & Hk).
  exists s. split; [exact Hs|].
  apply get_telemetry_fields in Hs. subst s; simpl.
  rewrite !py_trunc_floor by lra.
  repeat split.
  - change 1%Z with (Qfloor 1). now apply Qfloor_resp_le.
  - change 100%Z with (Qfloor 100). now apply Qfloor_resp_le.
  - change 0%Z with (Qfloor 0). now apply Qfloor_resp_le.
  - change 20%Z with (Qfloor 20). now apply Qfloor_resp_le.
  - change 0%Z with (Qfloor 0). now apply Qfloor_resp_le.
  - change 1023%Z with (Qfloor 1023). now apply Qfloor_resp_le.
  - change 20%Z with (Qfloor 20). now apply Qfloor_resp_le.
Qed.

(** *** What the telemetry reports of the commands *)

(** The snapshot reports the auto-mode flag last set, and the gate of
    [send_command] follows it: after [set_auto_mode] a command is accepted
    exactly when auto mode was disabled or the command overrides. *)
Theorem set_auto_mode_reported
        (self : SimulatedHardwareController) (command : AutoModeCommand) (now : Z) :
  reachable self ->
  (exists s,
      get_telemetry (snd (set_auto_mode self command)) now = Ok (Some s)
      /\ Entities.auto_mode s = enabled command
      /\ Entities.runtime_mode s = SIMULATION)
  /\ forall c : DeviceCommand,
      fst (send_command (snd (set_auto_mode self command)) c)
      = negb (enabled command) || manual_override c.
Proof.
  intros Hreach. split.
  - assert (Hin : in_range (_env (snd (set_auto_mode self command)))).
    { apply in_range_reachable. eapply reachable_step; [exact Hreach|].
      apply step_set_auto_mode. }
    destruct (get_telemetry_in_range _ now Hin) as [s Hs].
    exists s. split; [exact Hs|].
    apply get_telemetry_fields in Hs. subst s. split; reflexivity.
  - intros c. unfold send_command; simpl.
    destruct (enabled command), (manual_override c); reflexivity.
Qed.

(** Of the four actuators the snapshot reports the pump alone: an
    accepted pump command shows in [pump_active], and a command to any
    other device leaves the telemetry as it was. *)
Theorem pump_command_reported
        (self : SimulatedHardwareController) (command : DeviceCommand) (now : Z) :
  reachable self ->
  manual_override command = true \/ auto_mode (_env self) = false ->
  (exists s,
      get_telemetry (snd (send_command self command)) now = Ok (Some s)
      /\ (device_type command = WATER_PUMP ->
          pump_active s = DeviceState_eqb (state command) ON))
  /\ (device_type command <> WATER_PUMP ->
      get_telemetry (snd (send_command self command)) now = get_telemetry self now).
Proof.
  intros Hreach Hgate.
  assert (Hopen : auto_mode (_env self) && negb (manual_override command) = false).
  { destruct Hgate as [H | H]; rewrite H; [apply andb_false_r | reflexivity]. }
  split.
  - assert (Hin : in_range (_env (snd (send_command self command)))).
    { apply in_range_reachable. eapply reachable_step; [exact Hreach|].
      apply step_send_command. }
    destruct (get_telemetry_in_range _ now Hin) as [s Hs].
    exists s. split; [exact Hs|].
    apply get_telemetry_fields in Hs. subst s; simpl.
    intros Hpump. unfold send_command. rewrite Hopen, Hpump. reflexivity.
  - intros Hother. unfold send_command. rewrite Hopen.
    destruct command as [d st ts mo]; simpl in *.
    destruct d; try congruence; reflexivity.
Qed.

(** *** The states the controller runs through *)

(** The states the controller's own code reaches from its constructor:
    [initialize], the iterations of [_simulation_loop] on a clock that
    does not go backwards, [send_command], [set_auto_mode] and
    [shutdown]. *)
Inductive runs : SimulatedHardwareController -> Prop :=
| runs_new now : runs (new_SimulatedHardwareController now)
| runs_initialize self now : runs self -> runs (initialize self now)
| runs_tick self current_time r :
    runs self -> (_last_update_time self <= current_time)%Z ->
    runs (tick self current_time r)
| runs_send_command self command : runs self -> runs (snd (send_command self command))
| runs_set_auto_mode self command : runs self -> runs (snd (set_auto_mode self command))
| runs_shutdown self : runs self -> runs (shutdown self).

Lemma runs_reachable (self : SimulatedHardwareController) : runs self -> reachable self.
Proof.
  induction 1;
    [apply reachable_new | eapply reachable_step; [eassumption|] ..].
  - apply step_initialize.
  - apply step_tick.
  - apply step_send_command.
  - apply step_set_auto_mode.
  - apply step_shutdown.
Qed.

(** The time between two iterations, on such a clock. *)
Lemma delta_nonnegative (last current_time : Z) :
  (last <= current_time)%Z -> 0 <= fl (inject_Z (current_time - last) / 1000000).
Proof.
  intros H.
  assert (H0 : fl 0 == 0) by (apply (fl_int 0); simpl; lia).
  rewrite <- H0. apply fl_mono.
  apply Qle_shift_div_l; [reflexivity|].
  change (0 * 1000000) with (inject_Z 0). rewrite <- Zle_Qle. lia.
Qed.

(** Smoke only clears as time passes, and a fire sets it to 200. *)
Lemma smoke_update (e : SimulatedEnvironment) (delta_time : Q) (r : Draws) :
  0 <= delta_time -> smoke_level e <= 200 -> smoke_level (update e delta_time r) <= 200.
Proof.
  intros Hd Hs. unfold update; simpl.
  destruct (Qlt_bool (d_fire r) (fl (1 # 1000))); [lra|].
  unfold py_max, fsub, fmul.
  destruct (Qlt_bool 20 _); [|lra].
  assert (H0 : fl 0 == 0) by (apply (fl_int 0); simpl; lia).
  assert (H200 : fl 200 == 200) by (apply (fl_int 200); simpl; lia).
  assert (H5 : 0 <= fl (5 * delta_time)).
  { rewrite <- H0. apply fl_mono. lra. }
  rewrite <- H200. apply fl_mono. lra.
Qed.

Lemma smoke_apply_auto_mode_logic (e : SimulatedEnvironment) :
  smoke_level (apply_auto_mode_logic e) = smoke_level e.
Proof. unfold apply_auto_mode_logic. destruct (auto_mode e); reflexivity. Qed.

Lemma smoke_send_command (self : SimulatedHardwareController) (command : DeviceCommand) :
  smoke_level (_env (snd (send_command self command))) = smoke_level (_env self).
Proof.
  unfold send_command.
  destruct (auto_mode (_env self) && negb (manual_override command)); [reflexivity|].
  simpl. destruct (device_type command); reflexivity.
Qed.

Lemma smoke_tick (self : SimulatedHardwareController) (current_time : Z) (r : Draws) :
  (_last_update_time self <= current_time)%Z ->
  smoke_level (_env self) <= 200 ->
  smoke_level (_env (tick self current_time r)) <= 200.
Proof.
  intros Hclock Hs. unfold tick; simpl. rewrite smoke_apply_auto_mode_logic.
  apply smoke_update; [apply delta_nonnegative|]; assumption.
Qed.

Lemma smoke_runs (self : SimulatedHardwareController) :
  runs self -> smoke_level (_env self) <= 200.
Proof.
  induction 1 as [now | self now _ IH | self current_time r _ IH Hclock
                  | self command _ IH | self command _ IH | self _ IH];
    try exact IH.
  - simpl. lra.
  - apply smoke_tick; assumption.
  - rewrite smoke_send_command. exact IH.
Qed.

(** As the controller runs, on a clock that does not go backwards,
    the telemetry after a loop iteration is always available and reports
    a smoke level from 20 to 200. It shows a fire exactly when the
    iteration drew one: the flame flag is set, the smoke level is 200 and
    the snapshot is an emergency. *)
Theorem fire_is_reported
        (self : SimulatedHardwareController) (current_time : Z) (r : Draws) (now : Z) :
  runs self -> (_last_update_time self <= current_time)%Z ->
  exists s,
    get_telemetry (tick self current_time r) now = Ok (Some s)
    /\ (20 <= Entities.smoke_level s <= 200)%Z
    /\ flame_detected s = Qlt_bool (d_fire r) (fl (1 # 1000))
    /\ (flame_detected s = true ->
        Entities.smoke_level s = 200%Z /\ has_emergency s = true).
Proof.
  intros Hruns Hclock.
  assert (Hnext : runs (tick self current_time r)) by (apply runs_tick; assumption).
  pose proof (smoke_runs Hnext) as Hhi.
  pose proof (runs_reachable Hnext) as Hreach.
  destruct (in_bounds_reachable Hreach) as (_ & _ & _ & Hlo).
  destruct (get_telemetry_in_range _ now (in_range_reachable Hreach)) as [s Hs].
  exists s. split; [exact Hs|].
  apply get_telemetry_fields in Hs. subst s.
  cbn [Entities.smoke_level flame_detected].
  split; [|split].
  - rewrite py_trunc_floor by lra. split.
    + change 20%Z with (Qfloor 20). now apply Qfloor_resp_le.
    + change 200%Z with (Qfloor 200). now apply Qfloor_resp_le.
  - unfold tick; simpl. unfold apply_auto_mode_logic.
    destruct (auto_mode (update (_env self) _ r)); reflexivity.
  - unfold has_emergency; cbn [Entities.smoke_level flame_detected].
    intros Hfire. rewrite Hfire. split; [|reflexivity].
    revert Hfire. unfold tick; simpl. unfold apply_auto_mode_logic.
    destruct (auto_mode (update (_env self) _ r)); simpl; intros ->; reflexivity.
Qed.
End WithInterpreter.

Lemma shaken_controller_runs : @runs exact_interpreter shaken_controller.
Proof.
  unfold shaken_controller.
  apply runs_send_command. apply runs_tick; [apply runs_new | simpl; lia].
Qed.

Lemma fire_is_reported_witness :
  exists s,
    @get_telemetry exact_interpreter
      (@tick exact_interpreter shaken_controller 4000000 wild_draws) 7 = Ok (Some s)
    /\ (20 <= Entities.smoke_level s <= 200)%Z
    /\ flame_detected s = true
    /\ (flame_detected s = true ->
        Entities.smoke_level s = 200%Z /\ has_emergency s = true).
Proof.
  apply (@fire_is_reported exact_interpreter shaken_controller 4000000 wild_draws 7
           shaken_controller_runs).
  simpl. lia.
Defined.

Lemma reachable_snapshot_bounds_witness :
  exists s,
    @get_telemetry exact_interpreter shaken_controller 7 = Ok (Some s)
    /\ (1 <= Entities.garage_distance s <= 100)%Z
    /\ (0 <= Entities.water_level s <= 20)%Z
    /\ (0 <= Entities.soil_moisture s <= 1023)%Z
    /\ (20 <= Entities.smoke_level s)%Z.
Proof.
  exact (@reachable_snapshot_bounds exact_interpreter shaken_controller 7
           shaken_controller_reachable).
Defined.

Lemma set_auto_mode_reported_witness :
  (exists s,
      @get_telemetry exact_interpreter
        (snd (set_auto_mode shaken_controller (mkAutoModeCommand false 0))) 7 = Ok (Some s)
      /\ Entities.auto_mode s = false
      /\ Entities.runtime_mode s = SIMULATION)
  /\ forall c : DeviceCommand,
      fst (send_command (snd (set_auto_mode shaken_controller (mkAutoModeCommand false 0))) c)
      = true || manual_override c.
Proof.
  exact (@set_auto_mode_reported exact_interpreter shaken_controller
           (mkAutoModeCommand false 0) 7 shaken_controller_reachable).
Defined.

Lemma pump_command_reported_witness :
  exists s,
    @get_telemetry exact_interpreter
      (snd (send_command shaken_controller (overriding WATER_PUMP OFF))) 7 = Ok (Some s)
    /\ (WATER_PUMP = WATER_PUMP -> pump_active s = false).
Proof.
  apply (proj1 (@pump_command_reported exact_interpreter shaken_controller
                  (overriding WATER_PUMP OFF) 7 shaken_controller_reachable
                  (or_introl eq_refl))).
Defined.

End SimulationFacts.

(** * The rest of the serial controller *)

(** ** Shutdown, cached telemetry and health
    (backend/infrastructure/serial_controller.py) *)

Module SerialLifecycle.
Import Entities Convert SerialController.

(** [Serial.close()] *)
Definition close (ser : Serial) : Serial := mkSerial false (pending ser) (log ser).

Definition shutdown (self : SerialHardwareController) : SerialHardwareController :=
  mkSerialHardwareController
    (_port self) (_baud_rate self) (_timeout self)
    (match _serial self with
     | Some ser => if is_open ser then Some (close ser) else Some ser
     | None => None
     end)
    (_latest_telemetry self) false.

Definition get_telemetry (self : SerialHardwareController) : option TelemetrySnapshot :=
  _latest_telemetry self.

Section WithInterpreter.
Context {I : Interpreter}.

(** [health_check] at time [now]; times are microseconds since the
    epoch, and the age is [timedelta.total_seconds()]. *)
Definition health_check (self : SerialHardwareController) (now : Z) : bool :=
  if negb (connected self) then false
  else
    match _latest_telemetry self with
    | Some telemetry =>
        let age := fl (inject_Z (now - timestamp telemetry) / 1000000) in
        Qlt_bool age 5
    | None => false
    end.

(** The lines [readline] returns to the reader loop, each with the time
    it is decoded at. *)
Definition read_lines (self : SerialHardwareController) (inputs : list (Z * list Byte.byte))
  : SerialHardwareController :=
  fold_left (fun c input => reader_step c (fst input) (snd input)) inputs self.

(** What can happen to a serial controller. *)
Inductive step : SerialHardwareController -> SerialHardwareController -> Prop :=
| step_initialize host self self' :
    initialize host self = Ok self' -> step self self'
| step_read self now line :
    step self (reader_step self now line)
| step_send_command self fuel command out :
    send_command fuel self command = Some out -> step self (Tenacity.final out)
| step_set_auto_mode self command :
    step self (snd (set_auto_mode self command))
| step_shutdown self :
    step self (shutdown self).

Inductive reachable : SerialHardwareController -> Prop :=
| reachable_new port baud_rate : reachable (new_SerialHardwareController port baud_rate)
| reachable_step self self' : reachable self -> step self self' -> reachable self'.
End WithInterpreter.

End SerialLifecycle.

(** ** Properties of the serial controller *)

Module SerialFacts.
Import Entities Convert SerialController SerialLifecycle.

(** *** The telemetry cache *)

Section WithInterpreter.
Context {I : Interpreter}.

(** The text the loop hands to the decoder for the bytes of a line. *)
Definition text_of (line : list Byte.byte) : list ascii :=
  strip (decode_ascii_ignore line).

(** The line, decoded and stripped, does not parse to a snapshot. *)
Definition undecoded (self : SerialHardwareController) (input : Z * list Byte.byte) : Prop :=
  forall t, _parse_telemetry self (fst input) (text_of (snd input)) <> Ok (Some t).

Definition with_telemetry (self : SerialHardwareController) (t : TelemetrySnapshot)
  : SerialHardwareController :=
  mkSerialHardwareController (_port self) (_baud_rate self) (_timeout self)
                             (_serial self) (Some t) (_running self).

(** The empty text has no field. *)
Lemma parse_nothing self now : _parse_telemetry self now [] = Ok None.
Proof. reflexivity. Qed.

Lemma text_of_nothing : text_of [] = [].
Proof. reflexivity. Qed.

(** The test [if line:] of the loop changes nothing: no byte gives the
    empty text, which has no field. *)
Lemma reader_step_text self now line :
  reader_step self now line
  = match _parse_telemetry self now (text_of line) with
    | Ok (Some t) => with_telemetry self t
    | _ => self
    end.
Proof. destruct line; reflexivity. Qed.

Lemma reader_step_decoded self now line t :
  _parse_telemetry self now (text_of line) = Ok (Some t) ->
  reader_step self now line = with_telemetry self t.
Proof.
  intros H. unfold reader_step. destruct line as [|b line].
  - rewrite text_of_nothing, parse_nothing in H. discriminate H.
  - fold (text_of (b :: line)). rewrite H. reflexivity.
Qed.

Lemma reader_step_undecoded self input :
  undecoded self input -> reader_step self (fst input) (snd input) = self.
Proof.
  intros H. unfold reader_step. destruct (snd input) as [|b line] eqn:El; [reflexivity|].
  fold (text_of (b :: line)). rewrite <- El.
  destruct (_parse_telemetry self (fst input) (text_of (snd input))) as [[t|]|e] eqn:E;
    try reflexivity.
  exfalso. exact (H t E).
Qed.

Lemma read_lines_undecoded self inputs :
  Forall (undecoded self) inputs -> read_lines self inputs = self.
Proof.
  induction 1 as [|input inputs Hin _ IH]; [reflexivity|].
  unfold read_lines in *; simpl. rewrite (reader_step_undecoded Hin). exact IH.
Qed.

Lemma reader_step_link self now line :
  _serial (reader_step self now line) = _serial self
  /\ _port (reader_step self now line) = _port self
  /\ _running (reader_step self now line) = _running self.
Proof.
  unfold reader_step. destruct line as [|b line]; [now repeat split|].
  destruct (_parse_telemetry self now _) as [[t|]|e]; now repeat split.
Qed.

Lemma read_lines_link self inputs :
  _serial (read_lines self inputs) = _serial self
  /\ _port (read_lines self inputs) = _port self
  /\ _running (read_lines self inputs) = _running self.
Proof.
  revert self. induction inputs as [|input inputs IH]; intros self; [now repeat split|].
  unfold read_lines in *; simpl.
  destruct (IH (reader_step self (fst input) (snd input))) as (H1 & H2 & H3).
  destruct (reader_step_link self (fst input) (snd input)) as (G1 & G2 & G3).
  rewrite H1, H2, H3. now repeat split.
Qed.

(** Bytes of 128 and above are dropped before the line is parsed. *)
Lemma decode_ascii_ignore_app (line line' : list Byte.byte) :
  decode_ascii_ignore (line ++ line')
  = decode_ascii_ignore line ++ decode_ascii_ignore line'.
Proof.
  unfold decode_ascii_ignore. now rewrite filter_app, map_app.
Qed.

Lemma decode_ascii_ignore_high (b : Byte.byte) (line : list Byte.byte) :
  (128 <= Regex.code (ascii_of_byte b))%nat ->
  decode_ascii_ignore (b :: line) = decode_ascii_ignore line.
Proof.
  intros H. unfold decode_ascii_ignore; simpl.
  apply Nat.ltb_ge in H. now rewrite H.
Qed.

(** The cache holds the snapshot of the last line that decoded, a line
    being decoded as the loop does it: from the bytes that [readline]
    returned, those of 128 and above are dropped and the white space at
    both ends is removed, and the text left is parsed. Lines that do not
    decode, before or after it, neither clear nor change the cache; a
    byte of 128 or above anywhere in a line changes nothing to what the
    line decodes to. Reading never touches the link. *)
Theorem cache_holds_last_decoded
        (self : SerialHardwareController) (inputs : list (Z * list Byte.byte)) :
  (Forall (undecoded self) inputs ->
   get_telemetry (read_lines self inputs) = get_telemetry self)
  /\ (forall before input after t,
        inputs = before ++ input :: after ->
        _parse_telemetry self (fst input) (text_of (snd input)) = Ok (Some t) ->
        Forall (undecoded self) after ->
        get_telemetry (read_lines self inputs) = Some t)
  /\ (forall now line b line',
        (128 <= Regex.code (ascii_of_byte b))%nat ->
        reader_step self now (line ++ b :: line') = reader_step self now (line ++ line'))
  /\ _serial (read_lines self inputs) = _serial self.
Proof.
  split; [|split; [|split]].
  - intros H. now rewrite (read_lines_undecoded H).
  - intros before input after t -> Hdec Hafter.
    unfold read_lines. rewrite fold_left_app. simpl.
    fold (read_lines self before).
    set (c := read_lines self before).
    assert (Hstep : reader_step c (fst input) (snd input) = with_telemetry c t).
    { apply reader_step_decoded. exact Hdec. }
    rewrite Hstep.
    fold (read_lines (with_telemetry c t) after).
    rewrite read_lines_undecoded; [reflexivity|].
    eapply Forall_impl; [|exact Hafter]. intros a Ha u. exact (Ha u).
  - intros now line b line' Hb.
    rewrite !reader_step_text. unfold text_of.
    rewrite !decode_ascii_ignore_app, (@decode_ascii_ignore_high b line' Hb). reflexivity.
  - apply read_lines_link.
Qed.

(** *** Health *)

(** [health_check] never answers true on a closed link, without
    telemetry, or with telemetry decoded five seconds ago or earlier. *)
Theorem health_check_fresh (self : SerialHardwareController) (now : Z) :
  health_check self now = true ->
  connected self = true
  /\ exists t, get_telemetry self = Some t /\ (now - timestamp t < 5000000)%Z.
Proof.
  unfold health_check, get_telemetry.
  destruct (connected self); simpl; [|discriminate].
  destruct (_latest_telemetry self) as [t|]; [|discriminate].
  intros Hage. split; [reflexivity|]. exists t. split; [reflexivity|].
  apply EnvironmentRanges.Qlt_bool_true in Hage.
  destruct (Z.lt_ge_cases (now - timestamp t) 5000000) as [Hlt | Hge]; [exact Hlt|].
  exfalso.
  assert (H5 : 5 <= inject_Z (now - timestamp t) / 1000000).
  { apply Qle_shift_div_l; [reflexivity|].
    change (5 * 1000000) with (inject_Z 5000000). rewrite <- Zle_Qle. exact Hge. }
  apply fl_mono in H5.
  assert (Hfl : fl 5 == 5) by (apply (fl_int 5); simpl; lia).
  rewrite Hfl in H5. apply (Qlt_not_le _ _ Hage H5).
Qed.
End WithInterpreter.

Definition fresh_controller : SerialHardwareController :=
  with_telemetry (Retry.on_link []) Decoder.sample_snapshot.

Lemma health_check_fresh_witness :
  connected fresh_controller = true
  /\ exists t, get_telemetry fresh_controller = Some t /\ (1000007 - timestamp t < 5000000)%Z.
Proof.
  apply (@health_check_fresh exact_interpreter fresh_controller 1000007).
  vm_compute. reflexivity.
Defined.

Example health_check_stale :
  @health_check exact_interpreter fresh_controller 5000007 = false
  /\ @health_check exact_interpreter fresh_controller 5000006 = true
  /\ @health_check exact_interpreter (Retry.on_link []) 0 = false.
Proof. repeat split; vm_compute; reflexivity. Qed.

(** The bytes of a text as the board sends them, and the end of line
    [println] adds. *)
Definition bytes_of (text : list ascii) : list Byte.byte := map byte_of_ascii text.

Definition crlf : list ascii := ["013"%char; "010"%char].

(** The firmware's line with a byte of noise in its first label. *)
Definition noisy_line : list Byte.byte :=
  bytes_of (Regex.str "LD") ++ Byte.xff :: bytes_of (skipn 2 Decoder.sample_line ++ crlf).

Example cache_after_three_lines :
  @get_telemetry
    (@read_lines exact_interpreter (Retry.on_link [])
       [(3%Z, bytes_of (Decoder.line_without_humidity ++ crlf));
        (7%Z, bytes_of (Decoder.sample_line ++ crlf));
        (8%Z, bytes_of crlf);
        (9%Z, bytes_of (Decoder.line_with_bad_temperature ++ crlf))])
  = Some Decoder.sample_snapshot.
Proof. vm_compute. reflexivity. Qed.

Example cache_after_noisy_line :
  @get_telemetry (@read_lines exact_interpreter (Retry.on_link []) [(7%Z, noisy_line)])
  = Some Decoder.sample_snapshot.
Proof. vm_compute. reflexivity. Qed.

(** *** Shutdown *)

(** After [shutdown] the link is closed and stays so on a second
    [shutdown]; both commands answer false without writing to the link or
    waiting, the health check fails, and the cached telemetry is still
    served. *)
Theorem shutdown_silences_the_link
        {I : Interpreter} (self : SerialHardwareController) (command : DeviceCommand)
        (auto : AutoModeCommand) (fuel : nat) (now : Z) :
  let down := shutdown self in
  connected down = false
  /\ _running down = false
  /\ shutdown down = down
  /\ send_command (Datatypes.S fuel) down command = Some (Tenacity.mkOutcome (Ok false) down [])
  /\ set_auto_mode down auto = (Ok false, down)
  /\ health_check down now = false
  /\ get_telemetry down = get_telemetry self
  /\ writes_attempted down = writes_attempted self.
Proof.
  destruct self as [port baud tmo [[o p l]|] latest running]; cbv zeta;
    unfold shutdown, connected, send_command, set_auto_mode, health_check, get_telemetry,
      writes_attempted, Tenacity.call, send_command_body; simpl;
    try destruct o; simpl; repeat split.
Qed.

Example shutdown_after_traffic :
  let self := Retry.on_link [false; true] in
  let down := shutdown (snd (set_auto_mode self (mkAutoModeCommand true 0))) in
  send_command 3 down (mkDeviceCommand NIGHT_LED ON 0 true)
  = Some (Tenacity.mkOutcome (Ok false) down [])
  /\ writes_attempted down = 1%nat.
Proof. split; reflexivity. Qed.

(** *** What a decorated call keeps *)

Section RetryingKeeps.
Variables S A : Type.
Variable stop : nat -> bool.
Variable wait : nat -> Z.
Variable retry : exn -> bool.
Variable f : S -> result A * S.
Variable Inv : S -> Prop.
Variable Post : result A -> S -> Prop.
Hypothesis f_returns :
  forall st v st', Inv st -> f st = (Ok v, st') -> Post (Ok v) st'.
Hypothesis f_raises :
  forall st e st', Inv st -> f st = (Raise e, st') ->
                   Inv st' /\ Post (Raise e) st' /\ Post (Raise RetryError) st'.

Lemma retrying_post (fuel : nat) :
  forall (a : nat) (st : S) (slept : list Z) (out : Tenacity.outcome S A),
    Inv st -> Tenacity.retrying stop wait retry f fuel a st slept = Some out ->
    Post (Tenacity.returned out) (Tenacity.final out).
Proof.
  induction fuel as [|fuel IH]; intros a st slept out Hinv Hrun; [discriminate|].
  simpl in Hrun. destruct (f st) as [[v | e] st'] eqn:Ef.
  - injection Hrun as <-. simpl. exact (f_returns Hinv Ef).
  - destruct (f_raises Hinv Ef) as (Hinv' & Hpost & Hpost').
    destruct (retry e).
    + destruct (stop a).
      * injection Hrun as <-. exact Hpost'.
      * exact (IH _ _ _ _ Hinv' Hrun).
    + injection Hrun as <-. exact Hpost.
Qed.
End RetryingKeeps.

Section MoreFuel.
Variables S A : Type.
Variable stop : nat -> bool.
Variable wait : nat -> Z.
Variable retry : exn -> bool.
Variable f : S -> result A * S.

(** A call that ends with some fuel ends the same way with more. *)
Lemma retrying_more_fuel (n m : nat) :
  forall (a : nat) (st : S) (slept : list Z) (out : Tenacity.outcome S A),
    Tenacity.retrying stop wait retry f n a st slept = Some out ->
    Tenacity.retrying stop wait retry f (n + m) a st slept = Some out.
Proof.
  induction n as [|n IH]; intros a st slept out Hrun; [discriminate|].
  simpl in *. destruct (f st) as [[v | e] st']; [exact Hrun|].
  destruct (retry e); [|exact Hrun].
  destruct (stop a); [exact Hrun|].
  apply IH. exact Hrun.
Qed.
End MoreFuel.

(** *** What is written to the link *)

Definition newline : string := String "010"%char EmptyString.

Definition overriding_pump_on : DeviceCommand := mkDeviceCommand WATER_PUMP ON 0 true.

(** One attempt on an open link, for a command that encodes. *)
Lemma send_command_body_write self ser command cmd :
  _serial self = Some ser -> is_open ser = true -> to_arduino_format command = Ok cmd ->
  exists (ok : bool) (rest : list bool),
    send_command_body self command
    = (if ok then Ok true else Raise SerialException,
       set_serial self (mkSerial true rest (((cmd ++ newline)%string, ok) :: log ser))).
Proof.
  intros Hser Hopen Hcmd. unfold send_command_body, connected, _send_raw.
  rewrite Hser, Hopen, Hcmd; simpl.
  destruct (pending ser) as [|[|] rest]; simpl.
  - exists true, []. reflexivity.
  - exists true, rest. reflexivity.
  - exists false, rest. reflexivity.
Qed.

(** What [send_command] writes on an open link: one to three times the
    encoded command followed by a newline, nothing else; every write but
    the last failed, and the last one was accepted exactly when the call
    returns true. *)
Theorem writes_are_the_command
        (self : SerialHardwareController) (ser : Serial) (command : DeviceCommand)
        (cmd : string) (fuel : nat)
        (out : Tenacity.outcome SerialHardwareController bool) :
  _serial self = Some ser -> is_open ser = true ->
  to_arduino_format command = Ok cmd ->
  send_command fuel self command = Some out ->
  exists (ser' : Serial) (last : string * bool) (earlier : list (string * bool)),
    _serial (Tenacity.final out) = Some ser'
    /\ log ser' = last :: earlier ++ log ser
    /\ Forall (fun w => fst w = (cmd ++ newline)%string) (last :: earlier)
    /\ Forall (fun w => snd w = false) earlier
    /\ (snd last = true <-> Tenacity.returned out = Ok true)
    /\ (List.length earlier < 3)%nat.
Proof.
  intros Hser Hopen Hcmd Hrun.
  set (data := (cmd ++ newline)%string).
  set (Inv := fun st : SerialHardwareController =>
                exists ser' earlier,
                  _serial st = Some ser' /\ is_open ser' = true
                  /\ log ser' = earlier ++ log ser
                  /\ Forall (fun w => fst w = data) earlier
                  /\ Forall (fun w => snd w = false) earlier).
  set (Post := fun (r : result bool) (st : SerialHardwareController) =>
                 exists ser' last earlier,
                   _serial st = Some ser'
                   /\ log ser' = last :: earlier ++ log ser
                   /\ Forall (fun w => fst w = data) (last :: earlier)
                   /\ Forall (fun w => snd w = false) earlier
                   /\ (snd last = true <-> r = Ok true)).
  assert (Hpost : Post (Tenacity.returned out) (Tenacity.final out)).
  { unfold send_command, Tenacity.call in Hrun.
    refine (@retrying_post _ _ _ _ _ _ Inv Post _ _ fuel 1%nat self [] out _ Hrun);
      [| | exists ser, []; repeat split; auto].
    - intros st v st' (ser' & earlier & Hs & Ho & Hl & Hf & Hn) Hf'.
      destruct (send_command_body_write st command Hs Ho Hcmd) as (ok & rest & Hbody).
      rewrite Hbody in Hf'. destruct ok; [|discriminate].
      injection Hf' as <- <-.
      exists (mkSerial true rest ((data, true) :: log ser')), (data, true), earlier.
      simpl. rewrite Hl. repeat split; auto.
    - intros st e st' (ser' & earlier & Hs & Ho & Hl & Hf & Hn) Hf'.
      destruct (send_command_body_write st command Hs Ho Hcmd) as (ok & rest & Hbody).
      rewrite Hbody in Hf'. destruct ok; [discriminate|].
      injection Hf' as <- <-.
      split; [|split].
      + exists (mkSerial true rest ((data, false) :: log ser')), ((data, false) :: earlier).
        simpl. rewrite Hl. repeat split; auto.
      + exists (mkSerial true rest ((data, false) :: log ser')), (data, false), earlier.
        simpl. rewrite Hl. repeat split; auto; discriminate.
      + exists (mkSerial true rest ((data, false) :: log ser')), (data, false), earlier.
        simpl. rewrite Hl. repeat split; auto; discriminate. }
  destruct Hpost as (ser' & last & earlier & Hs & Hl & Hf & Hn & Hlast).
  exists ser', last, earlier. repeat split; try assumption; try apply Hlast.
  destruct (@Retry.retrying_stops SerialHardwareController bool 3
              (Tenacity.wait_exponential 1 1 10)
              (Tenacity.retry_if_exception_type SerialException)
              (fun st => send_command_body st command)
              writes_attempted (Retry.send_command_body_cost command) 3 1 self [])
    as (out3 & k & Hrun3 & Hk & _ & Hc); [lia | lia |].
  assert (Hsame : Tenacity.retrying (Tenacity.stop_after_attempt 3)
                    (Tenacity.wait_exponential 1 1 10)
                    (Tenacity.retry_if_exception_type SerialException)
                    (fun st => send_command_body st command) fuel 1 self [] = Some out)
    by exact Hrun.
  assert (Hout : out = out3).
  { destruct (Nat.le_gt_cases 3 fuel) as [Hge | Hlt].
    - rewrite (Hrun3 fuel Hge) in Hsame. now injection Hsame.
    - pose proof (@retrying_more_fuel _ _ _ _ _ _ fuel (3 - fuel)%nat 1%nat self [] out Hsame)
        as Hmono.
      replace (fuel + (3 - fuel))%nat with 3%nat in Hmono by lia.
      rewrite (Hrun3 3%nat (le_n 3)) in Hmono. now injection Hmono. }
  subst out3. unfold writes_attempted in Hc. rewrite Hs, Hser, Hl in Hc.
  simpl in Hc. rewrite length_app in Hc. lia.
Qed.

Lemma writes_are_the_command_witness :
  exists out,
    send_command 3 (Retry.on_link [false; false; true]) (overriding_pump_on) = Some out
    /\ exists (ser' : Serial) (last : string * bool) (earlier : list (string * bool)),
        _serial (Tenacity.final out) = Some ser'
        /\ log ser' = last :: earlier ++ []
        /\ Forall (fun w => fst w = ("P1" ++ newline)%string) (last :: earlier)
        /\ Forall (fun w => snd w = false) earlier
        /\ (snd last = true <-> Tenacity.returned out = Ok true)
        /\ (List.length earlier < 3)%nat.
Proof.
  eexists. split; [reflexivity|].
  exact (@writes_are_the_command (Retry.on_link [false; false; true])
           (mkSerial true [false; false; true] []) overriding_pump_on "P1" 3 _
           eq_refl eq_refl eq_refl eq_refl).
Defined.

(** *** Commands the link cannot carry *)

(** A command for a sensor-only identifier is refused before anything
    is written: on an open link [send_command] raises the encoder's
    [ValueError] at the first attempt, without retry or wait; on a closed
    or absent link it answers false, the link being checked first. *)
Theorem sensor_command_is_not_sent
        (self : SerialHardwareController) (command : DeviceCommand) (fuel : nat) :
  sensor_only (device_type command) = true ->
  send_command (Datatypes.S fuel) self command
  = Some (Tenacity.mkOutcome
            (if connected self then Raise ValueError else Ok false) self []).
Proof.
  intros Hsensor. unfold send_command, Tenacity.call, send_command_body; simpl.
  destruct (connected self); simpl; [|reflexivity].
  destruct command as [d st ts mo]; simpl in Hsensor.
  destruct d; try discriminate Hsensor; reflexivity.
Qed.

Lemma sensor_command_is_not_sent_witness :
  send_command 1 (Retry.on_link [false; true]) (mkDeviceCommand SMOKE_SENSOR ON 0 true)
  = Some (Tenacity.mkOutcome (Raise ValueError) (Retry.on_link [false; true]) []).
Proof.
  exact (@sensor_command_is_not_sent (Retry.on_link [false; true])
           (mkDeviceCommand SMOKE_SENSOR ON 0 true) 0 eq_refl).
Defined.

(** *** The telemetry that is served *)

(** The ranges the snapshot's constructor checks. *)
Definition valid_ranges (s : TelemetrySnapshot) : Prop :=
  (0 <= ldr_value s <= 1023)%Z
  /\ (0 <= humidity s /\ humidity s <= 100)
  /\ (-40 <= temperature s /\ temperature s <= 80).

Lemma post_init_ok (s : TelemetrySnapshot) : post_init s = Ok tt <-> valid_ranges s.
Proof.
  unfold post_init, valid_ranges.
  destruct ((0 <=? ldr_value s)%Z && (ldr_value s <=? 1023)%Z) eqn:E1; simpl.
  2: { split; [discriminate | intros (Hl & _)].
       apply andb_false_iff in E1. destruct E1 as [E | E]; apply Z.leb_gt in E; lia. }
  apply andb_true_iff in E1 as [A B]. apply Z.leb_le in A, B.
  destruct (Qle_bool 0 (humidity s) && Qle_bool (humidity s) 100) eqn:E2; simpl.
  2: { split; [discriminate | intros (_ & (H1 & H2) & _)].
       apply Qle_bool_iff in H1, H2. rewrite H1, H2 in E2. discriminate. }
  apply andb_true_iff in E2 as [C D]. apply Qle_bool_iff in C, D.
  destruct (Qlt_bool (temperature s) (-40) || Qlt_bool 80 (temperature s)) eqn:E3; simpl.
  - split; [discriminate | intros (_ & _ & (H1 & H2))].
    apply orb_true_iff in E3.
    destruct E3 as [E | E]; apply EnvironmentRanges.Qlt_bool_true in E; lra.
  - apply orb_false_iff in E3 as [E F].
    apply EnvironmentRanges.Qlt_bool_false in E, F.
    split; [intros _; repeat split; auto | reflexivity].
Qed.

(** What the three checks of the constructor let through, each
    comparison as the source writes it: the light level and the humidity
    are in their ranges, and the temperature is neither below -40 nor
    above 80. *)
Definition passes_checks (s : TelemetrySnapshot) : Prop :=
  (0 <= ldr_value s <= 1023)%Z
  /\ (0 <= humidity s /\ humidity s <= 100)
  /\ ~ temperature s < -40
  /\ ~ 80 < temperature s.

(** The constructor of [TelemetrySnapshot] accepts a snapshot, and
    returns it as given, exactly when its light level is within 0 and
    1023, its humidity within 0 and 100, and its temperature neither
    below -40 nor above 80, the bounds included; otherwise it raises, and
    what it raises is [ValueError]. *)
Theorem new_TelemetrySnapshot_ranges (s : TelemetrySnapshot) :
  (passes_checks s <-> new_TelemetrySnapshot s = Ok s)
  /\ (~ passes_checks s <-> new_TelemetrySnapshot s = Raise ValueError)
  /\ (forall s', new_TelemetrySnapshot s = Ok s' -> s' = s)
  /\ (forall e, new_TelemetrySnapshot s = Raise e -> e = ValueError).
Proof.
  assert (Hok : post_init s = Ok tt <-> passes_checks s).
  { rewrite post_init_ok. unfold valid_ranges, passes_checks.
    split; intros (Hl & Hh & Ht); (split; [exact Hl | split; [exact Hh|]]).
    - split; apply Qle_not_lt; tauto.
    - split; apply Qnot_lt_le; tauto. }
  destruct (Decoder.new_TelemetrySnapshot_cases s) as [[Hnew Hpost] | Hnew]; rewrite Hnew.
  - split; [|split; [|split]].
    + split; [reflexivity | tauto].
    + split; [tauto | discriminate].
    + intros s' H. now injection H as <-.
    + discriminate.
  - assert (Hbad : post_init s <> Ok tt).
    { intros H. unfold new_TelemetrySnapshot in Hnew. rewrite H in Hnew. discriminate. }
    split; [|split; [|split]].
    + split; [tauto | discriminate].
    + split; [reflexivity | tauto].
    + discriminate.
    + intros e H. now injection H as <-.
Qed.

Definition snapshot_at (l : Z) (t h : Q) : TelemetrySnapshot :=
  mkTelemetrySnapshot 0 l 20 false false 3 750 false false 45 t h true SIMULATION.

Example snapshot_boundaries :
  new_TelemetrySnapshot (snapshot_at 0 (-40) 0) = Ok (snapshot_at 0 (-40) 0)
  /\ new_TelemetrySnapshot (snapshot_at 1023 80 100) = Ok (snapshot_at 1023 80 100)
  /\ new_TelemetrySnapshot (snapshot_at 1024 80 100) = Raise ValueError
  /\ new_TelemetrySnapshot (snapshot_at (-1) 80 100) = Raise ValueError
  /\ new_TelemetrySnapshot (snapshot_at 650 (801 # 10) 55) = Raise ValueError
  /\ new_TelemetrySnapshot (snapshot_at 650 (-401 # 10) 55) = Raise ValueError
  /\ new_TelemetrySnapshot (snapshot_at 650 (245 # 10) 150) = Raise ValueError
  /\ new_TelemetrySnapshot (snapshot_at 650 (245 # 10) (-1 # 10)) = Raise ValueError.
Proof. repeat split. Qed.

Section WithInterpreter.
Context {I : Interpreter}.

(** The cached telemetry, if any, came out of the decoder. *)
Definition stamped (self : SerialHardwareController) : Prop :=
  forall t, _latest_telemetry self = Some t ->
            auto_mode t = true /\ Entities.runtime_mode t = ARDUINO /\ post_init t = Ok tt.

Lemma send_command_keeps_cache fuel self command out :
  send_command fuel self command = Some out ->
  _latest_telemetry (Tenacity.final out) = _latest_telemetry self.
Proof.
  intros Hrun.
  refine (@retrying_post _ _ _ _ _ _
            (fun st => _latest_telemetry st = _latest_telemetry self)
            (fun _ st => _latest_telemetry st = _latest_telemetry self)
            _ _ fuel 1%nat self [] out eq_refl Hrun).
  - intros st v st' Hinv Hf. rewrite <- Hinv.
    unfold send_command_body, _send_raw in Hf.
    destruct (connected st); simpl in Hf; [|now injection Hf as _ <-].
    destruct (to_arduino_format command); [|discriminate].
    destruct (_serial st) as [ser|]; [|now injection Hf as _ <-].
    destruct (pending ser) as [|[|] rest]; simpl in Hf; try discriminate;
      now injection Hf as _ <-.
  - intros st e st' Hinv Hf.
    assert (H : _latest_telemetry st' = _latest_telemetry self).
    { rewrite <- Hinv. unfold send_command_body, _send_raw in Hf.
      destruct (connected st); simpl in Hf; [|discriminate].
      destruct (to_arduino_format command); [|now injection Hf as _ <-].
      destruct (_serial st) as [ser|]; [|discriminate].
      destruct (pending ser) as [|[|] rest]; simpl in Hf; try discriminate;
        now injection Hf as _ <-. }
    now repeat split.
Qed.

Lemma stamped_step self self' : step self self' -> stamped self -> stamped self'.
Proof.
  intros Hstep Hst. destruct Hstep as [host self self' Hinit | self now line
                                      | self fuel command out Hrun | self command | self].
  - unfold initialize in Hinit.
    destruct (if negb (truthy (_port self)) then _detect_arduino_port host else _port self)
      as [[|c p]|]; try discriminate.
    destruct (new_Serial host (c :: p) _ _) as [ser|[]]; try discriminate.
    injection Hinit as <-. exact Hst.
  - unfold reader_step. destruct line as [|b line]; [exact Hst|].
    fold (text_of (b :: line)). unfold _parse_telemetry.
    pose proof (Decoder.parse_body_spec now (text_of (b :: line))) as Hspec.
    destruct (parse_body now (text_of (b :: line))) as [[t|]|e]; try exact Hst.
    + intros t' Ht'. simpl in Ht'. injection Ht' as <-.
      destruct Hspec as (_ & _ & _ & _ & _ & _ & _ & _ & _ & _ & _ & _ & Ha & Hr & Hp).
      now repeat split.
    + destruct e; exact Hst.
  - intros t Ht. apply Hst. now rewrite <- (send_command_keeps_cache _ _ _ Hrun).
  - unfold set_auto_mode, _send_raw.
    destruct (connected self); simpl; [|exact Hst].
    destruct (_serial self) as [ser|]; simpl; [|exact Hst].
    destruct (pending ser) as [|[|] rest]; simpl; exact Hst.
  - exact Hst.
Qed.

Lemma stamped_reachable self : reachable self -> stamped self.
Proof.
  induction 1 as [port baud | self self' _ IH Hstep].
  - intros t Ht. discriminate Ht.
  - exact (stamped_step Hstep IH).
Qed.

(** Whatever the serial controller has been through (initialization,
    lines read, commands sent, auto mode set either way, shutdown), the
    telemetry it serves is a validated one: within the ranges of the
    constructor, marked ARDUINO, and with its auto-mode flag true. *)
Theorem served_telemetry_is_validated (self : SerialHardwareController)
        (t : TelemetrySnapshot) :
  reachable self -> get_telemetry self = Some t ->
  valid_ranges t /\ Entities.runtime_mode t = ARDUINO /\ auto_mode t = true.
Proof.
  intros Hreach Ht.
  destruct (@stamped_reachable self Hreach t Ht) as (Ha & Hr & Hp).
  split; [|split; assumption].
  apply post_init_ok. exact Hp.
Qed.
End WithInterpreter.

(** A host whose configured port opens on a link with the given
    outcomes, and the controller [initialize] makes there. *)
Definition usb_port : list ascii := Regex.str "/dev/ttyUSB0".

Definition usb_host (outcomes : list bool) : Host :=
  mkHost [] (fun _ _ _ => Ok (mkSerial true outcomes [])).

Definition live (outcomes : list bool) : SerialHardwareController :=
  mkSerialHardwareController (Some usb_port) 9600 2 (Some (mkSerial true outcomes []))
                             None true.

Lemma live_reachable outcomes : @reachable exact_interpreter (live outcomes).
Proof.
  apply reachable_step with (new_SerialHardwareController (Some usb_port) 9600).
  - apply reachable_new.
  - apply step_initialize with (host := usb_host outcomes). reflexivity.
Qed.

(** A controller that read the firmware's line and was then told to
    leave auto mode. *)
Definition told_manual : SerialHardwareController :=
  snd (set_auto_mode
         (@reader_step exact_interpreter (live []) 7
            (bytes_of (Decoder.sample_line ++ crlf)))
         (mkAutoModeCommand false 8)).

Lemma told_manual_reachable : @reachable exact_interpreter told_manual.
Proof.
  unfold told_manual.
  eapply reachable_step; [eapply reachable_step; [apply live_reachable|]|].
  - apply step_read.
  - apply step_set_auto_mode.
Qed.

Lemma served_telemetry_is_validated_witness :
  valid_ranges Decoder.sample_snapshot
  /\ Entities.runtime_mode Decoder.sample_snapshot = ARDUINO
  /\ auto_mode Decoder.sample_snapshot = true.
Proof.
  apply (@served_telemetry_is_validated exact_interpreter told_manual Decoder.sample_snapshot
           told_manual_reachable).
  vm_compute. reflexivity.
Defined.

End SerialFacts.

(** * The use cases and the safety check *)

(** ** backend/application/use_cases.py, and [check_safety] of
    backend/infrastructure/openai_agent.py *)

Module UseCases.
Import Entities.
Import Factory(HardwareController, Serial, Simulated).

Section WithInterpreter.
Context {I : Interpreter}.

(** The three operations of the protocol the use cases call, on either
    implementation. The serial [send_command] is given the fuel of its
    decorator's loop. *)
Definition get_telemetry (hardware : HardwareController) (now : Z)
  : result (option TelemetrySnapshot) :=
  match hardware with
  | Serial c => Ok (SerialLifecycle.get_telemetry c)
  | Simulated c => Simulation.get_telemetry c now
  end.

Definition send_command (fuel : nat) (hardware : HardwareController) (command : DeviceCommand)
  : option (result bool * HardwareController) :=
  match hardware with
  | Serial c =>
      match SerialController.send_command fuel c command with
      | Some out => Some (Tenacity.returned out, Serial (Tenacity.final out))
      | None => None
      end
  | Simulated c =>
      let (success, c') := Simulation.send_command c command in
      Some (Ok success, Simulated c')
  end.

Definition set_auto_mode (hardware : HardwareController) (command : AutoModeCommand)
  : result bool * HardwareController :=
  match hardware with
  | Serial c =>
      let (r, c') := SerialController.set_auto_mode c command in (r, Serial c')
  | Simulated c =>
      let (success, c') := Simulation.set_auto_mode c command in (Ok success, Simulated c')
  end.

(** Python's truth value of an optional snapshot, and of the flag in it. *)
Definition in_auto_mode (telemetry : option TelemetrySnapshot) : bool :=
  match telemetry with
  | Some t => auto_mode t
  | None => false
  end.

(** [ManualControlUseCase.execute] *)
Definition manual_control (fuel : nat) (hardware : HardwareController)
           (command : DeviceCommand) (now : Z)
  : option (result bool * HardwareController) :=
  match get_telemetry hardware now with
  | Raise e => Some (Raise e, hardware)
  | Ok current_telemetry =>
      if in_auto_mode current_telemetry && negb (manual_override command)
      then Some (Ok false, hardware)
      else send_command fuel hardware command
  end.
End WithInterpreter.

(** [OpenAIIntentParser.check_safety]: whether the commands may run, and
    the reason when they may not. *)
Definition emergency_reason : string :=
  "Cannot control lights during fire/smoke emergency. Auto mode must remain active.".

Definition auto_mode_reason : string :=
  "Auto mode is active. Disable auto mode first or use manual override.".

Definition check_safety (commands : list DeviceCommand) (current_state : TelemetrySnapshot)
  : bool * string :=
  if has_emergency current_state
     && existsb (fun cmd => DeviceType_eqb (device_type cmd) NIGHT_LED) commands
  then (false, emergency_reason)
  else if auto_mode current_state
          && negb (List.length (filter (fun cmd => negb (manual_override cmd)) commands) =? 0)%nat
  then (false, auto_mode_reason)
  else (true, EmptyString).

End UseCases.

(** ** Properties of the use cases *)

Module UseCaseFacts.
Import Entities UseCases.
Import Factory(HardwareController, Serial, Simulated).

Section WithInterpreter.
Context {I : Interpreter}.

(** On the physical backend manual control without override stays
    blocked once telemetry has been decoded: the decoder stamps every
    snapshot with auto mode on, so [ManualControlUseCase.execute] answers
    false and writes nothing to the link, also after auto mode has been
    switched off with [set_auto_mode]. *)
Theorem manual_control_blocked_on_serial
        (c : SerialController.SerialHardwareController) (t : TelemetrySnapshot)
        (command : DeviceCommand) (fuel : nat) (now : Z) :
  SerialLifecycle.reachable c ->
  SerialLifecycle.get_telemetry c = Some t ->
  manual_override command = false ->
  manual_control fuel (Serial c) command now = Some (Ok false, Serial c).
Proof.
  intros Hreach Ht Hman.
  destruct (@SerialFacts.stamped_reachable _ c Hreach t Ht) as (Hauto & _).
  unfold manual_control; simpl. rewrite Ht; simpl. rewrite Hauto, Hman. reflexivity.
Qed.

Lemma simulated_telemetry_cases (c : Simulation.SimulatedHardwareController) (now : Z) :
  Simulation.get_telemetry c now = Ok None
  \/ exists s, Simulation.get_telemetry c now = Ok (Some s)
               /\ auto_mode s = Simulation.auto_mode (Simulation._env c).
Proof.
  unfold Simulation.get_telemetry.
  match goal with
  | |- context [new_TelemetrySnapshot ?s] =>
      destruct (Decoder.new_TelemetrySnapshot_cases s) as [[-> _] | ->]
  end.
  - right. eexists. split; reflexivity.
  - left. reflexivity.
Qed.

(** On the simulated backend, in every state the controller runs
    through, the telemetry the use case asks for is available, and the
    check of the use case and the gate of the controller agree:
    [ManualControlUseCase.execute] answers what [send_command] answers
    and leaves the controller [send_command] leaves, whatever the
    command. *)
Theorem manual_control_on_simulation
        (c : Simulation.SimulatedHardwareController) (command : DeviceCommand)
        (fuel : nat) (now : Z) :
  SimulationFacts.runs c ->
  (exists s, get_telemetry (Simulated c) now = Ok (Some s)
             /\ auto_mode s = Simulation.auto_mode (Simulation._env c))
  /\ manual_control fuel (Simulated c) command now
     = Some (Ok (fst (Simulation.send_command c command)),
             Simulated (snd (Simulation.send_command c command))).
Proof.
  intros Hruns.
  pose proof (SimulationFacts.runs_reachable Hruns) as Hreach.
  destruct (EnvironmentRanges.get_telemetry_in_range c now
              (EnvironmentRanges.in_range_reachable Hreach)) as [s Hs].
  assert (Hauto : auto_mode s = Simulation.auto_mode (Simulation._env c)).
  { destruct (simulated_telemetry_cases c now) as [H | (s' & H & Hs')];
      rewrite H in Hs; [discriminate | now injection Hs as <-]. }
  split; [exists s; split; [exact Hs | exact Hauto]|].
  unfold manual_control; simpl. rewrite Hs; simpl. rewrite Hauto.
  unfold Simulation.send_command.
  destruct (Simulation.auto_mode (Simulation._env c) && negb (manual_override command));
    reflexivity.
Qed.
End WithInterpreter.

Lemma manual_control_on_simulation_witness :
  (exists s,
      @get_telemetry exact_interpreter (Simulated EnvironmentRanges.shaken_controller) 7
      = Ok (Some s)
      /\ auto_mode s = true)
  /\ @manual_control exact_interpreter 3 (Simulated EnvironmentRanges.shaken_controller)
                     (mkDeviceCommand NIGHT_LED ON 9 false) 7
     = Some (Ok false, Simulated EnvironmentRanges.shaken_controller).
Proof.
  exact (@manual_control_on_simulation exact_interpreter EnvironmentRanges.shaken_controller
           (mkDeviceCommand NIGHT_LED ON 9 false) 3 7 SimulationFacts.shaken_controller_runs).
Defined.

Lemma manual_control_blocked_on_serial_witness :
  @manual_control exact_interpreter 3 (Serial SerialFacts.told_manual)
                  (mkDeviceCommand NIGHT_LED ON 9 false) 9
  = Some (Ok false, Serial SerialFacts.told_manual).
Proof.
  apply (@manual_control_blocked_on_serial exact_interpreter SerialFacts.told_manual
           Decoder.sample_snapshot (mkDeviceCommand NIGHT_LED ON 9 false) 3 9
           SerialFacts.told_manual_reachable).
  - vm_compute. reflexivity.
  - reflexivity.
Defined.

(** The same command with override goes to the link. *)
Example manual_control_override_on_serial :
  option_map fst
    (@manual_control exact_interpreter 3 (Serial SerialFacts.told_manual)
                     (mkDeviceCommand NIGHT_LED ON 9 true) 9)
  = Some (Ok true).
Proof. vm_compute. reflexivity. Qed.

(** *** The safety check *)

Lemma any_night_led (commands : list DeviceCommand) :
  existsb (fun cmd => DeviceType_eqb (device_type cmd) NIGHT_LED) commands = true
  <-> Exists (fun cmd => device_type cmd = NIGHT_LED) commands.
Proof.
  rewrite existsb_exists, Exists_exists. split; intros (x & Hin & Hx); exists x;
    (split; [exact Hin|]); destruct (device_type x); try discriminate; reflexivity.
Qed.

Lemma no_manual_command (commands : list DeviceCommand) :
  (List.length (filter (fun cmd => negb (manual_override cmd)) commands) =? 0)%nat = true
  <-> Forall (fun cmd => manual_override cmd = true) commands.
Proof.
  rewrite Nat.eqb_eq. induction commands as [|cmd commands IH]; simpl.
  - split; [constructor | reflexivity].
  - destruct (manual_override cmd) eqn:E; simpl.
    + rewrite IH. split; [intros H; constructor; assumption | intros H; now inversion H].
    + split; [discriminate | intros H; inversion H; congruence].
Qed.

(** The safety check passes exactly when no command addresses the night
    LED during an emergency and, while auto mode is on, every command
    carries manual override. When both rules are broken the reason given
    is the emergency. *)
Theorem check_safety_rules (commands : list DeviceCommand) (current_state : TelemetrySnapshot) :
  (fst (check_safety commands current_state) = true
   <-> (has_emergency current_state = true ->
        Forall (fun cmd => device_type cmd <> NIGHT_LED) commands)
       /\ (auto_mode current_state = true ->
           Forall (fun cmd => manual_override cmd = true) commands))
  /\ (has_emergency current_state = true ->
      Exists (fun cmd => device_type cmd = NIGHT_LED) commands ->
      check_safety commands current_state = (false, emergency_reason)).
Proof.
  unfold check_safety.
  assert (Hled : Exists (fun cmd => device_type cmd = NIGHT_LED) commands
                 -> ~ Forall (fun cmd => device_type cmd <> NIGHT_LED) commands).
  { intros Hex Hall. apply Exists_exists in Hex as (x & Hin & Hx).
    rewrite Forall_forall in Hall. exact (Hall x Hin Hx). }
  destruct (existsb (fun cmd => DeviceType_eqb (device_type cmd) NIGHT_LED) commands) eqn:Ex.
  - apply any_night_led in Ex. pose proof (Hled Ex) as Hno.
    destruct (List.length (filter (fun cmd => negb (manual_override cmd)) commands) =? 0)%nat
      eqn:El.
    + apply no_manual_command in El.
      destruct (has_emergency current_state), (auto_mode current_state); simpl;
        intuition (discriminate || congruence).
    + assert (Hsome : ~ Forall (fun cmd => manual_override cmd = true) commands).
      { intros H. apply no_manual_command in H. congruence. }
      destruct (has_emergency current_state), (auto_mode current_state); simpl;
        intuition (discriminate || congruence).
  - assert (Hall : Forall (fun cmd => device_type cmd <> NIGHT_LED) commands).
    { apply Forall_forall. intros x Hin Hx.
      assert (existsb (fun cmd => DeviceType_eqb (device_type cmd) NIGHT_LED) commands = true)
        by (apply any_night_led, Exists_exists; exists x; split; assumption).
      congruence. }
    destruct (List.length (filter (fun cmd => negb (manual_override cmd)) commands) =? 0)%nat
      eqn:El.
    + apply no_manual_command in El.
      destruct (has_emergency current_state), (auto_mode current_state); simpl;
        intuition (discriminate || congruence).
    + assert (Hsome : ~ Forall (fun cmd => manual_override cmd = true) commands).
      { intros H. apply no_manual_command in H. congruence. }
      destruct (has_emergency current_state), (auto_mode current_state); simpl;
        intuition (discriminate || congruence).
Qed.

Lemma check_safety_rules_witness :
  check_safety [mkDeviceCommand NIGHT_LED OFF 0 false]
               (mkTelemetrySnapshot 0 650 20 false false 3 750 false true 45 (245 # 10) 55
                                    true SIMULATION)
  = (false, emergency_reason).
Proof.
  apply (proj2 (check_safety_rules [mkDeviceCommand NIGHT_LED OFF 0 false]
                  (mkTelemetrySnapshot 0 650 20 false false 3 750 false true 45 (245 # 10) 55
                                       true SIMULATION))).
  - reflexivity.
  - constructor. reflexivity.
Defined.

End UseCaseFacts.

(** * Further properties of the decoder *)

Module DecoderFacts.
Import Entities Regex Convert SerialController FieldOrder.

Section WithInterpreter.
Context {I : Interpreter}.

(** Text in front of a line is ignored as long as it holds no upper-case
    letter (a time stamp, punctuation, lower-case words): the line decodes
    as it does without it. *)
Theorem leading_text_is_ignored
        (self : SerialHardwareController) (now : Z) (noise line : list ascii) :
  forallb (fun c => negb (is_upper c)) noise = true ->
  _parse_telemetry self now (noise ++ line) = _parse_telemetry self now line.
Proof.
  intros Hnoise.
  assert (Hs : forall k, search (pattern k) (noise ++ line) = search (pattern k) line).
  { intros k. apply search_quiet.
    apply quiet_class with (fun c => negb (is_upper c)); [|exact Hnoise].
    intros c Hc. now apply negb_true_iff in Hc. }
  unfold _parse_telemetry, parse_body.
  rewrite (Hs KLdr : search re_ldr _ = _), (Hs KGarage : search re_garage _ = _),
    (Hs KMotion : search re_motion _ = _), (Hs KRain : search re_rain _ = _),
    (Hs KWater : search re_water _ = _), (Hs KSoil : search re_soil _ = _),
    (Hs KPump : search re_pump _ = _), (Hs KFlame : search re_flame _ = _),
    (Hs KSmoke : search re_smoke _ = _), (Hs KTemp : search re_temp _ = _),
    (Hs KHum : search re_hum _ = _).
  reflexivity.
Qed.

(** The run of digits is not longer than [int] converts. *)
Definition fits (ds : list ascii) : Prop :=
  int_max_str_digits = 0%nat \/ (List.length ds <= int_max_str_digits)%nat.

Lemma py_int_digits (ds : list ascii) :
  some_digits ds -> fits ds -> py_int ds = Ok (digits_value ds).
Proof.
  intros [Hds Hne] Hfit. unfold py_int.
  destruct ds as [|c ds]; [congruence|].
  rewrite Hds; simpl negb.
  destruct Hfit as [H0 | Hle].
  - rewrite H0. reflexivity.
  - destruct (Nat.ltb_spec int_max_str_digits (List.length (c :: ds))) as [Hlt | _]; [lia|].
    now rewrite andb_false_r.
Qed.
End WithInterpreter.

Lemma leading_text_is_ignored_witness :
  @_parse_telemetry exact_interpreter Decoder.disabled_controller 7
    (str "[12:00:01] telemetry> " ++ Decoder.sample_line)
  = @_parse_telemetry exact_interpreter Decoder.disabled_controller 7 Decoder.sample_line.
Proof.
  apply (@leading_text_is_ignored exact_interpreter Decoder.disabled_controller 7
           (str "[12:00:01] telemetry> ") Decoder.sample_line).
  reflexivity.
Defined.

(** *** A well-formed line decodes to what it says *)

Lemma token_motion (b : bool) :
  text_eqb (group_of (FMotion b)) (str "Motion!") = b.
Proof. destruct b; reflexivity. Qed.

Lemma token_rain (b : bool) : text_eqb (group_of (FRain b)) (str "Rain!") = b.
Proof. destruct b; reflexivity. Qed.

Lemma token_pump (b : bool) : text_eqb (group_of (FPump b)) (str "ON") = b.
Proof. destruct b; reflexivity. Qed.

Lemma token_flame (ws : list ascii) (b : bool) :
  text_eqb (group_of (FFlame ws b)) (str "YES") = b.
Proof. destruct b; reflexivity. Qed.

Section Line.
Context {I : Interpreter}.
Variable sep : list ascii.
Hypothesis sep_not_empty : sep <> [].
Hypothesis sep_chars : forallb (fun c => negb (is_alnum c)) sep = true.

(** A line of the eleven fields, in any order, whose numbers convert and
    lie in the validated ranges decodes to a snapshot holding exactly the
    numbers written and the flags named: motion for "Motion!", rain for
    "Rain!", the pump for "Pump ON", flame for "Flame: YES". *)
Theorem well_formed_line_decodes
        (self : SerialHardwareController) (now : Z) (fs : list field)
        (w1 d1 w2 d2 w2' : list ascii) (motion rain : bool)
        (w5 d5 w5' w6 d6 : list ascii) (pump : bool) (w8 : list ascii) (flame : bool)
        (w9 d9 w10 n10 w10' w11 n11 : list ascii) (t h : Q) :
  Permutation fs
    [FLdr w1 d1; FGarage w2 d2 w2'; FMotion motion; FRain rain; FWater w5 d5 w5';
     FSoil w6 d6; FPump pump; FFlame w8 flame; FSmoke w9 d9; FTemp w10 n10 w10';
     FHum w11 n11] ->
  Forall wf_field fs ->
  Forall fits [d1; d2; d5; d6; d9] ->
  py_float n10 = Ok t -> py_float n11 = Ok h ->
  (0 <= digits_value d1 <= 1023)%Z -> 0 <= h <= 100 -> -40 <= t <= 80 ->
  _parse_telemetry self now (line sep fs)
  = Ok (Some (mkTelemetrySnapshot now (digits_value d1) (digits_value d2) motion rain
                                  (digits_value d5) (digits_value d6) pump flame
                                  (digits_value d9) t h true ARDUINO)).
Proof.
  intros Hperm Hwf Hfits Ht Hh Hldr Hhum Htemp.
  set (canon := [FLdr w1 d1; FGarage w2 d2 w2'; FMotion motion; FRain rain;
                 FWater w5 d5 w5'; FSoil w6 d6; FPump pump; FFlame w8 flame;
                 FSmoke w9 d9; FTemp w10 n10 w10'; FHum w11 n11]) in *.
  assert (Hnd : NoDup (map kind_of fs)).
  { apply Permutation_NoDup with (map kind_of canon);
      [apply Permutation_map, Permutation_sym, Hperm | exact NoDup_all_kinds]. }
  assert (Hfind : forall f, In f canon ->
                            search (pattern (kind_of f)) (line sep fs) = Some (group_of f)).
  { intros f Hf. apply search_field; try assumption.
    apply Permutation_in with canon; [now apply Permutation_sym | exact Hf]. }
  assert (Hwfc : forall f, In f canon -> wf_field f).
  { apply Forall_forall. apply Permutation_Forall with fs; assumption. }
  assert (Hfit : forall d, In d [d1; d2; d5; d6; d9] -> fits d)
    by (apply Forall_forall; exact Hfits).
  destruct (Hwfc (FLdr w1 d1)) as [_ D1]; [unfold canon; simpl; tauto|].
  destruct (Hwfc (FGarage w2 d2 w2')) as (_ & D2 & _); [unfold canon; simpl; tauto|].
  destruct (Hwfc (FWater w5 d5 w5')) as (_ & D5 & _); [unfold canon; simpl; tauto|].
  destruct (Hwfc (FSoil w6 d6)) as [_ D6]; [unfold canon; simpl; tauto|].
  destruct (Hwfc (FSmoke w9 d9)) as [_ D9]; [unfold canon; simpl; tauto|].
  assert (P1 : py_int d1 = Ok (digits_value d1))
    by (apply py_int_digits; [exact D1 | apply Hfit; simpl; tauto]).
  assert (P2 : py_int d2 = Ok (digits_value d2))
    by (apply py_int_digits; [exact D2 | apply Hfit; simpl; tauto]).
  assert (P5 : py_int d5 = Ok (digits_value d5))
    by (apply py_int_digits; [exact D5 | apply Hfit; simpl; tauto]).
  assert (P6 : py_int d6 = Ok (digits_value d6))
    by (apply py_int_digits; [exact D6 | apply Hfit; simpl; tauto]).
  assert (P9 : py_int d9 = Ok (digits_value d9))
    by (apply py_int_digits; [exact D9 | apply Hfit; simpl; tauto]).
  pose proof (Hfind (FLdr w1 d1)) as S1. pose proof (Hfind (FGarage w2 d2 w2')) as S2.
  pose proof (Hfind (FMotion motion)) as S3. pose proof (Hfind (FRain rain)) as S4.
  pose proof (Hfind (FWater w5 d5 w5')) as S5. pose proof (Hfind (FSoil w6 d6)) as S6.
  pose proof (Hfind (FPump pump)) as S7. pose proof (Hfind (FFlame w8 flame)) as S8.
  pose proof (Hfind (FSmoke w9 d9)) as S9. pose proof (Hfind (FTemp w10 n10 w10')) as S10.
  pose proof (Hfind (FHum w11 n11)) as S11.
  cbn [kind_of pattern] in S1, S2, S3, S4, S5, S6, S7, S8, S9, S10, S11.
  unfold _parse_telemetry, parse_body.
  rewrite S1, S2, S3, S4, S5, S6, S7, S8, S9, S10, S11 by (unfold canon; simpl; tauto).
  cbn [forallb is_some negb andb group1 bind].
  rewrite token_motion, token_rain, token_pump, token_flame.
  cbn [group_of].
  rewrite P1, P2, P5, P6, P9. cbn [bind].
  rewrite Ht, Hh. cbn [bind].
  unfold new_TelemetrySnapshot.
  match goal with
  | |- context [post_init ?s] =>
      assert (Hpost : post_init s = Ok tt)
        by (apply SerialFacts.post_init_ok; unfold SerialFacts.valid_ranges;
            cbn [ldr_value humidity temperature]; tauto)
  end.
  rewrite Hpost. reflexivity.
Qed.
End Line.

Lemma fits_short (ds : list ascii) :
  (List.length ds <=? 4300)%nat = true -> @fits exact_interpreter ds.
Proof.
  intros H. right. apply Nat.leb_le. exact H.
Qed.

Lemma sample_digits_fit :
  Forall (@fits exact_interpreter) [str "300"; str "10"; str "3"; str "600"; str "50"].
Proof.
  repeat (apply Forall_cons; [apply fits_short; reflexivity|]). apply Forall_nil.
Qed.

Lemma well_formed_line_decodes_witness :
  @_parse_telemetry exact_interpreter Decoder.disabled_controller 7 reversed_line
  = Ok (Some Decoder.sample_snapshot).
Proof.
  refine (@well_formed_line_decodes exact_interpreter (str " | ") _ eq_refl
            Decoder.disabled_controller 7 (rev sample_fields)
            (str " ") (str "300") (str " ") (str "10") (str " ") false true
            (str " ") (str "3") (str " ") (str " ") (str "600") false (str " ") false
            (str " ") (str "50") (str " ") (str "24.5") (str " ") (str " ") (str "45.0")
            (245 # 10) (450 # 10) _ _ sample_digits_fit eq_refl eq_refl _ _ _).
  - discriminate.
  - apply Permutation_sym, (Permutation_rev sample_fields).
  - apply Permutation_Forall with sample_fields;
      [apply Permutation_rev | exact sample_fields_wf].
  - vm_compute. split; discriminate.
  - split; lra.
  - split; lra.
Defined.

End DecoderFacts.

(** * Port detection and the wire form of the control law *)

Module DetectionFacts.
Import Entities Regex SerialController.

Lemma lit_prefix (p s rest : list ascii) : lit p s = Some rest <-> s = p ++ rest.
Proof.
  revert s. induction p as [|a p IH]; intros s; simpl.
  - split; [intros H; now injection H | intros ->; reflexivity].
  - destruct s as [|b s]; [split; discriminate|].
    destruct (Ascii.eqb_spec a b) as [<- | Hne].
    + rewrite IH. split; [intros ->; reflexivity | intros H; now injection H].
    + split; [discriminate | intros H; injection H as H _; congruence].
Qed.

(** [keyword in text] holds exactly when the keyword stands somewhere in
    the text. *)
Lemma contains_spec (keyword text : list ascii) :
  contains keyword text = true <-> exists pre suf, text = pre ++ keyword ++ suf.
Proof.
  induction text as [|c text IH]; simpl.
  - unfold is_prefix. destruct (lit keyword []) as [rest|] eqn:E; simpl.
    + apply lit_prefix in E. split; [intros _; exists [], rest; exact E | reflexivity].
    + split; [discriminate | intros (pre & suf & H)].
      destruct pre; [|discriminate]. simpl in H.
      apply lit_prefix in H. congruence.
  - unfold is_prefix. destruct (lit keyword (c :: text)) as [rest|] eqn:E; simpl.
    + apply lit_prefix in E. split; [intros _; exists [], rest; exact E | reflexivity].
    + rewrite IH. split.
      * intros (pre & suf & ->). exists (c :: pre), suf. reflexivity.
      * intros (pre & suf & H). destruct pre as [|c' pre].
        -- simpl in H. apply lit_prefix in H. congruence.
        -- injection H as _ ->. exists pre, suf. reflexivity.
Qed.

(** The description names an Arduino: one of the keywords stands in it,
    in any mix of upper and lower case. *)
Definition names_arduino (description : list ascii) : Prop :=
  exists keyword pre suf,
    In keyword arduino_keywords /\ map lower description = pre ++ keyword ++ suf.

Definition is_arduino (port : ListPortInfo) : bool :=
  existsb (fun keyword => contains keyword (map lower (description port))) arduino_keywords.

Lemma is_arduino_spec (port : ListPortInfo) :
  is_arduino port = true <-> names_arduino (description port).
Proof.
  unfold is_arduino, names_arduino. rewrite existsb_exists. split.
  - intros (kw & Hin & Hc). apply contains_spec in Hc as (pre & suf & H).
    exists kw, pre, suf. split; assumption.
  - intros (kw & pre & suf & Hin & H). exists kw. split; [exact Hin|].
    apply contains_spec. exists pre, suf. exact H.
Qed.

(** [_detect_arduino_port] answers with the device of the first listed
    port whose description names an Arduino ("arduino", "ch340" or "ch341"
    in any letter case), and with nothing exactly when no listed port
    does. *)
Theorem detect_first_arduino (host : Host) :
  (_detect_arduino_port host = None
   <-> Forall (fun port => ~ names_arduino (description port)) (comports host))
  /\ (forall dev,
        _detect_arduino_port host = Some dev ->
        exists before port after,
          comports host = before ++ port :: after
          /\ device port = dev
          /\ names_arduino (description port)
          /\ Forall (fun p => ~ names_arduino (description p)) before).
Proof.
  unfold _detect_arduino_port. fold is_arduino.
  change (fun port => existsb (fun keyword => contains keyword (map lower (description port)))
                              arduino_keywords) with is_arduino.
  induction (comports host) as [|p ports [IHnone IHsome]]; simpl.
  - split; [split; [constructor | reflexivity] | discriminate].
  - destruct (is_arduino p) eqn:E.
    + apply is_arduino_spec in E. split.
      * split; [discriminate | intros H; inversion H; contradiction].
      * intros dev H. injection H as <-. exists [], p, ports. repeat split; auto.
    + assert (Hp : ~ names_arduino (description p)).
      { intros H. apply is_arduino_spec in H. congruence. }
      split.
      * rewrite IHnone. split; [intros H; constructor; assumption | intros H; now inversion H].
      * intros dev H. destruct (IHsome dev H) as (before & port & after & -> & Hd & Hn & Hb).
        exists (p :: before), port, after. repeat split; auto.
Qed.

Definition two_port_host : Host :=
  mkHost [mkListPortInfo (str "/dev/ttyS0") (str "Standard Serial Port");
          mkListPortInfo (str "COM3") (str "USB-SERIAL CH340 (COM3)");
          mkListPortInfo (str "COM7") (str "Arduino Uno (COM7)")]
         (fun _ _ _ => Raise SerialException).

Lemma detect_first_arduino_witness :
  exists before port after,
    comports two_port_host = before ++ port :: after
    /\ device port = str "COM3"
    /\ names_arduino (description port)
    /\ Forall (fun p => ~ names_arduino (description p)) before.
Proof.
  apply (proj2 (detect_first_arduino two_port_host) (str "COM3")).
  reflexivity.
Defined.

End DetectionFacts.

Module ControlLawFacts.
Import Entities.

Definition bit (b : bool) : ascii := if b then "1"%char else "0"%char.

(** Every command of the control law encodes: with auto mode on the
    four wire strings are L, G, C and P, each followed by 1 or 0 as the
    thresholds decide; the cover's digit is 0 when it rains. *)
Theorem control_law_on_the_wire (now : Z) (s : TelemetrySnapshot) :
  auto_mode s = true ->
  map to_arduino_format (evaluate_auto_mode_logic now s)
  = [ Ok (Codec.wire "L" (bit (500 <? ldr_value s)%Z));
      Ok (Codec.wire "G" (bit ((5 <=? garage_distance s)%Z && (garage_distance s <=? 15)%Z)));
      Ok (Codec.wire "C" (bit (negb (rain_detected s))));
      Ok (Codec.wire "P" (bit ((1 <=? water_level s)%Z && (water_level s <=? 5)%Z
                               && (900 <? soil_moisture s)%Z))) ].
Proof.
  intros Hauto. unfold evaluate_auto_mode_logic. rewrite Hauto; simpl.
  destruct (500 <? ldr_value s)%Z,
    ((5 <=? garage_distance s)%Z && (garage_distance s <=? 15)%Z),
    (rain_detected s),
    ((1 <=? water_level s)%Z && (water_level s <=? 5)%Z && (900 <? soil_moisture s)%Z);
    reflexivity.
Qed.

Lemma control_law_on_the_wire_witness :
  map to_arduino_format (evaluate_auto_mode_logic 0 ControlLaw.test_snapshot)
  = [Ok "L1"; Ok "G1"; Ok "C0"; Ok "P1"]%string.
Proof.
  exact (@control_law_on_the_wire 0 ControlLaw.test_snapshot eq_refl).
Defined.

End ControlLawFacts.
